(** * go-hubspot-sdk: the request-dispatch and error layer

    A shallow embedding of the resource clients of the SDK (deals,
    companies, associations, schemas, lists, and the objects package as far
    as its tests describe it) together with the properties of the dispatch
    and error layer: functional options, the error classifier, the batch
    result model and the handling of answers that are empty or do not
    decode.

    Conventions of the embedding:
    - a Go [int] is a [Z]; a Go [string] and a byte slice are a [string];
    - a Go pointer that may be [nil] is an [option]; the pair of a
      result pointer and an error returned by a method is
      [option T * option error]; a nil slice is the empty list;
    - a [map[string]string] is a [gmap string string];
    - a pointer to a [client.HubSpotError] held in an [error] is taken
      non-nil;
    - the network call [c.apiClient.Do(ctx, req)] is a visible event of
      the computation ([Call]), answered by a transport function. *)

From Stdlib Require Import ZArith String Ascii List Lia.
From stdpp Require Import base gmap strings list pretty.

Open Scope string_scope.
Open Scope Z_scope.

Set Warnings "-register-all".

(** ** Pieces of the Go standard library used by the sources *)

(** [strings.Join(elems, sep)]. *)
Fixpoint strings_Join (elems : list string) (sep : string) : string :=
  match elems with
  | [] => ""
  | [s] => s
  | s :: rest => s +:+ sep +:+ strings_Join rest sep
  end.

(** [strings.HasPrefix(s, prefix)]. *)
Fixpoint strings_HasPrefix (s prefix : string) {struct prefix} : bool :=
  match prefix with
  | EmptyString => true
  | String a prefix' =>
      match s with
      | EmptyString => false
      | String b s' => Ascii.eqb a b && strings_HasPrefix s' prefix'
      end
  end.

(** [strings.Contains(s, substr)], which [assert.Contains] uses on strings. *)
Fixpoint strings_Contains (s substr : string) : bool :=
  strings_HasPrefix s substr ||
  match s with
  | EmptyString => false
  | String _ s' => strings_Contains s' substr
  end.

(** [fmt.Sprintf("%d", n)]. *)
Definition Sprintf_d (n : Z) : string := pretty n.

(** A value of interface type held in a field of a payload struct
    ([interface{}], [any]): what the field receives from, or contributes
    to, a JSON document.  A number is kept as its literal text. *)
Inductive JSONValue : Type :=
| JNull
| JBool (b : bool)
| JNumber (literal : string)
| JString (s : string)
| JArray (elems : list JSONValue)
| JObject (members : list (string * JSONValue)).

(** ** Package client

    The package itself is not among the sources at hand; only its uses
    are.  What the resource clients need of it is modelled here. *)
Module client.

(** Modelled from the spec: the declaration of [client.HubSpotError] is
    missing.  Section 3 gives the transport-level error a status, a
    category string and a message; the tests build it with exactly the
    fields [Status], [Category] and [Message]. *)
Record HubSpotError : Type := {
  Status : Z;
  Category : string;
  Message : string
}.

(** [context.Context]: the cancellation token of the caller, opaque here. *)
Inductive Context : Type := Ctx (id : nat).

(** Go's [any]: a dynamic type and a value of it. *)
Record any : Type := Any { dyn_type : Type; dyn_value : dyn_type }.

(** Modelled from the spec: the declaration of [client.Request] is
    missing.  Section 3: method, interpolated path, a mapping from
    query-parameter name to value, an optional body payload, a
    resource-type tag and the caller's cancellation token. *)
Record Request : Type := {
  Method : string;
  Path : string;
  Query : gmap string string;
  Body : option any;
  ResourceType : string;
  ctx : option Context
}.

(** Modelled from the spec: [client.NewRequest(method, path)] is missing;
    section 4.1: given method and path, produce a Request value. *)
Definition NewRequest (method path : string) : Request :=
  {| Method := method; Path := path; Query := ∅; Body := None;
     ResourceType := ""; ctx := None |}.

(** Modelled from the spec: the method [WithContext] of [Request] is
    missing; it records the caller's cancellation token. *)
Definition WithContext (req : Request) (c : Context) : Request :=
  {| Method := Method req; Path := Path req; Query := Query req;
     Body := Body req; ResourceType := ResourceType req; ctx := Some c |}.

(** Modelled from the spec: the method [WithResourceType] of [Request] is
    missing; section 4.1: a tag for error messages, no effect on wire
    behaviour. *)
Definition WithResourceType (req : Request) (tag : string) : Request :=
  {| Method := Method req; Path := Path req; Query := Query req;
     Body := Body req; ResourceType := tag; ctx := ctx req |}.

(** Modelled from the spec: the method [WithBody] of [Request] is
    missing; it attaches the optional body payload of section 3. *)
Definition WithBody {T : Type} (req : Request) (body : T) : Request :=
  {| Method := Method req; Path := Path req; Query := Query req;
     Body := Some (Any T body); ResourceType := ResourceType req;
     ctx := ctx req |}.

(** Modelled from the spec: the method [AddQueryParam] of [Request] is
    missing.  Section 4.1: it appends or overwrites a query parameter;
    calling it twice with the same name leaves exactly one value, the last
    one. *)
Definition AddQueryParam (req : Request) (name value : string) : Request :=
  {| Method := Method req; Path := Path req;
     Query := <[name := value]> (Query req);
     Body := Body req; ResourceType := ResourceType req; ctx := ctx req |}.

Module Response.
(** Modelled from the spec: the declaration of [client.Response] is
    missing.  Section 3, RawResponse: a status code and the raw body
    bytes; the clients read [resp.Body] only. *)
Record t : Type := {
  StatusCode : Z;
  Body : string
}.
End Response.

End client.

(** ** Typed errors of package lists (crm/v3/lists/errors.go) *)

Module ListNotFoundError.
(** [ListNotFoundError] is returned when a list is not found. *)
Record t : Type := { ListID : string; Original : client.HubSpotError }.
Definition Error (e : t) : string := "list " +:+ ListID e +:+ " not found".
End ListNotFoundError.

Module ListValidationError.
(** [ListValidationError] is returned on validation failures. *)
Record t : Type := {
  Field : string;
  Message : string;
  Original : client.HubSpotError
}.
Definition Error (e : t) : string :=
  "validation error on field " +:+ Field e +:+ ": " +:+ Message e.
End ListValidationError.

Module ListAlreadyExistsError.
(** [ListAlreadyExistsError] is returned when trying to create a
    duplicate. *)
Record t : Type := { ListName : string; Original : client.HubSpotError }.
Definition Error (e : t) : string :=
  "list with name " +:+ ListName e +:+ " already exists".
End ListAlreadyExistsError.

Module RecordNotFoundError.
(** [RecordNotFoundError] is returned when a record is not found in a
    list. *)
Record t : Type := {
  RecordID : string;
  ListID : string;
  Original : client.HubSpotError
}.
Definition Error (e : t) : string :=
  "record " +:+ RecordID e +:+ " not found in list " +:+ ListID e.
End RecordNotFoundError.

(** ** Typed errors of package objects

    crm/v3/objects/errors.go is not among the sources at hand; its tests
    are. *)

Module ObjectNotFoundError.
(** Modelled from the spec: the struct is missing; NotFound of section 3
    with the fields TestObjectNotFoundError_Error sets. *)
Record t : Type := { ObjectType : string; Original : client.HubSpotError }.
(** Modelled from the spec: the method is missing; the text is the one
    TestObjectNotFoundError_Error expects. *)
Definition Error (e : t) : string := "object " +:+ ObjectType e +:+ " not found".
End ObjectNotFoundError.

Module ObjectValidationError.
(** Modelled from the spec: the struct is missing; ValidationError of
    section 3 with the fields TestObjectValidationError_Error sets. *)
Record t : Type := {
  Field : string;
  Message : string;
  Original : client.HubSpotError
}.
(** Modelled from the spec: the method is missing; the text is the one
    TestObjectValidationError_Error expects. *)
Definition Error (e : t) : string :=
  "validation error on field " +:+ Field e +:+ ": " +:+ Message e.
End ObjectValidationError.

Module ObjectAlreadyExistsError.
(** Modelled from the spec: the struct is missing; AlreadyExists of
    section 3 with the fields TestObjectAlreadyExistsError_Error sets. *)
Record t : Type := { ObjectID : string; Original : client.HubSpotError }.
(** Modelled from the spec: the method is missing; the text is the one
    TestObjectAlreadyExistsError_Error expects. *)
Definition Error (e : t) : string :=
  "object with id " +:+ ObjectID e +:+ " already exists".
End ObjectAlreadyExistsError.

Module ObjectError.
(** Modelled from the spec: the declaration of [ObjectError] is missing;
    a sub-error carries its own message and sub-category (section 3). *)
Record t : Type := { Message : string; SubCategory : string }.
End ObjectError.

Module BatchError.
(** Modelled from the spec: the declaration of [BatchError] is missing;
    BatchItemError of section 3 with the fields the tests set. *)
Record t : Type := {
  Status : string;
  Category : string;
  Message : string;
  Context : gmap string (list string);
  Links : gmap string string;
  Errors : list ObjectError.t
}.
(** Modelled from the spec: the method [Error] of [BatchError] is
    missing.  Section 4.6: if a top-level message exists, the message
    followed by [": "] and the sub-error messages joined by ["; "] when
    sub-errors exist, else just the message; if no top-level message
    exists but sub-errors do, ["batch error: "] and the first sub-error;
    if neither exists, ["batch error"]. *)
Definition Error (e : t) : string :=
  if negb (String.eqb (Message e) "") then
    match Errors e with
    | [] => Message e
    | _ :: _ =>
        Message e +:+ ": " +:+
        strings_Join (map ObjectError.Message (Errors e)) "; "
    end
  else
    match Errors e with
    | first :: _ => "batch error: " +:+ ObjectError.Message first
    | [] => "batch error"
    end.
End BatchError.

(** ** Go's [error] interface

    The values an [error] holds in this program: the structured server
    error, the typed errors of the packages, the errors [fmt.Errorf]
    builds, and errors of foreign packages (transport, encoding/json,
    [errors.New]) known by their message. *)
Inductive error : Type :=
| HubSpotErr (e : client.HubSpotError)
| ForeignErr (msg : string)
| Errorf (msg : string)
| Errorf_w (prefix : string) (err : error)
| ListNotFoundErr (e : ListNotFoundError.t)
| ListValidationErr (e : ListValidationError.t)
| ListAlreadyExistsErr (e : ListAlreadyExistsError.t)
| RecordNotFoundErr (e : RecordNotFoundError.t)
| ObjectNotFoundErr (e : ObjectNotFoundError.t)
| ObjectValidationErr (e : ObjectValidationError.t)
| ObjectAlreadyExistsErr (e : ObjectAlreadyExistsError.t)
| BatchErr (e : BatchError.t).

(** The text of a [client.HubSpotError] is produced by the client
    package, which is not among the sources at hand: it is a parameter of
    the rendering. *)
Class HubSpotErrorText := HubSpotError_Error : client.HubSpotError -> string.

(** [err.Error()], by dynamic dispatch; [Errorf_w prefix err] is
    [fmt.Errorf(prefix + "%w", err)]. *)
Fixpoint Error {text : HubSpotErrorText} (err : error) : string :=
  match err with
  | HubSpotErr e => HubSpotError_Error e
  | ForeignErr msg => msg
  | Errorf msg => msg
  | Errorf_w prefix err' => prefix +:+ Error err'
  | ListNotFoundErr e => ListNotFoundError.Error e
  | ListValidationErr e => ListValidationError.Error e
  | ListAlreadyExistsErr e => ListAlreadyExistsError.Error e
  | RecordNotFoundErr e => RecordNotFoundError.Error e
  | ObjectNotFoundErr e => ObjectNotFoundError.Error e
  | ObjectValidationErr e => ObjectValidationError.Error e
  | ObjectAlreadyExistsErr e => ObjectAlreadyExistsError.Error e
  | BatchErr e => BatchError.Error e
  end.

(** The [Original] field of a typed variant, [None] for the other errors. *)
Definition Original (err : error) : option client.HubSpotError :=
  match err with
  | ListNotFoundErr e => Some (ListNotFoundError.Original e)
  | ListValidationErr e => Some (ListValidationError.Original e)
  | ListAlreadyExistsErr e => Some (ListAlreadyExistsError.Original e)
  | RecordNotFoundErr e => Some (RecordNotFoundError.Original e)
  | ObjectNotFoundErr e => Some (ObjectNotFoundError.Original e)
  | ObjectValidationErr e => Some (ObjectValidationError.Original e)
  | ObjectAlreadyExistsErr e => Some (ObjectAlreadyExistsError.Original e)
  | _ => None
  end.

(** ** The network call and the decoders *)

(** The two outcomes of a Go call returning a value and an [error]. *)
Inductive result (T : Type) : Type :=
| Ok (v : T)
| Fail (err : error).
Arguments Ok {T} v.
Arguments Fail {T} err.

(** Modelled from the spec: [client.Client] and its method [Do] are
    missing.  Section 4.3: [Do(context, Request)] yields a RawResponse or
    an error.  It is the only effect of a resource method: a method is a
    computation that either returns or sends one request with [Do] and
    continues with the answer. *)
Inductive Call (A : Type) : Type :=
| Return (a : A)
| Do (c : client.Context) (req : client.Request)
     (k : result client.Response.t -> Call A).
Arguments Return {A} a.
Arguments Do {A} c req k.

Fixpoint Call_bind {A B : Type} (f : A -> Call B) (m : Call A) : Call B :=
  match m with
  | Return a => f a
  | Do c req k => Do c req (fun r => Call_bind f (k r))
  end.

#[export] Instance Call_ret : MRet Call := @Return.
#[export] Instance Call_mbind : MBind Call := @Call_bind.

(** [c.apiClient.Do(ctx, req)]. *)
Definition apiClient_Do (c : client.Context) (req : client.Request)
  : Call (result client.Response.t) :=
  Do c req Return.

(** The transport: what the configured [client.Client] and the server
    behind it answer to a request. *)
Definition Transport : Type :=
  client.Context -> client.Request -> result client.Response.t.

(** Running a method against a transport. *)
Fixpoint run {A : Type} (transport : Transport) (m : Call A) : A :=
  match m with
  | Return a => a
  | Do c req k => run transport (k (transport c req))
  end.

(** The request a method sends first, if it sends one. *)
Definition dispatched {A : Type} (m : Call A) : option client.Request :=
  match m with
  | Return _ => None
  | Do _ req _ => Some req
  end.

(** The transport answers the request of [m] with the response [resp]
    and no error. *)
Definition served {A : Type} (transport : Transport) (m : Call A)
    (resp : client.Response.t) : Prop :=
  match m with
  | Return _ => False
  | Do c req _ => transport c req = Ok resp
  end.

(** [json.Unmarshal(data, &v)] on a zero-valued [v] of type [T]: the
    decoded value, or the error of encoding/json.  The decoder belongs to
    the Go standard library and is a parameter of the clients. *)
Class Unmarshal (T : Type) := json_Unmarshal : string -> result T.

(** [tools.NewRequiredTagStruct(v).UnmarhsalJSON(data)] of internal/tools,
    which is not among the sources at hand: a parameter of the schemas
    client, giving the error of the call or the content of [v] after it. *)
Class RequiredTagStruct (T : Type) := UnmarhsalJSON : string -> result T.

(** A functional option, a function on a [client.Request] pointer in
    every package: the mutation of the request it is applied to. *)
Definition RequestOption : Type := client.Request -> client.Request.

(** [for _, opt := range opts { opt(req) }]. *)
Definition applyOptions (opts : list RequestOption) (req : client.Request)
  : client.Request :=
  fold_left (fun r opt => opt r) opts req.

(** ** Package lists (crm/v3/lists) *)
Module lists.

(** *** models.go *)

(** [time.Time], an instant, as nanoseconds since the epoch. *)
Definition time_Time : Type := Z.

Definition ListProcessingType : Type := string.
Definition Manual : ListProcessingType := "MANUAL".
Definition Dynamic : ListProcessingType := "DYNAMIC".
Definition Snapshot : ListProcessingType := "SNAPSHOT".

Definition ListProcessingStatus : Type := string.
Definition Processing : ListProcessingStatus := "PROCESSING".
Definition Complete : ListProcessingStatus := "COMPLETE".
Definition Error : ListProcessingStatus := "ERROR".

Definition FilterType : Type := string.
Definition Property : FilterType := "PROPERTY".
Definition Association : FilterType := "ASSOCIATION".
Definition PageView : FilterType := "PAGE_VIEW".
Definition CTA : FilterType := "CTA".
Definition Event : FilterType := "EVENT".
Definition FormSubmission : FilterType := "FORM_SUBMISSION".
Definition FormSubmissionOnPage : FilterType := "FORM_SUBMISSION_ON_PAGE".
Definition IntegrationEvent : FilterType := "INTEGRATION_EVENT".
Definition EmailSubscription : FilterType := "EMAIL_SUBSCRIPTION".
Definition CommunicationSubscription : FilterType := "COMMUNICATION_SUBSCRIPTION".
Definition InList : FilterType := "IN_LIST".
Definition NumAssociations : FilterType := "NUM_ASSOCIATIONS".
Definition UnifiedEvents : FilterType := "UNIFIED_EVENTS".
Definition PropertyAssociation : FilterType := "PROPERTY_ASSOCIATION".
Definition Webinar : FilterType := "WEBINAR".
Definition EmailEvent : FilterType := "EMAIL_EVENT".
Definition Privacy : FilterType := "PRIVACY".
Definition AdsSearch : FilterType := "ADS_SEARCH".
Definition AdsTime : FilterType := "ADS_TIME".
Definition SurveyMonkey : FilterType := "SURVEY_MONKEY".
Definition SurveyMonkeyValue : FilterType := "SURVEY_MONKEY_VALUE".
Definition CampaignInfluenced : FilterType := "CAMPAIGN_INFLUENCED".
Definition Constant : FilterType := "CONSTANT".

Definition FilterBranchType : Type := string.
Definition Or : FilterBranchType := "OR".
Definition And : FilterBranchType := "AND".
Definition NotAll : FilterBranchType := "NOT_ALL".
Definition NotAny : FilterBranchType := "NOT_ANY".
Definition Restricted : FilterBranchType := "RESTRICTED".
Definition UnifiedEventsBranch : FilterBranchType := "UNIFIED_EVENTS".
Definition PropertyAssociationBranch : FilterBranchType := "PROPERTY_ASSOCIATION".
Definition AssociationBranch : FilterBranchType := "ASSOCIATION".

Definition AssociationCategory : Type := string.
Definition HubspotDefined : AssociationCategory := "HUBSPOT_DEFINED".
Definition UserDefined : AssociationCategory := "USER_DEFINED".
Definition IntegratorDefined : AssociationCategory := "INTEGRATOR_DEFINED".

Module Filter.
Record t : Type := {
  FilterType : FilterType;
  Property : option string;
  Operation : gmap string JSONValue;
  Operator : option string;
  ListID : option string;
  Metadata : gmap string JSONValue;
  AssociationTypeID : option Z;
  AssociationCategory : option AssociationCategory;
  ToObjectType : option string;
  ToObjectTypeID : option string;
  CoalescingRefineBy : gmap string JSONValue;
  FormID : option string;
  PruningRefineBy : gmap string JSONValue;
  PageURL : option string;
  EnableTracking : option bool;
  CTAName : option string;
  EventID : option string;
  SubscriptionType : option string;
  SubscriptionIDs : list string;
  AcceptedStatuses : list string;
  Channel : option string;
  AcceptedOptStates : list string;
  BusinessUnitID : option string;
  WebinarID : option string;
  AppID : option string;
  EmailID : option string;
  Level : option string;
  ClickURL : option string;
  PrivacyName : option string;
  SearchTerms : list string;
  EntityType : option string;
  AdNetwork : option string;
  SearchTermType : option string;
  SurveyID : option string;
  SurveyQuestion : option string;
  SurveyAnswerRowID : option string;
  SurveyAnswerColID : option string;
  ValueComparison : gmap string JSONValue;
  CampaignID : option string;
  ShouldAccept : option bool;
  Source : option string;
  EventTypeIDInt : option Z;
  FilterLines : list (gmap string JSONValue);
  PropertyWithObjectID : option string
}.
End Filter.

Module FilterBranch.
Inductive t : Type := mk {
  FilterBranchType : FilterBranchType;
  FilterBranchOperator : string;
  FilterBranches : list t;
  Filters : list Filter.t;
  AssociationTypeID : option Z;
  AssociationCategory : option AssociationCategory;
  ObjectTypeID : option string;
  Operator : option string;
  PropertyWithObjectID : option string;
  EventTypeID : option string;
  CoalescingRefineBy : gmap string JSONValue
}.
End FilterBranch.

Module MembershipSettings.
Record t : Type := {
  MembershipTeamID : option Z;
  IncludeUnassigned : option bool
}.
End MembershipSettings.

Module ListPermissions.
Record t : Type := {
  TeamsWithEditAccess : list Z;
  UsersWithEditAccess : list Z
}.
End ListPermissions.

Module List.
Record t : Type := {
  ListID : string;
  Name : string;
  ObjectTypeID : string;
  ProcessingType : ListProcessingType;
  ProcessingStatus : ListProcessingStatus;
  ListVersion : Z;
  Size : option Z;
  CreatedAt : time_Time;
  UpdatedAt : time_Time;
  DeletedAt : option time_Time;
  CreatedByID : string;
  UpdatedByID : string;
  FiltersUpdatedAt : option time_Time;
  MembershipSettings : option MembershipSettings.t;
  ListPermissions : option ListPermissions.t;
  FilterBranch : option FilterBranch.t
}.
End List.

Module ListCreateRequest.
Record t : Type := {
  Name : string;
  ObjectTypeID : string;
  ProcessingType : ListProcessingType;
  FilterBranch : option FilterBranch.t;
  MembershipSettings : option MembershipSettings.t;
  ListPermissions : option ListPermissions.t;
  ListFolderID : option Z;
  CustomProperties : gmap string string
}.
End ListCreateRequest.

Module ListResponse.
Record t : Type := { List : List.t }.
End ListResponse.

Module ListUpdateNameRequest.
Record t : Type := { ListName : string; IncludeFilters : option bool }.
End ListUpdateNameRequest.

Module ListUpdateFiltersRequest.
Record t : Type := {
  FilterBranch : FilterBranch.t;
  IncludeFilters : option bool
}.
End ListUpdateFiltersRequest.

Module ListSearchRequest.
Record t : Type := {
  Query : option string;
  ProcessingTypes : list ListProcessingType;
  AdditionalProperties : list string;
  Count : option Z;
  Offset : option Z
}.
End ListSearchRequest.

Module ListSearchResponse.
Record t : Type := {
  Lists : list List.t;
  Total : Z;
  HasMore : bool;
  Offset : Z
}.
End ListSearchResponse.

Module ListsByIDResponse.
Record t : Type := { Lists : list List.t }.
End ListsByIDResponse.

Module RecordListMembership.
Record t : Type := {
  ListID : string;
  ListVersion : Z;
  FirstAddedTimestamp : time_Time;
  LastAddedTimestamp : time_Time;
  IsPublicList : option bool
}.
End RecordListMembership.

Module RecordMembershipsResponse.
Record t : Type := {
  Results : list RecordListMembership.t;
  Total : option Z
}.
End RecordMembershipsResponse.

Definition MembershipAddRequest : Type := list string.

Definition MembershipRemoveRequest : Type := list string.

Module MembershipAddAndRemoveRequest.
Record t : Type := {
  RecordIDsToAdd : list string;
  RecordIDsToRemove : list string
}.
End MembershipAddAndRemoveRequest.

Module MembershipChangeResponse.
Record t : Type := {
  RecordIDsAdded : list string;
  RecordIDsRemoved : list string
}.
End MembershipChangeResponse.

Module ListMembershipsResponse.
Record t : Type := {
  Results : list string;
  HasMore : option bool;
  Offset : option string
}.
End ListMembershipsResponse.

Module MembershipRecordIdentifier.
Record t : Type := { ObjectTypeID : string; RecordID : string }.
End MembershipRecordIdentifier.

Module BatchReadMembershipsRequest.
Record t : Type := { Inputs : list MembershipRecordIdentifier.t }.
End BatchReadMembershipsRequest.

Module BatchReadMembershipsResponse.
Record t : Type := { Results : list RecordMembershipsResponse.t }.
End BatchReadMembershipsResponse.

Definition ConversionType : Type := string.
Definition ConversionDate : ConversionType := "CONVERSION_DATE".
Definition Inactivity : ConversionType := "INACTIVITY".

Definition TimeUnit : Type := string.
Definition Day : TimeUnit := "DAY".
Definition Week : TimeUnit := "WEEK".
Definition Month : TimeUnit := "MONTH".

Module ScheduleConversionRequest.
Record t : Type := {
  ConversionType : ConversionType;
  Year : option Z;
  Month : option Z;
  Day : option Z;
  TimeUnit : option TimeUnit;
  Offset : option Z
}.
End ScheduleConversionRequest.

Module ScheduledConversionTime.
Record t : Type := {
  ConversionType : ConversionType;
  Year : option Z;
  Month : option Z;
  Day : option Z;
  TimeUnit : option TimeUnit;
  Offset : option Z
}.
End ScheduledConversionTime.

Module ScheduleConversionResponse.
Record t : Type := {
  ListID : string;
  RequestedConversionTime : ScheduledConversionTime.t;
  ConvertedAt : option time_Time
}.
End ScheduleConversionResponse.

Module ListIDMappingRequest.
Record t : Type := { LegacyListIDs : list string }.
End ListIDMappingRequest.

Module ListIDMapping.
Record t : Type := { LegacyListID : string; ListID : string }.
End ListIDMapping.

Module ListIDMappingResponse.
Record t : Type := {
  Mappings : list ListIDMapping.t;
  MissingLegacyListIDs : list string
}.
End ListIDMappingResponse.

Module FolderCreateRequest.
Record t : Type := { Name : string; ParentFolderID : option Z }.
End FolderCreateRequest.

Module Folder.
Record t : Type := {
  FolderID : Z;
  Name : string;
  ParentFolderID : option Z
}.
End Folder.

(** *** errors.go *)

(** [ParseListError] converts a generic HubSpot error to a list-specific
    error.  The type assertion of [err] to a [client.HubSpotError] pointer is the
    match on [HubSpotErr]; the [switch] on the status has the cases 404, 400 and
    409, and every path that does not return falls to [return err]. *)
Definition ParseListError (err : error) (listID : string) : error :=
  match err with
  | HubSpotErr hubspotErr =>
      if client.Status hubspotErr =? 404 then
        ListNotFoundErr
          {| ListNotFoundError.ListID := listID;
             ListNotFoundError.Original := hubspotErr |}
      else if client.Status hubspotErr =? 400 then
        if String.eqb (client.Category hubspotErr) "VALIDATION_ERROR" then
          ListValidationErr
            {| ListValidationError.Field := client.Message hubspotErr;
               ListValidationError.Message := "";
               ListValidationError.Original := hubspotErr |}
        else err
      else if client.Status hubspotErr =? 409 then
        ListAlreadyExistsErr
          {| ListAlreadyExistsError.ListName := "";
             ListAlreadyExistsError.Original := hubspotErr |}
      else err
  | _ => err
  end.

(** [ParseRecordError] converts a generic HubSpot error to a
    record-specific error. *)
Definition ParseRecordError (err : error) (recordID listID : string) : error :=
  match err with
  | HubSpotErr hubspotErr =>
      if client.Status hubspotErr =? 404 then
        RecordNotFoundErr
          {| RecordNotFoundError.RecordID := recordID;
             RecordNotFoundError.ListID := listID;
             RecordNotFoundError.Original := hubspotErr |}
      else ParseListError err listID
  | _ => ParseListError err listID
  end.

(** *** options *)

Definition GetListOption : Type := RequestOption.

Definition WithIncludeFilters (includeFilters : bool) : GetListOption :=
  fun req =>
    if includeFilters then client.AddQueryParam req "includeFilters" "true"
    else req.

Definition ListMembershipsOption : Type := RequestOption.

Definition WithMembershipsLimit (limit : Z) : ListMembershipsOption :=
  fun req => client.AddQueryParam req "limit" (Sprintf_d limit).

Definition WithMembershipsOffset (offset : string) : ListMembershipsOption :=
  fun req => client.AddQueryParam req "offset" offset.

(** *** The client *)
Section Client.
Context {jsonList : Unmarshal ListResponse.t}
        {jsonListsByID : Unmarshal ListsByIDResponse.t}
        {jsonListSearch : Unmarshal ListSearchResponse.t}
        {jsonRecordMemberships : Unmarshal RecordMembershipsResponse.t}
        {jsonBatchMemberships : Unmarshal BatchReadMembershipsResponse.t}
        {jsonMembershipChange : Unmarshal MembershipChangeResponse.t}
        {jsonListMemberships : Unmarshal ListMembershipsResponse.t}
        {jsonConversion : Unmarshal ScheduleConversionResponse.t}.

Definition GetListByID (ctx : client.Context) (listID : string)
    (opts : list GetListOption) : Call (option List.t * option error) :=
  let req := client.NewRequest "GET" ("/crm/v3/lists/" +:+ listID) in
  let req := client.WithContext req ctx in
  let req := client.WithResourceType req "lists" in
  let req := applyOptions opts req in
  r ← apiClient_Do ctx req;
  match r with
  | Fail err => mret (None, Some (ParseListError err listID))
  | Ok resp =>
      match
        json_Unmarshal (T := ListResponse.t)
          (client.Response.Body resp)
      with
      | Fail err =>
          mret
            (None,
             Some
               (Errorf_w
                  "failed to unmarshal list response: " err))
      | Ok lst => mret (Some (ListResponse.List lst), None)
      end
  end.

Definition GetListByName (ctx : client.Context) (ObjectTypeID : string)
    (listName : string) (opts : list GetListOption)
  : Call (option List.t * option error) :=
  let req :=
    client.NewRequest "GET"
      ("/crm/v3/lists/object-type-id/" +:+ ObjectTypeID +:+ "/name/" +:+
       listName) in
  let req := client.WithContext req ctx in
  let req := client.WithResourceType req "lists" in
  let req := applyOptions opts req in
  r ← apiClient_Do ctx req;
  match r with
  | Fail err => mret (None, Some (ParseListError err listName))
  | Ok resp =>
      match
        json_Unmarshal (T := ListResponse.t)
          (client.Response.Body resp)
      with
      | Fail err =>
          mret
            (None,
             Some
               (Errorf_w
                  "failed to unmarshal list response: " err))
      | Ok lst => mret (Some (ListResponse.List lst), None)
      end
  end.

Definition CreateList (ctx : client.Context) (input : ListCreateRequest.t)
  : Call (option List.t * option error) :=
  let req := client.NewRequest "POST" "/crm/v3/lists" in
  let req := client.WithContext req ctx in
  let req := client.WithResourceType req "lists" in
  let req := client.WithBody req input in
  r ← apiClient_Do ctx req;
  match r with
  | Fail err => mret (None, Some (ParseListError err ""))
  | Ok resp =>
      match
        json_Unmarshal (T := ListResponse.t)
          (client.Response.Body resp)
      with
      | Fail err =>
          mret
            (None,
             Some
               (Errorf_w
                  "failed to unmarshal list response: " err))
      | Ok listResp => mret (Some (ListResponse.List listResp), None)
      end
  end.

(** A nil slice of lists is the empty list. *)
Definition GetListsByIDs (ctx : client.Context) (listIDs : list string)
    (opts : list GetListOption) : Call (list List.t * option error) :=
  let req := client.NewRequest "GET" "/crm/v3/lists" in
  let req := client.WithContext req ctx in
  let req := client.WithResourceType req "lists" in
  let req :=
      fold_left (fun r id => client.AddQueryParam r "listIds" id) listIDs req in
  let req := applyOptions opts req in
  r ← apiClient_Do ctx req;
  match r with
  | Fail err => mret ([], Some (ParseListError err ""))
  | Ok resp =>
      match
        json_Unmarshal (T := ListsByIDResponse.t)
          (client.Response.Body resp)
      with
      | Fail err =>
          mret
            ([],
             Some
               (Errorf_w
                  "failed to unmarshal lists response: " err))
      | Ok listsResp => mret (ListsByIDResponse.Lists listsResp, None)
      end
  end.

Definition SearchLists (ctx : client.Context) (input : ListSearchRequest.t)
  : Call (option ListSearchResponse.t * option error) :=
  let req := client.NewRequest "POST" "/crm/v3/lists/search" in
  let req := client.WithContext req ctx in
  let req := client.WithResourceType req "lists" in
  let req := client.WithBody req input in
  r ← apiClient_Do ctx req;
  match r with
  | Fail err => mret (None, Some (ParseListError err ""))
  | Ok resp =>
      match
        json_Unmarshal (T := ListSearchResponse.t)
          (client.Response.Body resp)
      with
      | Fail err =>
          mret
            (None,
             Some
               (Errorf_w
                  "failed to unmarshal search response: " err))
      | Ok searchResp => mret (Some searchResp, None)
      end
  end.

Definition UpdateListName (ctx : client.Context) (listID : string)
    (listName : string) (includeFilters : bool)
  : Call (option List.t * option error) :=
  let req :=
    client.NewRequest "PUT"
      ("/crm/v3/lists/" +:+ listID +:+ "/update-list-name") in
  let req := client.WithContext req ctx in
  let req := client.WithResourceType req "lists" in
  let req := client.AddQueryParam req "listName" listName in
  let req :=
      if includeFilters then client.AddQueryParam req "includeFilters" "true"
      else req in
  r ← apiClient_Do ctx req;
  match r with
  | Fail err => mret (None, Some (ParseListError err listID))
  | Ok resp =>
      match
        json_Unmarshal (T := ListResponse.t)
          (client.Response.Body resp)
      with
      | Fail err =>
          mret
            (None,
             Some
               (Errorf_w
                  "failed to unmarshal list response: " err))
      | Ok listResp => mret (Some (ListResponse.List listResp), None)
      end
  end.

(** The body is a [map[string]any] whose values are a filter branch or a
    boolean. *)
Definition UpdateListFilters (ctx : client.Context) (listID : string)
    (filterBranch : FilterBranch.t) (includeFilters : bool)
  : Call (option List.t * option error) :=
  let req :=
    client.NewRequest "PUT"
      ("/crm/v3/lists/" +:+ listID +:+ "/update-list-filters") in
  let req := client.WithContext req ctx in
  let req := client.WithResourceType req "lists" in
  let body : gmap string (FilterBranch.t + bool) :=
      {["filterBranch" := inl filterBranch]} in
  let body :=
      if includeFilters then <["includeFilters" := inr true]> body else body in
  let req := client.WithBody req body in
  r ← apiClient_Do ctx req;
  match r with
  | Fail err => mret (None, Some (ParseListError err listID))
  | Ok resp =>
      match
        json_Unmarshal (T := ListResponse.t)
          (client.Response.Body resp)
      with
      | Fail err =>
          mret
            (None,
             Some
               (Errorf_w
                  "failed to unmarshal list response: " err))
      | Ok listResp => mret (Some (ListResponse.List listResp), None)
      end
  end.

Definition DeleteList (ctx : client.Context) (listID : string)
  : Call (option error) :=
  let req := client.NewRequest "DELETE" ("/crm/v3/lists/" +:+ listID) in
  let req := client.WithContext req ctx in
  let req := client.WithResourceType req "lists" in
  r ← apiClient_Do ctx req;
  match r with
  | Fail err => mret (Some (ParseListError err listID))
  | Ok _ => mret None
  end.

Definition RestoreList (ctx : client.Context) (listID : string)
  : Call (option error) :=
  let req :=
    client.NewRequest "PUT"
      ("/crm/v3/lists/" +:+ listID +:+ "/restore") in
  let req := client.WithContext req ctx in
  let req := client.WithResourceType req "lists" in
  r ← apiClient_Do ctx req;
  match r with
  | Fail err => mret (Some (ParseListError err listID))
  | Ok _ => mret None
  end.

Definition GetRecordMemberships (ctx : client.Context)
    (objectTypeID : string) (recordID : string)
  : Call (option RecordMembershipsResponse.t * option error) :=
  let req :=
    client.NewRequest "GET"
      ("/crm/v3/lists/records/" +:+ objectTypeID +:+ "/" +:+ recordID +:+
       "/memberships") in
  let req := client.WithContext req ctx in
  let req := client.WithResourceType req "lists" in
  r ← apiClient_Do ctx req;
  match r with
  | Fail err => mret (None, Some (ParseRecordError err recordID ""))
  | Ok resp =>
      match
        json_Unmarshal (T := RecordMembershipsResponse.t)
          (client.Response.Body resp)
      with
      | Fail err =>
          mret
            (None,
             Some
               (Errorf_w
                  "failed to unmarshal memberships response: " err))
      | Ok memberships => mret (Some memberships, None)
      end
  end.

Definition BatchGetRecordMemberships (ctx : client.Context)
    (inputs : list MembershipRecordIdentifier.t)
  : Call (option BatchReadMembershipsResponse.t * option error) :=
  let req :=
    client.NewRequest "POST"
      "/crm/v3/lists/records/memberships/batch/read" in
  let req := client.WithContext req ctx in
  let req := client.WithResourceType req "lists" in
  let req :=
    client.WithBody req
      {| BatchReadMembershipsRequest.Inputs := inputs |} in
  r ← apiClient_Do ctx req;
  match r with
  | Fail err => mret (None, Some (ParseListError err ""))
  | Ok resp =>
      match
        json_Unmarshal (T := BatchReadMembershipsResponse.t)
          (client.Response.Body resp)
      with
      | Fail err =>
          mret
            (None,
             Some
               (Errorf_w
                  "failed to unmarshal batch memberships response: " err))
      | Ok batchResp => mret (Some batchResp, None)
      end
  end.

Definition AddRecordsToList (ctx : client.Context) (listID : string)
    (recordIDs : list string)
  : Call (option MembershipChangeResponse.t * option error) :=
  let req :=
    client.NewRequest "PUT"
      ("/crm/v3/lists/" +:+ listID +:+ "/memberships/add") in
  let req := client.WithContext req ctx in
  let req := client.WithResourceType req "lists" in
  let req := client.WithBody req recordIDs in
  r ← apiClient_Do ctx req;
  match r with
  | Fail err => mret (None, Some (ParseListError err listID))
  | Ok resp =>
      match
        json_Unmarshal (T := MembershipChangeResponse.t)
          (client.Response.Body resp)
      with
      | Fail err =>
          mret
            (None,
             Some
               (Errorf_w
                  "failed to unmarshal membership change response: " err))
      | Ok changeResp => mret (Some changeResp, None)
      end
  end.

Definition AddFromSourceList (ctx : client.Context) (listID : string)
    (sourceListID : string)
  : Call (option MembershipChangeResponse.t * option error) :=
  let req :=
    client.NewRequest "PUT"
      ("/crm/v3/lists/" +:+ listID +:+ "/memberships/add-from/" +:+
       sourceListID) in
  let req := client.WithContext req ctx in
  let req := client.WithResourceType req "lists" in
  r ← apiClient_Do ctx req;
  match r with
  | Fail err => mret (None, Some (ParseListError err listID))
  | Ok resp =>
      match
        json_Unmarshal (T := MembershipChangeResponse.t)
          (client.Response.Body resp)
      with
      | Fail err =>
          mret
            (None,
             Some
               (Errorf_w
                  "failed to unmarshal membership change response: " err))
      | Ok changeResp => mret (Some changeResp, None)
      end
  end.

Definition GetListMemberships (ctx : client.Context) (listID : string)
    (opts : list ListMembershipsOption)
  : Call (option ListMembershipsResponse.t * option error) :=
  let req :=
    client.NewRequest "GET"
      ("/crm/v3/lists/" +:+ listID +:+ "/memberships") in
  let req := client.WithContext req ctx in
  let req := client.WithResourceType req "lists" in
  let req := applyOptions opts req in
  r ← apiClient_Do ctx req;
  match r with
  | Fail err => mret (None, Some (ParseListError err listID))
  | Ok resp =>
      match
        json_Unmarshal (T := ListMembershipsResponse.t)
          (client.Response.Body resp)
      with
      | Fail err =>
          mret
            (None,
             Some
               (Errorf_w
                  "failed to unmarshal list memberships response: " err))
      | Ok memberships => mret (Some memberships, None)
      end
  end.

Definition RemoveAllRecords (ctx : client.Context) (listID : string)
  : Call (option error) :=
  let req :=
    client.NewRequest "DELETE"
      ("/crm/v3/lists/" +:+ listID +:+ "/memberships") in
  let req := client.WithContext req ctx in
  let req := client.WithResourceType req "lists" in
  r ← apiClient_Do ctx req;
  match r with
  | Fail err => mret (Some (ParseListError err listID))
  | Ok _ => mret None
  end.

Definition RemoveRecordsFromList (ctx : client.Context) (listID : string)
    (recordIDs : list string)
  : Call (option MembershipChangeResponse.t * option error) :=
  let req :=
    client.NewRequest "PUT"
      ("/crm/v3/lists/" +:+ listID +:+ "/memberships/remove") in
  let req := client.WithContext req ctx in
  let req := client.WithResourceType req "lists" in
  let req := client.WithBody req recordIDs in
  r ← apiClient_Do ctx req;
  match r with
  | Fail err => mret (None, Some (ParseListError err listID))
  | Ok resp =>
      match
        json_Unmarshal (T := MembershipChangeResponse.t)
          (client.Response.Body resp)
      with
      | Fail err =>
          mret
            (None,
             Some
               (Errorf_w
                  "failed to unmarshal membership change response: " err))
      | Ok changeResp => mret (Some changeResp, None)
      end
  end.

Definition ScheduleConversion (ctx : client.Context) (listID : string)
    (conversionReq : ScheduleConversionRequest.t)
  : Call (option ScheduleConversionResponse.t * option error) :=
  let req :=
    client.NewRequest "PUT"
      ("/crm/v3/lists/" +:+ listID +:+ "/schedule-conversion") in
  let req := client.WithContext req ctx in
  let req := client.WithResourceType req "lists" in
  let req := client.WithBody req conversionReq in
  r ← apiClient_Do ctx req;
  match r with
  | Fail err => mret (None, Some (ParseListError err listID))
  | Ok resp =>
      match
        json_Unmarshal (T := ScheduleConversionResponse.t)
          (client.Response.Body resp)
      with
      | Fail err =>
          mret
            (None,
             Some
               (Errorf_w
                  "failed to unmarshal conversion schedule response: " err))
      | Ok conversionResp => mret (Some conversionResp, None)
      end
  end.

Definition GetConversionSchedule (ctx : client.Context) (listID : string)
  : Call (option ScheduleConversionResponse.t * option error) :=
  let req :=
    client.NewRequest "GET"
      ("/crm/v3/lists/" +:+ listID +:+ "/schedule-conversion") in
  let req := client.WithContext req ctx in
  let req := client.WithResourceType req "lists" in
  r ← apiClient_Do ctx req;
  match r with
  | Fail err => mret (None, Some (ParseListError err listID))
  | Ok resp =>
      match
        json_Unmarshal (T := ScheduleConversionResponse.t)
          (client.Response.Body resp)
      with
      | Fail err =>
          mret
            (None,
             Some
               (Errorf_w
                  "failed to unmarshal conversion schedule response: " err))
      | Ok conversionResp => mret (Some conversionResp, None)
      end
  end.

Definition DeleteConversionSchedule (ctx : client.Context) (listID : string)
  : Call (option error) :=
  let req :=
    client.NewRequest "DELETE"
      ("/crm/v3/lists/" +:+ listID +:+ "/schedule-conversion") in
  let req := client.WithContext req ctx in
  let req := client.WithResourceType req "lists" in
  r ← apiClient_Do ctx req;
  match r with
  | Fail err => mret (Some (ParseListError err listID))
  | Ok _ => mret None
  end.

End Client.

End lists.

(** ** Package companies (crm/v3/companies) *)
Module companies.

(** *** models.go *)

Module PropertyWithHistory.
Record t : Type := {
  Value : string;
  Timestamp : string;
  SourceType : string;
  SourceID : string;
  SourceLabel : string;
  UpdatedByUserID : Z
}.
End PropertyWithHistory.

Module Company.
Record t : Type := {
  ID : string;
  Properties : gmap string string;
  PropertiesWithHistory : gmap string (list PropertyWithHistory.t);
  CreatedAt : string;
  UpdatedAt : string;
  Archived : bool;
  ArchivedAt : string
}.
End Company.

Module CreateCompanyInput.
Record t : Type := { Properties : gmap string string }.
End CreateCompanyInput.

Module UpdateCompanyInput.
Record t : Type := { Properties : gmap string string }.
End UpdateCompanyInput.

Module PagingLink.
Record t : Type := { After : string; Link : string }.
End PagingLink.

Module Paging.
Record t : Type := { Next : option PagingLink.t; Prev : option PagingLink.t }.
End Paging.

Module ListCompaniesResponse.
Record t : Type := { Results : list Company.t; Paging : option Paging.t }.
End ListCompaniesResponse.

Module BatchReadCompaniesInput.
Record input : Type := { ID : string }.
Record t : Type := {
  Properties : list string;
  PropertiesWithHistory : list string;
  IDProperty : string;
  Inputs : list input
}.
End BatchReadCompaniesInput.

Module BatchCreateCompaniesInput.
Record t : Type := { Inputs : list CreateCompanyInput.t }.
End BatchCreateCompaniesInput.

Module BatchUpdateCompaniesInput.
Record input : Type := { ID : string; Properties : gmap string string }.
Record t : Type := { Inputs : list input }.
End BatchUpdateCompaniesInput.

Module BatchArchiveCompaniesInput.
Record input : Type := { ID : string }.
Record t : Type := { Inputs : list input }.
End BatchArchiveCompaniesInput.

(** The response of the batch operations: it has no field for the
    [numErrors] and [errors] members of the server's answer. *)
Module BatchCompaniesResponse.
Record t : Type := {
  Status : string;
  Results : list Company.t;
  StartedAt : string;
  CompletedAt : string
}.
End BatchCompaniesResponse.

Module Filter.
Record t : Type := {
  PropertyName : string;
  Operator : string;
  Value : JSONValue
}.
End Filter.

Module FilterGroup.
Record t : Type := { Filters : list Filter.t }.
End FilterGroup.

Module SearchCompaniesInput.
Record t : Type := {
  FilterGroups : list FilterGroup.t;
  Sorts : list string;
  Query : string;
  Properties : list string;
  Limit : Z;
  After : string
}.
End SearchCompaniesInput.

Module SearchCompaniesResponse.
Record t : Type := {
  Total : Z;
  Results : list Company.t;
  Paging : option Paging.t
}.
End SearchCompaniesResponse.

(** *** options.go *)

Definition CompanyOption : Type := RequestOption.

Definition WithProperties (properties : list string) : CompanyOption :=
  fun req => client.AddQueryParam req "properties" (strings_Join properties ",").

Definition WithPropertiesWithHistory (properties : list string) : CompanyOption :=
  fun req =>
    client.AddQueryParam req "propertiesWithHistory" (strings_Join properties ",").

Definition WithAssociations (associations : list string) : CompanyOption :=
  fun req =>
    client.AddQueryParam req "associations" (strings_Join associations ",").

Definition WithLimit (limit : Z) : CompanyOption :=
  fun req => client.AddQueryParam req "limit" (Sprintf_d limit).

Definition WithAfter (after : string) : CompanyOption :=
  fun req => client.AddQueryParam req "after" after.

Definition WithArchived : CompanyOption :=
  fun req => client.AddQueryParam req "archived" "true".

Definition WithIDProperty (property : string) : CompanyOption :=
  fun req => client.AddQueryParam req "idProperty" property.

(** *** client.go *)
Section Client.
Context {jsonCompany : Unmarshal Company.t}
        {jsonListCompanies : Unmarshal ListCompaniesResponse.t}
        {jsonBatchCompanies : Unmarshal BatchCompaniesResponse.t}
        {jsonSearchCompanies : Unmarshal SearchCompaniesResponse.t}.

Definition CreateCompany (ctx : client.Context)
    (input : CreateCompanyInput.t)
  : Call (option Company.t * option error) :=
  let req := client.NewRequest "POST" "/crm/v3/objects/companies" in
  let req := client.WithContext req ctx in
  let req := client.WithResourceType req "companies" in
  let req := client.WithBody req input in
  r ← apiClient_Do ctx req;
  match r with
  | Fail err => mret (None, Some err)
  | Ok resp =>
      match json_Unmarshal (T := Company.t) (client.Response.Body resp) with
      | Fail err =>
          mret
            (None,
             Some
               (Errorf_w
                  "failed to unmarshal company response: " err))
      | Ok company => mret (Some company, None)
      end
  end.

Definition GetCompany (ctx : client.Context) (companyID : string)
    (opts : list CompanyOption) : Call (option Company.t * option error) :=
  let req :=
    client.NewRequest "GET"
      ("/crm/v3/objects/companies/" +:+ companyID) in
  let req := client.WithContext req ctx in
  let req := client.WithResourceType req "companies" in
  let req := applyOptions opts req in
  r ← apiClient_Do ctx req;
  match r with
  | Fail err => mret (None, Some err)
  | Ok resp =>
      match json_Unmarshal (T := Company.t) (client.Response.Body resp) with
      | Fail err =>
          mret
            (None,
             Some
               (Errorf_w
                  "failed to unmarshal company response: " err))
      | Ok company => mret (Some company, None)
      end
  end.

Definition UpdateCompany (ctx : client.Context) (companyID : string)
    (input : UpdateCompanyInput.t)
  : Call (option Company.t * option error) :=
  let req :=
    client.NewRequest "PATCH"
      ("/crm/v3/objects/companies/" +:+ companyID) in
  let req := client.WithContext req ctx in
  let req := client.WithResourceType req "companies" in
  let req := client.WithBody req input in
  r ← apiClient_Do ctx req;
  match r with
  | Fail err => mret (None, Some err)
  | Ok resp =>
      match json_Unmarshal (T := Company.t) (client.Response.Body resp) with
      | Fail err =>
          mret
            (None,
             Some
               (Errorf_w
                  "failed to unmarshal company response: " err))
      | Ok company => mret (Some company, None)
      end
  end.

Definition ArchiveCompany (ctx : client.Context) (companyID : string)
  : Call (option error) :=
  let req :=
    client.NewRequest "DELETE"
      ("/crm/v3/objects/companies/" +:+ companyID) in
  let req := client.WithContext req ctx in
  let req := client.WithResourceType req "companies" in
  r ← apiClient_Do ctx req;
  match r with
  | Fail err => mret (Some err)
  | Ok _ => mret None
  end.

Definition ListCompanies (ctx : client.Context) (opts : list CompanyOption)
  : Call (option ListCompaniesResponse.t * option error) :=
  let req := client.NewRequest "GET" "/crm/v3/objects/companies" in
  let req := client.WithContext req ctx in
  let req := client.WithResourceType req "companies" in
  let req := applyOptions opts req in
  r ← apiClient_Do ctx req;
  match r with
  | Fail err => mret (None, Some err)
  | Ok resp =>
      match
        json_Unmarshal (T := ListCompaniesResponse.t)
          (client.Response.Body resp)
      with
      | Fail err =>
          mret
            (None,
             Some
               (Errorf_w
                  "failed to unmarshal companies list response: " err))
      | Ok listResp => mret (Some listResp, None)
      end
  end.

Definition BatchReadCompanies (ctx : client.Context)
    (input : BatchReadCompaniesInput.t)
  : Call (option BatchCompaniesResponse.t * option error) :=
  let req :=
    client.NewRequest "POST"
      "/crm/v3/objects/companies/batch/read" in
  let req := client.WithContext req ctx in
  let req := client.WithResourceType req "companies" in
  let req := client.WithBody req input in
  r ← apiClient_Do ctx req;
  match r with
  | Fail err => mret (None, Some err)
  | Ok resp =>
      match
        json_Unmarshal (T := BatchCompaniesResponse.t)
          (client.Response.Body resp)
      with
      | Fail err =>
          mret
            (None,
             Some
               (Errorf_w
                  "failed to unmarshal batch response: " err))
      | Ok batchResp => mret (Some batchResp, None)
      end
  end.

Definition BatchCreateCompanies (ctx : client.Context)
    (input : BatchCreateCompaniesInput.t)
  : Call (option BatchCompaniesResponse.t * option error) :=
  let req :=
    client.NewRequest "POST"
      "/crm/v3/objects/companies/batch/create" in
  let req := client.WithContext req ctx in
  let req := client.WithResourceType req "companies" in
  let req := client.WithBody req input in
  r ← apiClient_Do ctx req;
  match r with
  | Fail err => mret (None, Some err)
  | Ok resp =>
      match
        json_Unmarshal (T := BatchCompaniesResponse.t)
          (client.Response.Body resp)
      with
      | Fail err =>
          mret
            (None,
             Some
               (Errorf_w
                  "failed to unmarshal batch response: " err))
      | Ok batchResp => mret (Some batchResp, None)
      end
  end.

Definition BatchUpdateCompanies (ctx : client.Context)
    (input : BatchUpdateCompaniesInput.t)
  : Call (option BatchCompaniesResponse.t * option error) :=
  let req :=
    client.NewRequest "POST"
      "/crm/v3/objects/companies/batch/update" in
  let req := client.WithContext req ctx in
  let req := client.WithResourceType req "companies" in
  let req := client.WithBody req input in
  r ← apiClient_Do ctx req;
  match r with
  | Fail err => mret (None, Some err)
  | Ok resp =>
      match
        json_Unmarshal (T := BatchCompaniesResponse.t)
          (client.Response.Body resp)
      with
      | Fail err =>
          mret
            (None,
             Some
               (Errorf_w
                  "failed to unmarshal batch response: " err))
      | Ok batchResp => mret (Some batchResp, None)
      end
  end.

Definition BatchArchiveCompanies (ctx : client.Context)
    (input : BatchArchiveCompaniesInput.t) : Call (option error) :=
  let req :=
    client.NewRequest "POST"
      "/crm/v3/objects/companies/batch/archive" in
  let req := client.WithContext req ctx in
  let req := client.WithResourceType req "companies" in
  let req := client.WithBody req input in
  r ← apiClient_Do ctx req;
  match r with
  | Fail err => mret (Some err)
  | Ok _ => mret None
  end.

Definition SearchCompanies (ctx : client.Context)
    (input : SearchCompaniesInput.t)
  : Call (option SearchCompaniesResponse.t * option error) :=
  let req := client.NewRequest "POST" "/crm/v3/objects/companies/search" in
  let req := client.WithContext req ctx in
  let req := client.WithResourceType req "companies" in
  let req := client.WithBody req input in
  r ← apiClient_Do ctx req;
  match r with
  | Fail err => mret (None, Some err)
  | Ok resp =>
      match
        json_Unmarshal (T := SearchCompaniesResponse.t)
          (client.Response.Body resp)
      with
      | Fail err =>
          mret
            (None,
             Some
               (Errorf_w
                  "failed to unmarshal search response: " err))
      | Ok searchResp => mret (Some searchResp, None)
      end
  end.

End Client.

End companies.

(** ** Package deals (crm/v3/deals) *)
Module deals.

(** *** options.go *)

(** [DealOption] represents a functional option for deal requests. *)
Definition DealOption : Type := RequestOption.

(** [WithProperties] specifies which properties to return. *)
Definition WithProperties (properties : list string) : DealOption :=
  fun req => client.AddQueryParam req "properties" (strings_Join properties ",").

(** [WithPropertiesWithHistory] specifies which properties to return with
    history. *)
Definition WithPropertiesWithHistory (properties : list string) : DealOption :=
  fun req =>
    client.AddQueryParam req "propertiesWithHistory" (strings_Join properties ",").

(** [WithAssociations] specifies which associations to return. *)
Definition WithAssociations (associations : list string) : DealOption :=
  fun req =>
    client.AddQueryParam req "associations" (strings_Join associations ",").

(** [WithLimit] sets the maximum number of results per page. *)
Definition WithLimit (limit : Z) : DealOption :=
  fun req => client.AddQueryParam req "limit" (Sprintf_d limit).

(** [WithAfter] sets the paging cursor. *)
Definition WithAfter (after : string) : DealOption :=
  fun req => client.AddQueryParam req "after" after.

(** [WithArchived] includes archived deals. *)
Definition WithArchived : DealOption :=
  fun req => client.AddQueryParam req "archived" "true".

(** [WithIDProperty] specifies a unique identifier property to use instead
    of the ID. *)
Definition WithIDProperty (property : string) : DealOption :=
  fun req => client.AddQueryParam req "idProperty" property.

(** *** client.go

    crm/v3/deals/models.go is not among the sources at hand: the structs
    it declares are parameters of the client. *)
Section Client.
Variables Deal ListDealsResponse BatchDealsResponse SearchDealsResponse : Type.
Context {CreateDealInput UpdateDealInput BatchReadDealsInput
         BatchCreateDealsInput BatchUpdateDealsInput BatchArchiveDealsInput
         SearchDealsInput : Type}.
Context {jsonDeal : Unmarshal Deal}
        {jsonListDeals : Unmarshal ListDealsResponse}
        {jsonBatchDeals : Unmarshal BatchDealsResponse}
        {jsonSearchDeals : Unmarshal SearchDealsResponse}.

Definition CreateDeal (ctx : client.Context) (input : CreateDealInput)
  : Call (option Deal * option error) :=
  let req := client.NewRequest "POST" "/crm/v3/objects/deals" in
  let req := client.WithContext req ctx in
  let req := client.WithResourceType req "deals" in
  let req := client.WithBody req input in
  r ← apiClient_Do ctx req;
  match r with
  | Fail err => mret (None, Some err)
  | Ok resp =>
      match json_Unmarshal (T := Deal) (client.Response.Body resp) with
      | Fail err =>
          mret
            (None,
             Some
               (Errorf_w
                  "failed to unmarshal deal response: " err))
      | Ok deal => mret (Some deal, None)
      end
  end.

Definition GetDeal (ctx : client.Context) (dealID : string)
    (opts : list DealOption) : Call (option Deal * option error) :=
  let req := client.NewRequest "GET" ("/crm/v3/objects/deals/" +:+ dealID) in
  let req := client.WithContext req ctx in
  let req := client.WithResourceType req "deals" in
  let req := applyOptions opts req in
  r ← apiClient_Do ctx req;
  match r with
  | Fail err => mret (None, Some err)
  | Ok resp =>
      match json_Unmarshal (T := Deal) (client.Response.Body resp) with
      | Fail err =>
          mret
            (None,
             Some
               (Errorf_w
                  "failed to unmarshal deal response: " err))
      | Ok deal => mret (Some deal, None)
      end
  end.

Definition UpdateDeal (ctx : client.Context) (dealID : string)
    (input : UpdateDealInput) : Call (option Deal * option error) :=
  let req :=
    client.NewRequest "PATCH"
      ("/crm/v3/objects/deals/" +:+ dealID) in
  let req := client.WithContext req ctx in
  let req := client.WithResourceType req "deals" in
  let req := client.WithBody req input in
  r ← apiClient_Do ctx req;
  match r with
  | Fail err => mret (None, Some err)
  | Ok resp =>
      match json_Unmarshal (T := Deal) (client.Response.Body resp) with
      | Fail err =>
          mret
            (None,
             Some
               (Errorf_w
                  "failed to unmarshal deal response: " err))
      | Ok deal => mret (Some deal, None)
      end
  end.

Definition ArchiveDeal (ctx : client.Context) (dealID : string)
  : Call (option error) :=
  let req :=
    client.NewRequest "DELETE"
      ("/crm/v3/objects/deals/" +:+ dealID) in
  let req := client.WithContext req ctx in
  let req := client.WithResourceType req "deals" in
  r ← apiClient_Do ctx req;
  match r with
  | Fail err => mret (Some err)
  | Ok _ => mret None
  end.

Definition ListDeals (ctx : client.Context) (opts : list DealOption)
  : Call (option ListDealsResponse * option error) :=
  let req := client.NewRequest "GET" "/crm/v3/objects/deals" in
  let req := client.WithContext req ctx in
  let req := client.WithResourceType req "deals" in
  let req := applyOptions opts req in
  r ← apiClient_Do ctx req;
  match r with
  | Fail err => mret (None, Some err)
  | Ok resp =>
      match
        json_Unmarshal (T := ListDealsResponse)
          (client.Response.Body resp)
      with
      | Fail err =>
          mret
            (None,
             Some
               (Errorf_w
                  "failed to unmarshal deals list response: " err))
      | Ok listResp => mret (Some listResp, None)
      end
  end.

Definition BatchReadDeals (ctx : client.Context)
    (input : BatchReadDealsInput)
  : Call (option BatchDealsResponse * option error) :=
  let req := client.NewRequest "POST" "/crm/v3/objects/deals/batch/read" in
  let req := client.WithContext req ctx in
  let req := client.WithResourceType req "deals" in
  let req := client.WithBody req input in
  r ← apiClient_Do ctx req;
  match r with
  | Fail err => mret (None, Some err)
  | Ok resp =>
      match
        json_Unmarshal (T := BatchDealsResponse)
          (client.Response.Body resp)
      with
      | Fail err =>
          mret
            (None,
             Some
               (Errorf_w
                  "failed to unmarshal batch response: " err))
      | Ok batchResp => mret (Some batchResp, None)
      end
  end.

Definition BatchCreateDeals (ctx : client.Context)
    (input : BatchCreateDealsInput)
  : Call (option BatchDealsResponse * option error) :=
  let req := client.NewRequest "POST" "/crm/v3/objects/deals/batch/create" in
  let req := client.WithContext req ctx in
  let req := client.WithResourceType req "deals" in
  let req := client.WithBody req input in
  r ← apiClient_Do ctx req;
  match r with
  | Fail err => mret (None, Some err)
  | Ok resp =>
      match
        json_Unmarshal (T := BatchDealsResponse)
          (client.Response.Body resp)
      with
      | Fail err =>
          mret
            (None,
             Some
               (Errorf_w
                  "failed to unmarshal batch response: " err))
      | Ok batchResp => mret (Some batchResp, None)
      end
  end.

Definition BatchUpdateDeals (ctx : client.Context)
    (input : BatchUpdateDealsInput)
  : Call (option BatchDealsResponse * option error) :=
  let req := client.NewRequest "POST" "/crm/v3/objects/deals/batch/update" in
  let req := client.WithContext req ctx in
  let req := client.WithResourceType req "deals" in
  let req := client.WithBody req input in
  r ← apiClient_Do ctx req;
  match r with
  | Fail err => mret (None, Some err)
  | Ok resp =>
      match
        json_Unmarshal (T := BatchDealsResponse)
          (client.Response.Body resp)
      with
      | Fail err =>
          mret
            (None,
             Some
               (Errorf_w
                  "failed to unmarshal batch response: " err))
      | Ok batchResp => mret (Some batchResp, None)
      end
  end.

Definition BatchArchiveDeals (ctx : client.Context)
    (input : BatchArchiveDealsInput) : Call (option error) :=
  let req := client.NewRequest "POST" "/crm/v3/objects/deals/batch/archive" in
  let req := client.WithContext req ctx in
  let req := client.WithResourceType req "deals" in
  let req := client.WithBody req input in
  r ← apiClient_Do ctx req;
  match r with
  | Fail err => mret (Some err)
  | Ok _ => mret None
  end.

Definition SearchDeals (ctx : client.Context) (input : SearchDealsInput)
  : Call (option SearchDealsResponse * option error) :=
  let req := client.NewRequest "POST" "/crm/v3/objects/deals/search" in
  let req := client.WithContext req ctx in
  let req := client.WithResourceType req "deals" in
  let req := client.WithBody req input in
  r ← apiClient_Do ctx req;
  match r with
  | Fail err => mret (None, Some err)
  | Ok resp =>
      match
        json_Unmarshal (T := SearchDealsResponse)
          (client.Response.Body resp)
      with
      | Fail err =>
          mret
            (None,
             Some
               (Errorf_w
                  "failed to unmarshal search response: " err))
      | Ok searchResp => mret (Some searchResp, None)
      end
  end.

End Client.

End deals.

(** ** Package associations (crm/v4/associations) *)
Module associations.

(** *** models.go *)

Definition AssociationCategoryHubSpotDefined : string := "HUBSPOT_DEFINED".
Definition AssociationCategoryIntegratorDefined : string := "INTEGRATOR_DEFINED".
Definition AssociationCategoryUserDefined : string := "USER_DEFINED".

Module AssociationSpec.
Record t : Type := {
  AssociationCategory : string;
  AssociationTypeID : Z
}.
End AssociationSpec.

Module AssociationLabel.
Record t : Type := { Category : string; TypeID : Z; Label : string }.
End AssociationLabel.

Module AssociationEndpoint.
Record t : Type := { ID : string }.
End AssociationEndpoint.

Module AssociationInput.
Record t : Type := {
  From : AssociationEndpoint.t;
  To : AssociationEndpoint.t;
  Types : list AssociationSpec.t
}.
End AssociationInput.

Module CreateAssociationInput.
Record t : Type := { Inputs : list AssociationInput.t }.
End CreateAssociationInput.

Module BatchAssociationInput.
Record from : Type := { FromID : string }.
Record to : Type := { ID : string; Types : list AssociationSpec.t }.
Record input : Type := { From : from; To : list to }.
Record t : Type := { Inputs : list input }.
End BatchAssociationInput.

Module AssociationResponse.
Record t : Type := {
  FromObjectTypeID : string;
  FromObjectID : Z;
  ToObjectTypeID : string;
  ToObjectID : Z;
  Labels : list string
}.
End AssociationResponse.

Module AssociatedObject.
Record t : Type := {
  ToObjectID : string;
  AssociationTypes : list AssociationSpec.t
}.
End AssociatedObject.

Module PagingLink.
Record t : Type := { After : string; Link : string }.
End PagingLink.

Module Paging.
Record t : Type := { Next : option PagingLink.t; Prev : option PagingLink.t }.
End Paging.

Module ListAssociationsResponse.
Record t : Type := {
  Results : list AssociatedObject.t;
  Paging : option Paging.t
}.
End ListAssociationsResponse.

Module BatchAssociationResponse.
Record t : Type := {
  Status : string;
  Results : list string;
  StartedAt : string;
  CompletedAt : string
}.
End BatchAssociationResponse.

Module GetAssociationLabelsResponse.
Record t : Type := { Results : list AssociationLabel.t }.
End GetAssociationLabelsResponse.

(** *** options.go *)

Definition AssociationOption : Type := RequestOption.

Definition WithLimit (limit : Z) : AssociationOption :=
  fun req => client.AddQueryParam req "limit" (Sprintf_d limit).

Definition WithAfter (after : string) : AssociationOption :=
  fun req => client.AddQueryParam req "after" after.

(** *** The client *)
Section Client.
Context {jsonAssociation : Unmarshal AssociationResponse.t}
        {jsonListAssociations : Unmarshal ListAssociationsResponse.t}
        {jsonLabels : Unmarshal GetAssociationLabelsResponse.t}.

Definition CreateAssociation (ctx : client.Context)
    (fromObjectType : string) (fromObjectID : string)
    (toObjectType : string) (toObjectID : string)
    (associationSpecs : list AssociationSpec.t)
  : Call (option AssociationResponse.t * option error) :=
  let req :=
    client.NewRequest "PUT"
      ("/crm/v4/objects/" +:+ fromObjectType +:+ "/" +:+ fromObjectID +:+
       "/associations/" +:+ toObjectType +:+ "/" +:+ toObjectID) in
  let req := client.WithContext req ctx in
  let req := client.WithResourceType req "associations" in
  let req := client.WithBody req associationSpecs in
  r ← apiClient_Do ctx req;
  match r with
  | Fail err => mret (None, Some err)
  | Ok resp =>
      match
        json_Unmarshal (T := AssociationResponse.t)
          (client.Response.Body resp)
      with
      | Fail err =>
          mret
            (None,
             Some
               (Errorf_w
                  "failed to unmarshal association response: " err))
      | Ok assocResp => mret (Some assocResp, None)
      end
  end.

Definition DeleteAssociation (ctx : client.Context)
    (fromObjectType : string) (fromObjectID : string)
    (toObjectType : string) (toObjectID : string)
    (associationSpecs : list AssociationSpec.t) : Call (option error) :=
  let req :=
    client.NewRequest "DELETE"
      ("/crm/v4/objects/" +:+ fromObjectType +:+ "/" +:+ fromObjectID +:+
       "/associations/" +:+ toObjectType +:+ "/" +:+ toObjectID) in
  let req := client.WithContext req ctx in
  let req := client.WithResourceType req "associations" in
  let req := client.WithBody req associationSpecs in
  r ← apiClient_Do ctx req;
  match r with
  | Fail err => mret (Some err)
  | Ok _ => mret None
  end.

Definition ListAssociations (ctx : client.Context) (fromObjectType : string)
    (fromObjectID : string) (toObjectType : string)
    (opts : list AssociationOption)
  : Call (option ListAssociationsResponse.t * option error) :=
  let req :=
    client.NewRequest "GET"
      ("/crm/v4/objects/" +:+ fromObjectType +:+ "/" +:+ fromObjectID +:+
       "/associations/" +:+ toObjectType) in
  let req := client.WithContext req ctx in
  let req := client.WithResourceType req "associations" in
  let req := applyOptions opts req in
  r ← apiClient_Do ctx req;
  match r with
  | Fail err => mret (None, Some err)
  | Ok resp =>
      match
        json_Unmarshal (T := ListAssociationsResponse.t)
          (client.Response.Body resp)
      with
      | Fail err =>
          mret
            (None,
             Some
               (Errorf_w
                  "failed to unmarshal associations response: " err))
      | Ok listResp => mret (Some listResp, None)
      end
  end.

Definition BatchCreateAssociations (ctx : client.Context)
    (fromObjectType : string) (toObjectType : string)
    (input : BatchAssociationInput.t) : Call (option error) :=
  let req :=
    client.NewRequest "POST"
      ("/crm/v4/associations/" +:+ fromObjectType +:+ "/" +:+
       toObjectType +:+ "/batch/create") in
  let req := client.WithContext req ctx in
  let req := client.WithResourceType req "associations" in
  let req := client.WithBody req input in
  r ← apiClient_Do ctx req;
  match r with
  | Fail err => mret (Some err)
  | Ok _ => mret None
  end.

Definition BatchDeleteAssociations (ctx : client.Context)
    (fromObjectType : string) (toObjectType : string)
    (input : BatchAssociationInput.t) : Call (option error) :=
  let req :=
    client.NewRequest "POST"
      ("/crm/v4/associations/" +:+ fromObjectType +:+ "/" +:+
       toObjectType +:+ "/batch/archive") in
  let req := client.WithContext req ctx in
  let req := client.WithResourceType req "associations" in
  let req := client.WithBody req input in
  r ← apiClient_Do ctx req;
  match r with
  | Fail err => mret (Some err)
  | Ok _ => mret None
  end.

Definition GetAssociationLabels (ctx : client.Context)
    (fromObjectType : string) (toObjectType : string)
  : Call (option GetAssociationLabelsResponse.t * option error) :=
  let req :=
    client.NewRequest "GET"
      ("/crm/v4/associations/" +:+ fromObjectType +:+ "/" +:+
       toObjectType +:+ "/labels") in
  let req := client.WithContext req ctx in
  let req := client.WithResourceType req "associations" in
  r ← apiClient_Do ctx req;
  match r with
  | Fail err => mret (None, Some err)
  | Ok resp =>
      match
        json_Unmarshal (T := GetAssociationLabelsResponse.t)
          (client.Response.Body resp)
      with
      | Fail err =>
          mret
            (None,
             Some
               (Errorf_w
                  "failed to unmarshal labels response: " err))
      | Ok labelsResp => mret (Some labelsResp, None)
      end
  end.

End Client.

End associations.

(** ** Package schemas (crm/v3/schemas) *)
Module schemas.

(** *** The models *)

Definition DataSensitivity : Type := string.
Definition NonSensitive : DataSensitivity := "non_sensitive".
Definition Sensitive : DataSensitivity := "sensitive".
Definition HighlySensitive : DataSensitivity := "highly_sensitive".

Definition NumberDisplayHint : Type := string.
Definition Unformatted : NumberDisplayHint := "unformatted".
Definition Formatted : NumberDisplayHint := "formatted".
Definition Currency : NumberDisplayHint := "currency".
Definition Percentage : NumberDisplayHint := "percentage".
Definition Duration : NumberDisplayHint := "duration".
Definition Probability : NumberDisplayHint := "probability".

Module Association.
Record t : Type := {
  FromObjectTypeID : string;
  ID : string;
  ToObjectTypeID : string;
  CreatedAt : string;
  Name : string;
  UpdatedAt : string
}.
End Association.

Module Option.
Record t : Type := {
  Hidden : bool;
  Label : string;
  Value : string;
  DisplayOrder : Z;
  Description : string
}.
End Option.

Module Property.
Record modificationMetadata : Type := {
  ReadOnlyValue : bool;
  ReadOnlyDefinition : bool;
  Archivable : bool;
  ReadOnlyOptions : bool
}.
Record t : Type := {
  Description : string;
  Type_ : string;
  Options : list Option.t;
  Label : string;
  GroupName : string;
  Name : string;
  FieldType : string;
  Hidden : bool;
  DisplayOrder : Z;
  ShowCurrencySymbol : bool;
  HubspotDefined : bool;
  CreatedAt : string;
  Archived : bool;
  HasUniqueValue : bool;
  Calculated : bool;
  ExternalOptions : bool;
  UdpatedAt : string;
  CreatedUserID : string;
  ModificationMetadata : modificationMetadata;
  SensitiveDataCategories : list string;
  SearchableInGlobalSearch : bool;
  NumberDisplayHint : option NumberDisplayHint;
  FormField : bool;
  DataSensitivity : option DataSensitivity;
  ArchivedAt : string;
  ReferencedObjectType : string;
  CalculationFormula : string;
  UpdatedUserID : string
}.
End Property.

Module Schema.
Record labels : Type := { Plural : string; Singular : string }.
Record t : Type := {
  Associations : list Association.t;
  Labels : labels;
  RequiredProperties : list string;
  Name : string;
  ID : string;
  Properties : list Property.t;
  SecondaryDisplayProperties : list string;
  CreatedByUserID : Z;
  ObjectTypeID : string;
  Description : string;
  UpdatedByUserID : Z;
  FullyQualifiedName : string;
  Archived : bool;
  CreatedAt : string;
  SearchableProperties : list string;
  PortalID : Z;
  PrimaryDisplayProperty : string;
  UpdatedAt : string
}.
End Schema.

Module GetAllSchemasResponse.
Record t : Type := { Results : list Schema.t }.
End GetAllSchemasResponse.

Module CreateNewSchemaInput.
Record labels : Type := { Singular : string; Plural : string }.
Record t : Type := {
  RequiredProperties : list string;
  Name : string;
  AssociatedObjects : list string;
  Properties : list Property.t;
  Labels : labels;
  SecondaryDisplayProperties : list string;
  SearchableProperties : list string;
  PrimaryDisplayProperty : string;
  Description : string
}.
End CreateNewSchemaInput.

Module CreateNewAssociationSchemaInput.
Record t : Type := {
  FromObjectTypeID : string;
  ToObjectTypeID : string;
  Name : string
}.
End CreateNewAssociationSchemaInput.

Module CreateNewAssociationSchemaResponse.
Record t : Type := {
  FromObjectTypeID : string;
  ID : string;
  ToObjectTypeID : string;
  CreatedAt : string;
  Name : string;
  UpdatedAt : string
}.
End CreateNewAssociationSchemaResponse.

Module UpdateSchemaInput.
Record labels : Type := { Singular : string; Plural : string }.
Record t : Type := {
  SecondaryDisplayProperties : list string;
  RequiredProperties : list string;
  SearchableProperties : list string;
  ClearDescription : bool;
  PrimaryDisplayProperty : string;
  Description : string;
  Restorable : bool;
  Labels : labels
}.
End UpdateSchemaInput.

(** *** options.go *)

(** [SchemaOption] is a functional option for the Schemas API. *)
Definition SchemaOption : Type := RequestOption.

(** [WithArchived] includes archived schemas in results. *)
Definition WithArchived : SchemaOption :=
  fun req => client.AddQueryParam req "archived" "true".

(** *** client.go *)
Section Client.
Context {tagsGetAllSchemas : RequiredTagStruct GetAllSchemasResponse.t}
        {tagsSchema : RequiredTagStruct Schema.t}
        {tagsAssociationSchema :
           RequiredTagStruct CreateNewAssociationSchemaResponse.t}.

(** [GetAllSchemas] gets all schemas; with no schema in the decoded answer
    it returns the answer together with an error. *)
Definition GetAllSchemas (ctx : client.Context) (opts : list SchemaOption)
  : Call (option GetAllSchemasResponse.t * option error) :=
  let req := client.NewRequest "GET" "/crm-object-schemas/v3/schemas" in
  let req := client.WithContext req ctx in
  let req := client.WithResourceType req "schemas" in
  let req := applyOptions opts req in
  r ← apiClient_Do ctx req;
  match r with
  | Fail err => mret (None, Some err)
  | Ok resp =>
      match
        UnmarhsalJSON (T := GetAllSchemasResponse.t)
          (client.Response.Body resp)
      with
      | Fail err =>
          mret
            (None,
             Some
               (Errorf_w
                  "failed to unmarshal schemas response: " err))
      | Ok schemas =>
          if (length (GetAllSchemasResponse.Results schemas) =? 0)%nat then
            mret (Some schemas, Some (Errorf "no schemas found"))
          else mret (Some schemas, None)
      end
  end.

Definition GetExistingSchema (ctx : client.Context) (objectType : string)
  : Call (option Schema.t * option error) :=
  let req :=
    client.NewRequest "GET"
      ("/crm-object-schemas/v3/schemas/" +:+ objectType) in
  let req := client.WithContext req ctx in
  let req := client.WithResourceType req "schemas" in
  r ← apiClient_Do ctx req;
  match r with
  | Fail err => mret (None, Some err)
  | Ok resp =>
      match UnmarhsalJSON (T := Schema.t) (client.Response.Body resp) with
      | Fail err =>
          mret
            (None,
             Some
               (Errorf_w
                  "failed to unmarshal schema response: " err))
      | Ok schema => mret (Some schema, None)
      end
  end.

(** [CreateNewSchema] creates a new object schema.  The source does not
    pass [input] to the request. *)
Definition CreateNewSchema (ctx : client.Context)
    (input : CreateNewSchemaInput.t)
  : Call (option Schema.t * option error) :=
  let req := client.NewRequest "POST" "/crm-object-schemas/v3/schemas" in
  let req := client.WithContext req ctx in
  let req := client.WithResourceType req "schemas" in
  r ← apiClient_Do ctx req;
  match r with
  | Fail err => mret (None, Some err)
  | Ok resp =>
      match UnmarhsalJSON (T := Schema.t) (client.Response.Body resp) with
      | Fail err =>
          mret
            (None,
             Some
               (Errorf_w
                  "failed to unmarshal schema response: " err))
      | Ok schema => mret (Some schema, None)
      end
  end.

(** [CreateNewAssociationSchema] creates a new object association.  The
    source does not pass [input] to the request. *)
Definition CreateNewAssociationSchema (ctx : client.Context)
    (objectType : string) (input : CreateNewAssociationSchemaInput.t)
  : Call (option CreateNewAssociationSchemaResponse.t * option error) :=
  let req :=
    client.NewRequest "POST"
      ("/crm-object-schemas/v3/schemas/" +:+ objectType +:+ "/associations") in
  let req := client.WithContext req ctx in
  let req := client.WithResourceType req "schemas" in
  r ← apiClient_Do ctx req;
  match r with
  | Fail err => mret (None, Some err)
  | Ok resp =>
      match
        UnmarhsalJSON (T := CreateNewAssociationSchemaResponse.t)
          (client.Response.Body resp)
      with
      | Fail err =>
          mret
            (None,
             Some
               (Errorf_w
                  "failed to unmarshal schema response: " err))
      | Ok assocResp => mret (Some assocResp, None)
      end
  end.

(** [UpdateSchema] updates an existing object schema.  The source does not
    pass [input] to the request. *)
Definition UpdateSchema (ctx : client.Context) (objectType : string)
    (input : UpdateSchemaInput.t) : Call (option Schema.t * option error) :=
  let req :=
    client.NewRequest "PATCH"
      ("/crm-object-schemas/v3/schemas/" +:+ objectType) in
  let req := client.WithContext req ctx in
  let req := client.WithResourceType req "schemas" in
  r ← apiClient_Do ctx req;
  match r with
  | Fail err => mret (None, Some err)
  | Ok resp =>
      match UnmarhsalJSON (T := Schema.t) (client.Response.Body resp) with
      | Fail err =>
          mret
            (None,
             Some
               (Errorf_w
                  "failed to unmarshal schema response: " err))
      | Ok schema => mret (Some schema, None)
      end
  end.

Definition DeleteSchema (ctx : client.Context) (objectType : string)
    (opts : list SchemaOption) : Call (option error) :=
  let req :=
    client.NewRequest "DELETE"
      ("/crm-object-schemas/v3/schemas/" +:+ objectType) in
  let req := client.WithContext req ctx in
  let req := client.WithResourceType req "schemas" in
  let req := applyOptions opts req in
  r ← apiClient_Do ctx req;
  match r with
  | Fail err => mret (Some err)
  | Ok _ => mret None
  end.

Definition RemoveAssociationSchema (ctx : client.Context)
    (objectType : string) (associationIdentifier : string)
  : Call (option error) :=
  let req :=
    client.NewRequest "DELETE"
      ("/crm-object-schemas/v3/schemas/" +:+ objectType +:+
       "/associations/" +:+ associationIdentifier) in
  let req := client.WithContext req ctx in
  let req := client.WithResourceType req "schemas" in
  r ← apiClient_Do ctx req;
  match r with
  | Fail err => mret (Some err)
  | Ok _ => mret None
  end.

End Client.

End schemas.

(** ** Package objects (crm/v3/objects)

    Only the tests of the package are among the sources at hand; what
    follows is modelled from them and from the spec. *)
Module objects.

(** Modelled from the spec: [ParseObjectError] is missing.  The mapping
    is the table of section 4.5; the fields each variant receives are
    those TestParseObjectError_NotFound, _ValidationError and _Conflict
    read back ([ObjectType] is the identifier passed, [Field] is the
    server message, [Original] is the server error). *)
Definition ParseObjectError (err : error) (objectType : string) : error :=
  match err with
  | HubSpotErr hubspotErr =>
      if client.Status hubspotErr =? 404 then
        ObjectNotFoundErr
          {| ObjectNotFoundError.ObjectType := objectType;
             ObjectNotFoundError.Original := hubspotErr |}
      else if client.Status hubspotErr =? 400 then
        if String.eqb (client.Category hubspotErr) "VALIDATION_ERROR" then
          ObjectValidationErr
            {| ObjectValidationError.Field := client.Message hubspotErr;
               ObjectValidationError.Message := "";
               ObjectValidationError.Original := hubspotErr |}
        else err
      else if client.Status hubspotErr =? 409 then
        ObjectAlreadyExistsErr
          {| ObjectAlreadyExistsError.ObjectID := "";
             ObjectAlreadyExistsError.Original := hubspotErr |}
      else err
  | _ => err
  end.

Module Object.
(** Modelled from the spec: the declaration of [Object] is missing; the
    fields are those of the literal [TestObj] of the tests, the values of
    its two maps of structs being kept as JSON values. *)
Record t : Type := {
  ID : string;
  Properties : gmap string string;
  CreatedAt : string;
  UpdatedAt : string;
  ArchivedAt : string;
  Archived : bool;
  Associations : gmap string JSONValue;
  PropertiesWithHistory : gmap string JSONValue;
  ObjectWriteTraceID : string
}.
End Object.

Module PagingLink.
(** Modelled from the spec: the paging cursor of section 3, an opaque
    token and a convenience link string. *)
Record t : Type := { Cursor : string; Link : string }.
End PagingLink.

Module Paging.
(** Modelled from the spec: the [paging] member of the list answers of
    the tests, a cursor for each direction. *)
Record t : Type := { Next : option PagingLink.t; Prev : option PagingLink.t }.
End Paging.

Module ListObjectsResponse.
(** Modelled from the spec: the answer of the list endpoint, the
    [results] and [paging] members of the bodies the tests serve. *)
Record t : Type := { Results : list Object.t; Paging : option Paging.t }.
End ListObjectsResponse.

(** Modelled from the spec: the status of a batch, server-reported
    (section 3: one of Processing, Complete, Error). *)
Definition BatchStatus : Type := string.
(** Modelled from the spec: the status Processing of section 3. *)
Definition Processing : BatchStatus := "PROCESSING".
(** Modelled from the spec: the status Complete of section 3, the
    constant [Complete] of the tests. *)
Definition Complete : BatchStatus := "COMPLETE".
(** Modelled from the spec: the status Error of section 3. *)
Definition Error : BatchStatus := "ERROR".

Module BatchResult.
(** Modelled from the spec: BatchResult of section 3, the status, the
    items processed, the count of errors and the per-item errors. *)
Record t : Type := {
  Status : BatchStatus;
  Results : list Object.t;
  NumErrors : Z;
  Errors : list BatchError.t
}.
End BatchResult.

(** Modelled from the spec: the option type of the package is missing;
    as in every package it is a function on the request
    (TestListObjects_WithOptions). *)
Definition ObjectOption : Type := RequestOption.

Section Client.
Context {jsonListObjects : Unmarshal ListObjectsResponse.t}
        {jsonBatchResult : Unmarshal BatchResult.t}.

(** The error a batch call reports when its answer counts failed items.
    The source that builds it is missing and neither the spec nor the
    tests fix its shape: it is a parameter. *)
Variable batchFailure : BatchResult.t -> error.

(** Modelled from the spec: [ListObjects] is missing.  The request is the
    one TestListObjects_Success checks; an answer with no results is the
    error of TestListObjects_NoResults, with a nil slice of objects; a body
    that does not decode is the error of TestListObjects_InvalidJSON. *)
Definition ListObjects (ctx : client.Context) (objectType : string)
    (opts : list ObjectOption)
  : Call (list Object.t * option Paging.t * option error) :=
  let req := client.NewRequest "GET" ("/crm/v3/objects/" +:+ objectType) in
  let req := client.WithContext req ctx in
  let req := client.WithResourceType req "objects" in
  let req := applyOptions opts req in
  r ← apiClient_Do ctx req;
  match r with
  | Fail err => mret ([], None, Some (ParseObjectError err objectType))
  | Ok resp =>
      match
        json_Unmarshal (T := ListObjectsResponse.t)
          (client.Response.Body resp)
      with
      | Fail err => mret ([], None, Some (Errorf_w "failed to unmarshal: " err))
      | Ok listResp =>
          if (length (ListObjectsResponse.Results listResp) =? 0)%nat then
            mret ([], None, Some (Errorf "no objects found"))
          else
            mret (ListObjectsResponse.Results listResp,
                  ListObjectsResponse.Paging listResp, None)
      end
  end.

(** Modelled from the spec: the five batch calls are missing.  Section
    4.6: a batch endpoint returns one BatchResult even when some members
    failed, and the call reports an error whenever [numErrors > 0],
    whatever the HTTP status and the [status] field, while still returning
    the full BatchResult.  [batchCall] is their common shape; [operation]
    is the last segment of the path the tests check and [failed] the
    words their invalid-JSON cases look for. *)
Definition batchCall {Input : Type} (operation failed : string)
    (ctx : client.Context) (objectType : string) (input : Input)
  : Call (option BatchResult.t * option error) :=
  let req :=
    client.NewRequest "POST"
      ("/crm/v3/objects/" +:+ objectType +:+ "/batch/" +:+ operation) in
  let req := client.WithContext req ctx in
  let req := client.WithResourceType req "objects" in
  let req := client.WithBody req input in
  r ← apiClient_Do ctx req;
  match r with
  | Fail err => mret (None, Some (ParseObjectError err objectType))
  | Ok resp =>
      match json_Unmarshal (T := BatchResult.t) (client.Response.Body resp) with
      | Fail err => mret (None, Some (Errorf_w (failed +:+ ": ") err))
      | Ok result =>
          if BatchResult.NumErrors result >? 0 then
            mret (Some result, Some (batchFailure result))
          else mret (Some result, None)
      end
  end.

(** Modelled from the spec: [BatchReadObjects] is missing; the batch
    read of section 4.6 (the TestBatchReadObjects tests). *)
Definition BatchReadObjects {Input : Type} :=
  batchCall (Input := Input) "read" "failed to unmarshal".

(** Modelled from the spec: [BatchCreateObjects] is missing; the batch
    create of section 4.6 (the TestBatchCreateObjects tests). *)
Definition BatchCreateObjects {Input : Type} :=
  batchCall (Input := Input) "create" "failed to ubmarshal".

(** Modelled from the spec: [BatchUpdateObjects] is missing; the batch
    update of section 4.6 (the TestBatchUpdateObjects tests). *)
Definition BatchUpdateObjects {Input : Type} :=
  batchCall (Input := Input) "update" "failed to ubmarshal".

(** Modelled from the spec: [BatchCreateOrUpdateObjects] is missing; the
    batch upsert of section 4.6 (the TestBatchCreateOrUpdateObjects tests). *)
Definition BatchCreateOrUpdateObjects {Input : Type} :=
  batchCall (Input := Input) "upsert" "failed to ubmarshal".

(** Modelled from the spec: [BatchArchiveObjects] is missing; the batch
    archive of section 4.6 (the TestBatchArchiveObjects tests). *)
Definition BatchArchiveObjects {Input : Type} :=
  batchCall (Input := Input) "archive" "failed to ubmarshal".

End Client.

End objects.

(** * Vocabulary of the properties *)

(** ** The classifier *)

(** The typed variants of the classifiers, as tags. *)
Inductive variant_tag : Type := NotFound | ValidationError | AlreadyExists.

Definition tag_of (err : error) : option variant_tag :=
  match err with
  | ListNotFoundErr _ | ObjectNotFoundErr _ | RecordNotFoundErr _ => Some NotFound
  | ListValidationErr _ | ObjectValidationErr _ => Some ValidationError
  | ListAlreadyExistsErr _ | ObjectAlreadyExistsErr _ => Some AlreadyExists
  | _ => None
  end.

(** The server errors of the classifier tests. *)
Definition err404 : client.HubSpotError :=
  {| client.Status := 404; client.Category := "";
     client.Message := "Object not found" |}.
Definition err400v : client.HubSpotError :=
  {| client.Status := 400; client.Category := "VALIDATION_ERROR";
     client.Message := "Invalid email format" |}.
Definition err400o : client.HubSpotError :=
  {| client.Status := 400; client.Category := "OTHER_ERROR";
     client.Message := "Bad request" |}.
Definition err409 : client.HubSpotError :=
  {| client.Status := 409; client.Category := "";
     client.Message := "Object already exists" |}.
Definition err500 : client.HubSpotError :=
  {| client.Status := 500; client.Category := "";
     client.Message := "Internal server error" |}.

(** ** Functional options *)

(** What an option of the packages writes: the query parameter and its
    value, or nothing.  One line per option of the sources. *)
Inductive writes : RequestOption -> option (string * string) -> Prop :=
| deals_WithProperties ps :
    writes (deals.WithProperties ps) (Some ("properties", strings_Join ps ","))
| deals_WithPropertiesWithHistory ps :
    writes (deals.WithPropertiesWithHistory ps)
           (Some ("propertiesWithHistory", strings_Join ps ","))
| deals_WithAssociations ps :
    writes (deals.WithAssociations ps) (Some ("associations", strings_Join ps ","))
| deals_WithLimit n : writes (deals.WithLimit n) (Some ("limit", Sprintf_d n))
| deals_WithAfter a : writes (deals.WithAfter a) (Some ("after", a))
| deals_WithArchived : writes deals.WithArchived (Some ("archived", "true"))
| deals_WithIDProperty p : writes (deals.WithIDProperty p) (Some ("idProperty", p))
| companies_WithProperties ps :
    writes (companies.WithProperties ps) (Some ("properties", strings_Join ps ","))
| companies_WithPropertiesWithHistory ps :
    writes (companies.WithPropertiesWithHistory ps)
           (Some ("propertiesWithHistory", strings_Join ps ","))
| companies_WithAssociations ps :
    writes (companies.WithAssociations ps)
           (Some ("associations", strings_Join ps ","))
| companies_WithLimit n : writes (companies.WithLimit n) (Some ("limit", Sprintf_d n))
| companies_WithAfter a : writes (companies.WithAfter a) (Some ("after", a))
| companies_WithArchived : writes companies.WithArchived (Some ("archived", "true"))
| companies_WithIDProperty p :
    writes (companies.WithIDProperty p) (Some ("idProperty", p))
| associations_WithLimit n :
    writes (associations.WithLimit n) (Some ("limit", Sprintf_d n))
| associations_WithAfter a : writes (associations.WithAfter a) (Some ("after", a))
| schemas_WithArchived : writes schemas.WithArchived (Some ("archived", "true"))
| lists_WithIncludeFilters_true :
    writes (lists.WithIncludeFilters true) (Some ("includeFilters", "true"))
| lists_WithIncludeFilters_false : writes (lists.WithIncludeFilters false) None
| lists_WithMembershipsLimit n :
    writes (lists.WithMembershipsLimit n) (Some ("limit", Sprintf_d n))
| lists_WithMembershipsOffset o :
    writes (lists.WithMembershipsOffset o) (Some ("offset", o)).

(** One step of reading a sequence of writes for [key]: a write to [key]
    replaces what was read so far. *)
Definition read_write (key : string) (acc : option string)
    (w : option (string * string)) : option string :=
  match w with
  | Some (k, v) => if decide (k = key) then Some v else acc
  | None => acc
  end.

(** The value the last write to [key] in the sequence [ws] gave it, if
    the sequence writes [key] at all. *)
Definition last_write (key : string) (ws : list (option (string * string)))
  : option string :=
  fold_left (read_write key) ws None.

(** Three options on the request of [ListDeals], two of them writing
    [limit]. *)
Definition opts3 : list RequestOption :=
  [deals.WithLimit 10; deals.WithAfter "xyz789"; deals.WithLimit 20].

(** ** Answers of the server *)

(** The transport that answers every request with [resp]. *)
Definition serve (resp : client.Response.t) : Transport := fun _ _ => Ok resp.

Definition ctx0 : client.Context := client.Ctx 0.

(** The double quote, and a word between double quotes. *)
Definition dq : string := String "034"%char "".
Definition quoted (s : string) : string := dq +:+ s +:+ dq.

(** The body of the empty-list scenario: an object with an empty
    [results] array and a null [paging] member. *)
Definition emptyListBody : string :=
  "{" +:+ quoted "results" +:+ ": [], " +:+ quoted "paging" +:+ ": null}".

Definition emptyListResp : client.Response.t :=
  {| client.Response.StatusCode := 200; client.Response.Body := emptyListBody |}.

(** The decoded form of [emptyListBody] for the list answers of the
    packages whose models are at hand. *)
Definition emptyCompanies : companies.ListCompaniesResponse.t :=
  {| companies.ListCompaniesResponse.Results := [];
     companies.ListCompaniesResponse.Paging := None |}.
Definition emptyAssociations : associations.ListAssociationsResponse.t :=
  {| associations.ListAssociationsResponse.Results := [];
     associations.ListAssociationsResponse.Paging := None |}.
Definition emptyObjects : objects.ListObjectsResponse.t :=
  {| objects.ListObjectsResponse.Results := [];
     objects.ListObjectsResponse.Paging := None |}.

(** The body of TestGetAllSchemas_NoResults and its decoded form. *)
Definition noSchemasBody : string := "{" +:+ quoted "results" +:+ ": []}".
Definition noSchemasResp : client.Response.t :=
  {| client.Response.StatusCode := 200; client.Response.Body := noSchemasBody |}.
Definition noSchemas : schemas.GetAllSchemasResponse.t :=
  {| schemas.GetAllSchemasResponse.Results := [] |}.

(** A batch answer with status 200 whose [status] member is COMPLETE and
    whose [numErrors] member is 1, in the shape of
    TestBatchReadObjects_WithErrors. *)
Definition partialFailureBody : string :=
  "{" +:+ quoted "status" +:+ ": " +:+ quoted "COMPLETE" +:+ ", " +:+
  quoted "results" +:+ ": [], " +:+ quoted "numErrors" +:+ ": 1, " +:+
  quoted "errors" +:+ ": [{" +:+ quoted "status" +:+ ": " +:+ quoted "error" +:+
  ", " +:+ quoted "category" +:+ ": " +:+ quoted "OBJECT_NOT_FOUND" +:+ ", " +:+
  quoted "message" +:+ ": " +:+ quoted "Object not found" +:+ "}]}".

Definition partialFailureResp : client.Response.t :=
  {| client.Response.StatusCode := 200; client.Response.Body := partialFailureBody |}.

(** [partialFailureBody] decoded into the BatchResult of the objects
    package and into the batch response of the companies package, which
    has no member for the error count. *)
Definition partialResult : objects.BatchResult.t :=
  {| objects.BatchResult.Status := objects.Complete;
     objects.BatchResult.Results := [];
     objects.BatchResult.NumErrors := 1;
     objects.BatchResult.Errors :=
       [ {| BatchError.Status := "error";
            BatchError.Category := "OBJECT_NOT_FOUND";
            BatchError.Message := "Object not found";
            BatchError.Context := ∅;
            BatchError.Links := ∅;
            BatchError.Errors := [] |} ] |}.
Definition partialCompanies : companies.BatchCompaniesResponse.t :=
  {| companies.BatchCompaniesResponse.Status := "COMPLETE";
     companies.BatchCompaniesResponse.Results := [];
     companies.BatchCompaniesResponse.StartedAt := "";
     companies.BatchCompaniesResponse.CompletedAt := "" |}.

(** The body of the invalid-JSON tests. *)
Definition invalidResp : client.Response.t :=
  {| client.Response.StatusCode := 200; client.Response.Body := "invalid json" |}.

(** ** Decoders for the scenarios

    A decoder that knows one body and its decoded form, and rejects every
    other body the way encoding/json rejects the body of the invalid-JSON
    tests. *)
Definition syntaxError : error :=
  ForeignErr "invalid character 'i' looking for beginning of value".

Definition decodes {T : Type} (body : string) (v : T) : string -> result T :=
  fun data => if String.eqb data body then Ok v else Fail syntaxError.

(** Decoders that reject every body. *)
Definition rejects (T : Type) : Unmarshal T := fun _ => Fail syntaxError.
Definition rejectsTags (T : Type) : RequiredTagStruct T :=
  fun _ => Fail syntaxError.

(** A rendering of the server error, for the scenarios. *)
Definition messageText : HubSpotErrorText := client.Message.

(** The error a batch call of the objects package reports, for the
    scenarios. *)
Definition someBatchFailure (r : objects.BatchResult.t) : error :=
  Errorf "batch operation completed with errors".

(** The input of TestBatchReadObjects_WithErrors, for the companies
    package. *)
Definition readTwo : companies.BatchReadCompaniesInput.t :=
  {| companies.BatchReadCompaniesInput.Properties := ["name"];
     companies.BatchReadCompaniesInput.PropertiesWithHistory := [];
     companies.BatchReadCompaniesInput.IDProperty := "";
     companies.BatchReadCompaniesInput.Inputs :=
       [ {| companies.BatchReadCompaniesInput.ID := "1" |};
         {| companies.BatchReadCompaniesInput.ID := "99999" |} ] |}.

(** The input of the invalid-JSON test of [CreateCompany]. *)
Definition createTest : companies.CreateCompanyInput.t :=
  {| companies.CreateCompanyInput.Properties := {["name" := "Test"]} |}.

(** The sub-errors and the batch errors of the rendering tests. *)
Definition sub (msg : string) : ObjectError.t :=
  {| ObjectError.Message := msg; ObjectError.SubCategory := "" |}.
Definition batchError (msg : string) (subs : list ObjectError.t) : BatchError.t :=
  {| BatchError.Status := "error"; BatchError.Category := "BATCH_ERROR";
     BatchError.Message := msg; BatchError.Context := ∅;
     BatchError.Links := ∅; BatchError.Errors := subs |}.

(** ** Reporting a body that does not decode *)

(** The text [fmt.Errorf] puts before the wrapped error for the call
    named [label]. *)
Definition unmarshalFailure (label : string) : string :=
  "failed to unmarshal " +:+ label +:+ " response: ".

(** On every 2xx answer whose body the decoder of the result type rejects
    with [cause], the method [m] returns its nil result together with the
    error that wraps [cause] under the name [label]; the text of that
    error starts with the name. *)
Definition reports_unmarshal_failure {text : HubSpotErrorText} {T R : Type}
    (decode : string -> result T) (nil : R) (label : string)
    (m : Call (R * option error)) : Prop :=
  forall (transport : Transport) (resp : client.Response.t) (cause : error),
    served transport m resp ->
    200 <= client.Response.StatusCode resp < 300 ->
    decode (client.Response.Body resp) = Fail cause ->
    run transport m = (nil, Some (Errorf_w (unmarshalFailure label) cause)) /\
    strings_HasPrefix (Error (Errorf_w (unmarshalFailure label) cause))
      (unmarshalFailure label) = true.

(** ** What a method returns, whatever its result type *)

(** The methods return in three shapes: an error alone, a pointer with an
    error, a slice with an error.  [failure] is the error returned,
    [empty] says that no result comes with it (a nil pointer, a nil
    slice, or no result slot at all), [nil_pointer] that the result slot
    is a pointer and is nil. *)
Class Outcome (A : Type) : Type := {
  failure : A -> option error;
  empty : A -> Prop;
  nil_pointer : A -> Prop
}.

#[export] Instance error_alone : Outcome (option error) :=
  {| failure := fun err => err;
     empty := fun _ => True;
     nil_pointer := fun _ => False |}.

#[export] Instance pointer_and_error {T : Type}
  : Outcome (option T * option error) :=
  {| failure := fun r => r.2;
     empty := fun r => r.1 = None;
     nil_pointer := fun r => r.1 = None |}.

#[export] Instance slice_and_error {T : Type}
  : Outcome (list T * option error) :=
  {| failure := fun r => r.2;
     empty := fun r => r.1 = [];
     nil_pointer := fun _ => False |}.

(** The transport answers the request of [m] with the error [err]. *)
Definition refused {A : Type} (transport : Transport) (m : Call A)
    (err : error) : Prop :=
  match m with
  | Return _ => False
  | Do c req _ => transport c req = Fail err
  end.

(** The requests [m] sends, in order, when run against [transport]. *)
Fixpoint sent {A : Type} (transport : Transport) (m : Call A)
  : list client.Request :=
  match m with
  | Return _ => []
  | Do c req k => req :: sent transport (k (transport c req))
  end.

(** Two answers of a transport that differ at most in the status code of
    the response. *)
Definition same_answer (r1 r2 : result client.Response.t) : Prop :=
  match r1, r2 with
  | Ok resp1, Ok resp2 =>
      client.Response.Body resp1 = client.Response.Body resp2
  | Fail err1, Fail err2 => err1 = err2
  | _, _ => False
  end.

(** A transport that fails every request with [err]. *)
Definition refuse (err : error) : Transport := fun _ _ => Fail err.

(** The packages with a client among the sources. *)
Inductive package : Type := Deals | Companies | Associations | Schemas | Lists.

(** ** The typed errors the lists client makes of a 404 *)

Definition listNotFound (listID : string) (e : client.HubSpotError) : error :=
  ListNotFoundErr {| ListNotFoundError.ListID := listID;
                     ListNotFoundError.Original := e |}.

Definition recordNotFound (recordID listID : string)
    (e : client.HubSpotError) : error :=
  RecordNotFoundErr {| RecordNotFoundError.RecordID := recordID;
                       RecordNotFoundError.ListID := listID;
                       RecordNotFoundError.Original := e |}.

(** On a 404 of the server the method [m] returns no result and the
    typed error [typed] made of the server error. *)
Definition on_404 {A : Type} {O : Outcome A} (m : Call A)
    (typed : client.HubSpotError -> error) : Prop :=
  forall (transport : Transport) (e : client.HubSpotError),
    refused transport m (HubSpotErr e) ->
    client.Status e = 404 ->
    failure (run transport m) = Some (typed e) /\ empty (run transport m).

(** The error of the dispatcher returned as it is. *)
Definition unclassified (err : error) : error := err.

(** The tag each package puts on its requests. *)
Definition resource_type (pkg : package) : string :=
  match pkg with
  | Deals => "deals"
  | Companies => "companies"
  | Associations => "associations"
  | Schemas => "schemas"
  | Lists => "lists"
  end.

(** A second 404 of the server, with another message. *)
Definition err404gone : client.HubSpotError :=
  {| client.Status := 404; client.Category := "";
     client.Message := "List has been deleted" |}.

(** The answer of the empty-list scenario with a status code no method
    should be handed without an error. *)
Definition emptyListResp500 : client.Response.t :=
  {| client.Response.StatusCode := 500;
     client.Response.Body := emptyListBody |}.

(** Unfolds the answer [H] of the transport into the run of a method
    whose body is in the goal. *)
Ltac answer H :=
  hnf in H;
  cbn [run mbind Call_mbind Call_bind apiClient_Do];
  rewrite H; cbv beta iota.

(** The constant at the head of an application. *)
Ltac head_of t :=
  lazymatch t with
  | ?f _ => head_of f
  | _ => t
  end.

(** The standard proof that method [m] reports a body that does not
    decode. *)
Ltac report m :=
  let h := head_of m in
  let Hs := fresh "Hs" in
  let Hd := fresh "Hd" in
  intros ? ? ? Hs _ Hd; unfold h in *; answer Hs; rewrite Hd;
  split; reflexivity.

(** Case analysis on every test a classifier makes of the server error in
    the goal. *)
Ltac classify_cases :=
  unfold lists.ParseRecordError, lists.ParseListError;
  repeat match goal with
         | |- context [if ?b then _ else _] => destruct b eqn:?; cbn
         end.

(** The run of a method whose body is in the goal, by cases on the
    answer of [transport] and on what the decoder makes of the body. *)
Ltac by_answer transport :=
  cbn [run sent mbind Call_mbind Call_bind apiClient_Do];
  match goal with
  | |- context [transport ?c ?req] =>
      destruct (transport c req) as [?resp | ?err]
  end;
  cbv beta iota;
  try match goal with
      | |- context [match ?d with Ok _ => _ | Fail _ => _ end] =>
          destruct d as [?v | ?cause]
      end.

(** Unfolds the method that is run in the goal. *)
Ltac unfold_call :=
  match goal with
  | |- context [run _ ?m] => let h := head_of m in unfold h in *
  end.

(** ** The calls that decode an answer, package by package *)

Section Dispatch.
Context {text : HubSpotErrorText}.
Context {tagsGetAllSchemas : RequiredTagStruct schemas.GetAllSchemasResponse.t}
        {tagsSchema : RequiredTagStruct schemas.Schema.t}
        {tagsAssociationSchema :
           RequiredTagStruct schemas.CreateNewAssociationSchemaResponse.t}.
Context {jsonCompany : Unmarshal companies.Company.t}
        {jsonListCompanies : Unmarshal companies.ListCompaniesResponse.t}
        {jsonBatchCompanies : Unmarshal companies.BatchCompaniesResponse.t}
        {jsonSearchCompanies : Unmarshal companies.SearchCompaniesResponse.t}.
Variables Deal ListDealsResponse BatchDealsResponse SearchDealsResponse : Type.
Context {jsonDeal : Unmarshal Deal}
        {jsonListDeals : Unmarshal ListDealsResponse}
        {jsonBatchDeals : Unmarshal BatchDealsResponse}
        {jsonSearchDeals : Unmarshal SearchDealsResponse}.
Context {jsonAssociation : Unmarshal associations.AssociationResponse.t}
        {jsonListAssociations : Unmarshal associations.ListAssociationsResponse.t}
        {jsonLabels : Unmarshal associations.GetAssociationLabelsResponse.t}.
Context {jsonList : Unmarshal lists.ListResponse.t}
        {jsonListsByID : Unmarshal lists.ListsByIDResponse.t}
        {jsonListSearch : Unmarshal lists.ListSearchResponse.t}
        {jsonRecordMemberships : Unmarshal lists.RecordMembershipsResponse.t}
        {jsonBatchMemberships : Unmarshal lists.BatchReadMembershipsResponse.t}
        {jsonMembershipChange : Unmarshal lists.MembershipChangeResponse.t}
        {jsonListMemberships : Unmarshal lists.ListMembershipsResponse.t}
        {jsonConversion : Unmarshal lists.ScheduleConversionResponse.t}.
Context {jsonListObjects : Unmarshal objects.ListObjectsResponse.t}
        {jsonBatchResult : Unmarshal objects.BatchResult.t}.
Variable batchFailure : objects.BatchResult.t -> error.

(** The methods of package deals that decode an answer, each with the
    name its error gives the call. *)
Definition deals_report_unmarshal_failure : Prop :=
  (forall ctx (Input : Type) (input : Input),
     reports_unmarshal_failure (json_Unmarshal (T := Deal)) None "deal"
       (deals.CreateDeal Deal ctx input)) /\
  (forall ctx dealID opts,
     reports_unmarshal_failure (json_Unmarshal (T := Deal)) None "deal"
       (deals.GetDeal Deal ctx dealID opts)) /\
  (forall ctx dealID (Input : Type) (input : Input),
     reports_unmarshal_failure (json_Unmarshal (T := Deal)) None "deal"
       (deals.UpdateDeal Deal ctx dealID input)) /\
  (forall ctx opts,
     reports_unmarshal_failure (json_Unmarshal (T := ListDealsResponse)) None
       "deals list"
       (deals.ListDeals ListDealsResponse ctx opts)) /\
  (forall ctx (Input : Type) (input : Input),
     reports_unmarshal_failure (json_Unmarshal (T := BatchDealsResponse)) None
       "batch"
       (deals.BatchReadDeals BatchDealsResponse ctx input)) /\
  (forall ctx (Input : Type) (input : Input),
     reports_unmarshal_failure (json_Unmarshal (T := BatchDealsResponse)) None
       "batch"
       (deals.BatchCreateDeals BatchDealsResponse ctx input)) /\
  (forall ctx (Input : Type) (input : Input),
     reports_unmarshal_failure (json_Unmarshal (T := BatchDealsResponse)) None
       "batch"
       (deals.BatchUpdateDeals BatchDealsResponse ctx input)) /\
  (forall ctx (Input : Type) (input : Input),
     reports_unmarshal_failure (json_Unmarshal (T := SearchDealsResponse))
       None "search"
       (deals.SearchDeals SearchDealsResponse ctx input)).

(** The methods of package companies that decode an answer, each with the
    name its error gives the call. *)
Definition companies_report_unmarshal_failure : Prop :=
  (forall ctx input,
     reports_unmarshal_failure (json_Unmarshal (T := companies.Company.t))
       None "company"
       (companies.CreateCompany ctx input)) /\
  (forall ctx companyID opts,
     reports_unmarshal_failure (json_Unmarshal (T := companies.Company.t))
       None "company"
       (companies.GetCompany ctx companyID opts)) /\
  (forall ctx companyID input,
     reports_unmarshal_failure (json_Unmarshal (T := companies.Company.t))
       None "company"
       (companies.UpdateCompany ctx companyID input)) /\
  (forall ctx opts,
     reports_unmarshal_failure (json_Unmarshal (T :=
       companies.ListCompaniesResponse.t)) None "companies list"
       (companies.ListCompanies ctx opts)) /\
  (forall ctx input,
     reports_unmarshal_failure (json_Unmarshal (T :=
       companies.BatchCompaniesResponse.t)) None "batch"
       (companies.BatchReadCompanies ctx input)) /\
  (forall ctx input,
     reports_unmarshal_failure (json_Unmarshal (T :=
       companies.BatchCompaniesResponse.t)) None "batch"
       (companies.BatchCreateCompanies ctx input)) /\
  (forall ctx input,
     reports_unmarshal_failure (json_Unmarshal (T :=
       companies.BatchCompaniesResponse.t)) None "batch"
       (companies.BatchUpdateCompanies ctx input)) /\
  (forall ctx input,
     reports_unmarshal_failure (json_Unmarshal (T :=
       companies.SearchCompaniesResponse.t)) None "search"
       (companies.SearchCompanies ctx input)).

(** The methods of package associations that decode an answer, each with the
    name its error gives the call. *)
Definition associations_report_unmarshal_failure : Prop :=
  (forall ctx fromObjectType fromObjectID toObjectType toObjectID
          associationSpecs,
     reports_unmarshal_failure (json_Unmarshal (T :=
       associations.AssociationResponse.t)) None "association"
       (associations.CreateAssociation ctx fromObjectType fromObjectID
          toObjectType toObjectID associationSpecs)) /\
  (forall ctx fromObjectType fromObjectID toObjectType opts,
     reports_unmarshal_failure (json_Unmarshal (T :=
       associations.ListAssociationsResponse.t)) None "associations"
       (associations.ListAssociations ctx fromObjectType fromObjectID
          toObjectType opts)) /\
  (forall ctx fromObjectType toObjectType,
     reports_unmarshal_failure (json_Unmarshal (T :=
       associations.GetAssociationLabelsResponse.t)) None "labels"
       (associations.GetAssociationLabels ctx fromObjectType toObjectType)).

(** The methods of package schemas that decode an answer, each with the
    name its error gives the call. *)
Definition schemas_report_unmarshal_failure : Prop :=
  (forall ctx opts,
     reports_unmarshal_failure (UnmarhsalJSON (T :=
       schemas.GetAllSchemasResponse.t)) None "schemas"
       (schemas.GetAllSchemas ctx opts)) /\
  (forall ctx objectType,
     reports_unmarshal_failure (UnmarhsalJSON (T := schemas.Schema.t)) None
       "schema"
       (schemas.GetExistingSchema ctx objectType)) /\
  (forall ctx input,
     reports_unmarshal_failure (UnmarhsalJSON (T := schemas.Schema.t)) None
       "schema"
       (schemas.CreateNewSchema ctx input)) /\
  (forall ctx objectType input,
     reports_unmarshal_failure (UnmarhsalJSON (T :=
       schemas.CreateNewAssociationSchemaResponse.t)) None "schema"
       (schemas.CreateNewAssociationSchema ctx objectType input)) /\
  (forall ctx objectType input,
     reports_unmarshal_failure (UnmarhsalJSON (T := schemas.Schema.t)) None
       "schema"
       (schemas.UpdateSchema ctx objectType input)).

(** The methods of package lists that decode an answer, each with the
    name its error gives the call. *)
Definition lists_report_unmarshal_failure : Prop :=
  (forall ctx listID opts,
     reports_unmarshal_failure (json_Unmarshal (T := lists.ListResponse.t))
       None "list"
       (lists.GetListByID ctx listID opts)) /\
  (forall ctx ObjectTypeID listName opts,
     reports_unmarshal_failure (json_Unmarshal (T := lists.ListResponse.t))
       None "list"
       (lists.GetListByName ctx ObjectTypeID listName opts)) /\
  (forall ctx input,
     reports_unmarshal_failure (json_Unmarshal (T := lists.ListResponse.t))
       None "list"
       (lists.CreateList ctx input)) /\
  (forall ctx listIDs opts,
     reports_unmarshal_failure (json_Unmarshal (T :=
       lists.ListsByIDResponse.t)) [] "lists"
       (lists.GetListsByIDs ctx listIDs opts)) /\
  (forall ctx input,
     reports_unmarshal_failure (json_Unmarshal (T :=
       lists.ListSearchResponse.t)) None "search"
       (lists.SearchLists ctx input)) /\
  (forall ctx listID listName includeFilters,
     reports_unmarshal_failure (json_Unmarshal (T := lists.ListResponse.t))
       None "list"
       (lists.UpdateListName ctx listID listName includeFilters)) /\
  (forall ctx listID filterBranch includeFilters,
     reports_unmarshal_failure (json_Unmarshal (T := lists.ListResponse.t))
       None "list"
       (lists.UpdateListFilters ctx listID filterBranch includeFilters)) /\
  (forall ctx objectTypeID recordID,
     reports_unmarshal_failure (json_Unmarshal (T :=
       lists.RecordMembershipsResponse.t)) None "memberships"
       (lists.GetRecordMemberships ctx objectTypeID recordID)) /\
  (forall ctx inputs,
     reports_unmarshal_failure (json_Unmarshal (T :=
       lists.BatchReadMembershipsResponse.t)) None "batch memberships"
       (lists.BatchGetRecordMemberships ctx inputs)) /\
  (forall ctx listID recordIDs,
     reports_unmarshal_failure (json_Unmarshal (T :=
       lists.MembershipChangeResponse.t)) None "membership change"
       (lists.AddRecordsToList ctx listID recordIDs)) /\
  (forall ctx listID sourceListID,
     reports_unmarshal_failure (json_Unmarshal (T :=
       lists.MembershipChangeResponse.t)) None "membership change"
       (lists.AddFromSourceList ctx listID sourceListID)) /\
  (forall ctx listID opts,
     reports_unmarshal_failure (json_Unmarshal (T :=
       lists.ListMembershipsResponse.t)) None "list memberships"
       (lists.GetListMemberships ctx listID opts)) /\
  (forall ctx listID recordIDs,
     reports_unmarshal_failure (json_Unmarshal (T :=
       lists.MembershipChangeResponse.t)) None "membership change"
       (lists.RemoveRecordsFromList ctx listID recordIDs)) /\
  (forall ctx listID conversionReq,
     reports_unmarshal_failure (json_Unmarshal (T :=
       lists.ScheduleConversionResponse.t)) None "conversion schedule"
       (lists.ScheduleConversion ctx listID conversionReq)) /\
  (forall ctx listID,
     reports_unmarshal_failure (json_Unmarshal (T :=
       lists.ScheduleConversionResponse.t)) None "conversion schedule"
       (lists.GetConversionSchedule ctx listID)).

(** ** The methods of the five clients

    One line per method under crm/: its package, the options the caller
    passed (none for a method that takes none), what the method makes of
    the error of the dispatcher before returning it (nothing, outside
    package lists), and the call. *)
Inductive resource_call
  : package -> list RequestOption -> (error -> error) ->
    forall A : Type, Outcome A -> Call A -> Prop :=
| call_CreateDeal ctx (Input : Type) (input : Input) :
    resource_call Deals [] unclassified _ _
      (deals.CreateDeal Deal ctx input)
| call_GetDeal ctx dealID opts :
    resource_call Deals opts unclassified _ _
      (deals.GetDeal Deal ctx dealID opts)
| call_UpdateDeal ctx dealID (Input : Type) (input : Input) :
    resource_call Deals [] unclassified _ _
      (deals.UpdateDeal Deal ctx dealID input)
| call_ArchiveDeal ctx dealID :
    resource_call Deals [] unclassified _ _
      (deals.ArchiveDeal ctx dealID)
| call_ListDeals ctx opts :
    resource_call Deals opts unclassified _ _
      (deals.ListDeals ListDealsResponse ctx opts)
| call_BatchReadDeals ctx (Input : Type) (input : Input) :
    resource_call Deals [] unclassified _ _
      (deals.BatchReadDeals BatchDealsResponse ctx input)
| call_BatchCreateDeals ctx (Input : Type) (input : Input) :
    resource_call Deals [] unclassified _ _
      (deals.BatchCreateDeals BatchDealsResponse ctx input)
| call_BatchUpdateDeals ctx (Input : Type) (input : Input) :
    resource_call Deals [] unclassified _ _
      (deals.BatchUpdateDeals BatchDealsResponse ctx input)
| call_BatchArchiveDeals ctx (Input : Type) (input : Input) :
    resource_call Deals [] unclassified _ _
      (deals.BatchArchiveDeals ctx input)
| call_SearchDeals ctx (Input : Type) (input : Input) :
    resource_call Deals [] unclassified _ _
      (deals.SearchDeals SearchDealsResponse ctx input)
| call_CreateCompany ctx input :
    resource_call Companies [] unclassified _ _
      (companies.CreateCompany ctx input)
| call_GetCompany ctx companyID opts :
    resource_call Companies opts unclassified _ _
      (companies.GetCompany ctx companyID opts)
| call_UpdateCompany ctx companyID input :
    resource_call Companies [] unclassified _ _
      (companies.UpdateCompany ctx companyID input)
| call_ArchiveCompany ctx companyID :
    resource_call Companies [] unclassified _ _
      (companies.ArchiveCompany ctx companyID)
| call_ListCompanies ctx opts :
    resource_call Companies opts unclassified _ _
      (companies.ListCompanies ctx opts)
| call_BatchReadCompanies ctx input :
    resource_call Companies [] unclassified _ _
      (companies.BatchReadCompanies ctx input)
| call_BatchCreateCompanies ctx input :
    resource_call Companies [] unclassified _ _
      (companies.BatchCreateCompanies ctx input)
| call_BatchUpdateCompanies ctx input :
    resource_call Companies [] unclassified _ _
      (companies.BatchUpdateCompanies ctx input)
| call_BatchArchiveCompanies ctx input :
    resource_call Companies [] unclassified _ _
      (companies.BatchArchiveCompanies ctx input)
| call_SearchCompanies ctx input :
    resource_call Companies [] unclassified _ _
      (companies.SearchCompanies ctx input)
| call_CreateAssociation ctx fromObjectType fromObjectID toObjectType
    toObjectID associationSpecs :
    resource_call Associations [] unclassified _ _
      (associations.CreateAssociation ctx fromObjectType fromObjectID
        toObjectType toObjectID associationSpecs)
| call_DeleteAssociation ctx fromObjectType fromObjectID toObjectType
    toObjectID associationSpecs :
    resource_call Associations [] unclassified _ _
      (associations.DeleteAssociation ctx fromObjectType fromObjectID
        toObjectType toObjectID associationSpecs)
| call_ListAssociations ctx fromObjectType fromObjectID toObjectType opts :
    resource_call Associations opts unclassified _ _
      (associations.ListAssociations ctx fromObjectType fromObjectID
        toObjectType opts)
| call_BatchCreateAssociations ctx fromObjectType toObjectType input :
    resource_call Associations [] unclassified _ _
      (associations.BatchCreateAssociations ctx fromObjectType toObjectType
        input)
| call_BatchDeleteAssociations ctx fromObjectType toObjectType input :
    resource_call Associations [] unclassified _ _
      (associations.BatchDeleteAssociations ctx fromObjectType toObjectType
        input)
| call_GetAssociationLabels ctx fromObjectType toObjectType :
    resource_call Associations [] unclassified _ _
      (associations.GetAssociationLabels ctx fromObjectType toObjectType)
| call_GetAllSchemas ctx opts :
    resource_call Schemas opts unclassified _ _
      (schemas.GetAllSchemas ctx opts)
| call_GetExistingSchema ctx objectType :
    resource_call Schemas [] unclassified _ _
      (schemas.GetExistingSchema ctx objectType)
| call_CreateNewSchema ctx input :
    resource_call Schemas [] unclassified _ _
      (schemas.CreateNewSchema ctx input)
| call_CreateNewAssociationSchema ctx objectType input :
    resource_call Schemas [] unclassified _ _
      (schemas.CreateNewAssociationSchema ctx objectType input)
| call_UpdateSchema ctx objectType input :
    resource_call Schemas [] unclassified _ _
      (schemas.UpdateSchema ctx objectType input)
| call_DeleteSchema ctx objectType opts :
    resource_call Schemas opts unclassified _ _
      (schemas.DeleteSchema ctx objectType opts)
| call_RemoveAssociationSchema ctx objectType associationIdentifier :
    resource_call Schemas [] unclassified _ _
      (schemas.RemoveAssociationSchema ctx objectType associationIdentifier)
| call_GetListByID ctx listID opts :
    resource_call Lists opts (fun err => lists.ParseListError err listID) _ _
      (lists.GetListByID ctx listID opts)
| call_GetListByName ctx ObjectTypeID listName opts :
    resource_call Lists opts (fun err => lists.ParseListError err listName) _
      _
      (lists.GetListByName ctx ObjectTypeID listName opts)
| call_CreateList ctx input :
    resource_call Lists [] (fun err => lists.ParseListError err "") _
      _
      (lists.CreateList ctx input)
| call_GetListsByIDs ctx listIDs opts :
    resource_call Lists opts (fun err => lists.ParseListError err "")
      _ _
      (lists.GetListsByIDs ctx listIDs opts)
| call_SearchLists ctx input :
    resource_call Lists [] (fun err => lists.ParseListError err "") _
      _
      (lists.SearchLists ctx input)
| call_UpdateListName ctx listID listName includeFilters :
    resource_call Lists [] (fun err => lists.ParseListError err listID) _ _
      (lists.UpdateListName ctx listID listName includeFilters)
| call_UpdateListFilters ctx listID filterBranch includeFilters :
    resource_call Lists [] (fun err => lists.ParseListError err listID) _ _
      (lists.UpdateListFilters ctx listID filterBranch includeFilters)
| call_DeleteList ctx listID :
    resource_call Lists [] (fun err => lists.ParseListError err listID) _ _
      (lists.DeleteList ctx listID)
| call_RestoreList ctx listID :
    resource_call Lists [] (fun err => lists.ParseListError err listID) _ _
      (lists.RestoreList ctx listID)
| call_GetRecordMemberships ctx objectTypeID recordID :
    resource_call Lists [] (fun err => lists.ParseRecordError err recordID
      "") _ _
      (lists.GetRecordMemberships ctx objectTypeID recordID)
| call_BatchGetRecordMemberships ctx inputs :
    resource_call Lists [] (fun err => lists.ParseListError err "") _
      _
      (lists.BatchGetRecordMemberships ctx inputs)
| call_AddRecordsToList ctx listID recordIDs :
    resource_call Lists [] (fun err => lists.ParseListError err listID) _ _
      (lists.AddRecordsToList ctx listID recordIDs)
| call_AddFromSourceList ctx listID sourceListID :
    resource_call Lists [] (fun err => lists.ParseListError err listID) _ _
      (lists.AddFromSourceList ctx listID sourceListID)
| call_GetListMemberships ctx listID opts :
    resource_call Lists opts (fun err => lists.ParseListError err listID) _ _
      (lists.GetListMemberships ctx listID opts)
| call_RemoveAllRecords ctx listID :
    resource_call Lists [] (fun err => lists.ParseListError err listID) _ _
      (lists.RemoveAllRecords ctx listID)
| call_RemoveRecordsFromList ctx listID recordIDs :
    resource_call Lists [] (fun err => lists.ParseListError err listID) _ _
      (lists.RemoveRecordsFromList ctx listID recordIDs)
| call_ScheduleConversion ctx listID conversionReq :
    resource_call Lists [] (fun err => lists.ParseListError err listID) _ _
      (lists.ScheduleConversion ctx listID conversionReq)
| call_GetConversionSchedule ctx listID :
    resource_call Lists [] (fun err => lists.ParseListError err listID) _ _
      (lists.GetConversionSchedule ctx listID)
| call_DeleteConversionSchedule ctx listID :
    resource_call Lists [] (fun err => lists.ParseListError err listID) _ _
      (lists.DeleteConversionSchedule ctx listID).

Arguments resource_call _ _ _ {A O} _.

(** * Properties *)

(** ** The error classifier *)

Lemma ParseListError_404 e listID :
  client.Status e = 404 ->
  lists.ParseListError (HubSpotErr e) listID =
  ListNotFoundErr {| ListNotFoundError.ListID := listID;
                     ListNotFoundError.Original := e |}.
Proof. intros Hst. unfold lists.ParseListError. now rewrite Hst. Qed.

Lemma ParseListError_400_validation e listID :
  client.Status e = 400 -> client.Category e = "VALIDATION_ERROR" ->
  lists.ParseListError (HubSpotErr e) listID =
  ListValidationErr {| ListValidationError.Field := client.Message e;
                       ListValidationError.Message := "";
                       ListValidationError.Original := e |}.
Proof. intros H1 H2. unfold lists.ParseListError. now rewrite H1, H2. Qed.

Lemma ParseListError_400_other e listID :
  client.Status e = 400 -> client.Category e <> "VALIDATION_ERROR" ->
  lists.ParseListError (HubSpotErr e) listID = HubSpotErr e.
Proof.
  intros H1 H2. unfold lists.ParseListError. rewrite H1. cbn.
  destruct (String.eqb_spec (client.Category e) "VALIDATION_ERROR"); congruence.
Qed.

Lemma ParseListError_409 e listID :
  client.Status e = 409 ->
  lists.ParseListError (HubSpotErr e) listID =
  ListAlreadyExistsErr {| ListAlreadyExistsError.ListName := "";
                          ListAlreadyExistsError.Original := e |}.
Proof. intros Hst. unfold lists.ParseListError. now rewrite Hst. Qed.

Lemma ParseListError_other_status e listID :
  client.Status e <> 404 -> client.Status e <> 400 -> client.Status e <> 409 ->
  lists.ParseListError (HubSpotErr e) listID = HubSpotErr e.
Proof.
  intros H1 H2 H3. unfold lists.ParseListError.
  destruct (Z.eqb_spec (client.Status e) 404); [congruence|].
  destruct (Z.eqb_spec (client.Status e) 400); [congruence|].
  destruct (Z.eqb_spec (client.Status e) 409); [congruence|].
  reflexivity.
Qed.

Lemma ParseListError_not_server err listID :
  (forall e, err <> HubSpotErr e) -> lists.ParseListError err listID = err.
Proof. intros Hne. destruct err; try reflexivity. now destruct (Hne e). Qed.

(** Whatever the classifier returns is either its argument or a typed
    variant wrapping the server error it was given. *)
Lemma ParseListError_keeps_original err listID :
  lists.ParseListError err listID = err \/
  exists e, err = HubSpotErr e /\
            Original (lists.ParseListError err listID) = Some e.
Proof.
  destruct err; try (now left).
  unfold lists.ParseListError.
  destruct (client.Status e =? 404); [right; eauto|].
  destruct (client.Status e =? 400).
  - destruct (String.eqb _ _); [right; eauto | now left].
  - destruct (client.Status e =? 409); [right; eauto | now left].
Qed.

(** C2. The classifier [ParseListError] implements exactly the mapping of
    section 4.5: a server error with status 404 yields the NotFound
    variant; status 400 with category VALIDATION_ERROR yields the
    ValidationError variant; status 400 with any other category is
    returned unchanged; status 409 yields the AlreadyExists variant; any
    other status is returned unchanged; an error that is not a structured
    server error is returned unchanged; and every typed variant produced
    carries the server error it was made from in [Original].  Being a
    function of the embedding, the classifier is pure: it has no effect
    and its result depends on its two arguments only. *)
Theorem ParseListError_mapping (listID : string) :
  (forall e, client.Status e = 404 ->
     lists.ParseListError (HubSpotErr e) listID =
     ListNotFoundErr {| ListNotFoundError.ListID := listID;
                        ListNotFoundError.Original := e |}) /\
  (forall e, client.Status e = 400 ->
     client.Category e = "VALIDATION_ERROR" ->
     lists.ParseListError (HubSpotErr e) listID =
     ListValidationErr {| ListValidationError.Field := client.Message e;
                          ListValidationError.Message := "";
                          ListValidationError.Original := e |}) /\
  (forall e, client.Status e = 400 ->
     client.Category e <> "VALIDATION_ERROR" ->
     lists.ParseListError (HubSpotErr e) listID = HubSpotErr e) /\
  (forall e, client.Status e = 409 ->
     lists.ParseListError (HubSpotErr e) listID =
     ListAlreadyExistsErr {| ListAlreadyExistsError.ListName := "";
                             ListAlreadyExistsError.Original := e |}) /\
  (forall e, client.Status e <> 404 -> client.Status e <> 400 ->
     client.Status e <> 409 ->
     lists.ParseListError (HubSpotErr e) listID = HubSpotErr e) /\
  (forall err, (forall e, err <> HubSpotErr e) ->
     lists.ParseListError err listID = err) /\
  (forall e tag, tag_of (lists.ParseListError (HubSpotErr e) listID) = Some tag ->
     Original (lists.ParseListError (HubSpotErr e) listID) = Some e).
Proof.
  repeat apply conj.
  - intros; now apply ParseListError_404.
  - intros; now apply ParseListError_400_validation.
  - intros; now apply ParseListError_400_other.
  - intros; now apply ParseListError_409.
  - intros; now apply ParseListError_other_status.
  - intros; now apply ParseListError_not_server.
  - intros e tag Htag.
    destruct (ParseListError_keeps_original (HubSpotErr e) listID)
      as [Heq | (e' & He' & Ho)].
    + rewrite Heq in Htag. discriminate.
    + now inversion He'; subst.
Qed.

(** The same table for the classifier of the objects package, whose source
    is missing and which is modelled from its tests. *)
Lemma ParseObjectError_mapping (objectType : string) :
  (forall e, client.Status e = 404 ->
     objects.ParseObjectError (HubSpotErr e) objectType =
     ObjectNotFoundErr {| ObjectNotFoundError.ObjectType := objectType;
                          ObjectNotFoundError.Original := e |}) /\
  (forall e, client.Status e = 400 ->
     client.Category e = "VALIDATION_ERROR" ->
     exists v, objects.ParseObjectError (HubSpotErr e) objectType =
               ObjectValidationErr v /\
               ObjectValidationError.Field v = client.Message e /\
               ObjectValidationError.Original v = e) /\
  (forall e, client.Status e = 400 ->
     client.Category e <> "VALIDATION_ERROR" ->
     objects.ParseObjectError (HubSpotErr e) objectType = HubSpotErr e) /\
  (forall e, client.Status e = 409 ->
     exists v, objects.ParseObjectError (HubSpotErr e) objectType =
               ObjectAlreadyExistsErr v /\
               ObjectAlreadyExistsError.Original v = e) /\
  (forall e, client.Status e <> 404 -> client.Status e <> 400 ->
     client.Status e <> 409 ->
     objects.ParseObjectError (HubSpotErr e) objectType = HubSpotErr e) /\
  (forall err, (forall e, err <> HubSpotErr e) ->
     objects.ParseObjectError err objectType = err).
Proof.
  unfold objects.ParseObjectError. repeat apply conj.
  - intros e Hst. now rewrite Hst.
  - intros e H1 H2. rewrite H1, H2. cbn. eauto.
  - intros e H1 H2. rewrite H1. cbn.
    destruct (String.eqb_spec (client.Category e) "VALIDATION_ERROR"); congruence.
  - intros e Hst. rewrite Hst. cbn. eauto.
  - intros e H1 H2 H3.
    destruct (Z.eqb_spec (client.Status e) 404); [congruence|].
    destruct (Z.eqb_spec (client.Status e) 400); [congruence|].
    destruct (Z.eqb_spec (client.Status e) 409); [congruence|].
    reflexivity.
  - intros err Hne. destruct err; try reflexivity. now destruct (Hne e).
Qed.

(** The assertions of the classifier tests of the objects package. *)
Example TestParseObjectError_vectors :
  objects.ParseObjectError (HubSpotErr err404) "contacts" =
    ObjectNotFoundErr {| ObjectNotFoundError.ObjectType := "contacts";
                         ObjectNotFoundError.Original := err404 |} /\
  (exists v, objects.ParseObjectError (HubSpotErr err400v) "contacts" =
             ObjectValidationErr v /\
             ObjectValidationError.Field v = "Invalid email format" /\
             ObjectValidationError.Original v = err400v) /\
  objects.ParseObjectError (HubSpotErr err400o) "contacts" = HubSpotErr err400o /\
  (exists v, objects.ParseObjectError (HubSpotErr err409) "contacts" =
             ObjectAlreadyExistsErr v /\
             ObjectAlreadyExistsError.Original v = err409) /\
  objects.ParseObjectError (HubSpotErr err500) "contacts" = HubSpotErr err500 /\
  objects.ParseObjectError (ForeignErr "some other error") "contacts" =
    ForeignErr "some other error".
Proof. repeat apply conj; try reflexivity; eexists; repeat apply conj; reflexivity. Qed.

(** C8. The classifier is stable: when classifying the server error [e]
    with the identifier [listID] yields a typed variant [v], the variant
    wraps [e] as its original, and classifying that original again with
    the same identifier yields [v] itself, hence the same tag and the same
    field values. *)
Theorem ParseListError_idempotent (e : client.HubSpotError) (listID : string)
    (v : error) (tag : variant_tag) :
  lists.ParseListError (HubSpotErr e) listID = v ->
  tag_of v = Some tag ->
  exists original,
    Original v = Some original /\
    lists.ParseListError (HubSpotErr original) listID = v /\
    tag_of (lists.ParseListError (HubSpotErr original) listID) = Some tag.
Proof.
  intros Hv Htag. exists e. subst v. repeat apply conj; trivial.
  destruct (ParseListError_keeps_original (HubSpotErr e) listID)
    as [Heq | (e' & He' & Ho)].
  - rewrite Heq in Htag. discriminate.
  - now inversion He'; subst.
Qed.

(** [ParseRecordError] is stable in the same way, for its two
    identifiers. *)
Lemma ParseRecordError_idempotent (e : client.HubSpotError)
    (recordID listID : string) (v : error) (tag : variant_tag) :
  lists.ParseRecordError (HubSpotErr e) recordID listID = v ->
  tag_of v = Some tag ->
  exists original,
    Original v = Some original /\
    lists.ParseRecordError (HubSpotErr original) recordID listID = v.
Proof.
  intros Hv Htag. exists e. split; [|assumption]. subst v.
  unfold lists.ParseRecordError in *.
  destruct (client.Status e =? 404); [reflexivity|].
  destruct (ParseListError_keeps_original (HubSpotErr e) listID)
    as [Heq | (e' & He' & Ho)].
  - rewrite Heq in Htag. discriminate.
  - now inversion He'; subst.
Qed.

(** The modelled classifier of the objects package is stable as well. *)
Lemma ParseObjectError_idempotent (e : client.HubSpotError)
    (objectType : string) (v : error) (tag : variant_tag) :
  objects.ParseObjectError (HubSpotErr e) objectType = v ->
  tag_of v = Some tag ->
  exists original,
    Original v = Some original /\
    objects.ParseObjectError (HubSpotErr original) objectType = v.
Proof.
  intros Hv Htag. exists e. split; [|assumption]. subst v.
  unfold objects.ParseObjectError in *.
  destruct (client.Status e =? 404); [reflexivity|].
  destruct (client.Status e =? 400).
  - destruct (String.eqb _ _); [reflexivity | discriminate].
  - destruct (client.Status e =? 409); [reflexivity | discriminate].
Qed.

(** C10. When the classifier maps a 400 server error of category
    VALIDATION_ERROR to the ValidationError variant, the server's message
    is stored in the variant's [Field], its [Message] stays empty, and the
    rendered text is "validation error on field <server message>: ": the
    field name and the human message are not separated. *)
Theorem ParseListError_validation_field (e : client.HubSpotError) (listID : string) :
  client.Status e = 400 ->
  client.Category e = "VALIDATION_ERROR" ->
  exists v,
    lists.ParseListError (HubSpotErr e) listID = ListValidationErr v /\
    ListValidationError.Field v = client.Message e /\
    ListValidationError.Message v = "" /\
    ListValidationError.Error v =
      "validation error on field " +:+ client.Message e +:+ ": " /\
    Error (lists.ParseListError (HubSpotErr e) listID) =
      "validation error on field " +:+ client.Message e +:+ ": ".
Proof.
  intros H1 H2. eexists. split.
  - now apply ParseListError_400_validation.
  - rewrite ParseListError_400_validation by assumption.
    repeat apply conj; reflexivity.
Qed.

(** ** Functional options *)

Lemma writes_sound opt w :
  writes opt w ->
  forall req,
    opt req = match w with
              | Some (k, v) => client.AddQueryParam req k v
              | None => req
              end.
Proof. destruct 1; reflexivity. Qed.

Lemma last_write_acc key ws acc :
  fold_left (read_write key) ws acc =
  match last_write key ws with
  | Some v => Some v
  | None => acc
  end.
Proof.
  unfold last_write. revert acc.
  induction ws as [|w ws IH]; intros acc; [reflexivity|].
  cbn [fold_left]. rewrite IH, (IH (read_write key None w)).
  destruct (fold_left _ ws None); [reflexivity|].
  destruct w as [[k v]|]; [|reflexivity].
  cbn. destruct (decide (k = key)); reflexivity.
Qed.

Lemma applyOptions_query opts ws :
  Forall2 writes opts ws ->
  forall req key,
    client.Query (applyOptions opts req) !! key =
    match last_write key ws with
    | Some v => Some v
    | None => client.Query req !! key
    end.
Proof.
  induction 1 as [|opt w opts ws Hw _ IH]; intros req key; [reflexivity|].
  unfold applyOptions in *. cbn [fold_left]. rewrite IH.
  unfold last_write at 2. cbn [fold_left]. rewrite last_write_acc.
  destruct (last_write key ws); [reflexivity|].
  rewrite (writes_sound _ _ Hw req).
  destruct w as [[k v]|]; [|reflexivity].
  cbn [client.AddQueryParam client.Query read_write].
  destruct (decide (k = key)) as [->|Hne].
  - apply lookup_insert_eq.
  - now apply lookup_insert_ne.
Qed.

Lemma applyOptions_frame opts ws :
  Forall2 writes opts ws ->
  forall req,
    client.Method (applyOptions opts req) = client.Method req /\
    client.Path (applyOptions opts req) = client.Path req /\
    client.Body (applyOptions opts req) = client.Body req /\
    client.ResourceType (applyOptions opts req) = client.ResourceType req /\
    client.ctx (applyOptions opts req) = client.ctx req.
Proof.
  induction 1 as [|opt w opts ws Hw _ IH]; intros req; [easy|].
  unfold applyOptions in *. cbn [fold_left].
  destruct (IH (opt req)) as (-> & -> & -> & -> & ->).
  rewrite (writes_sound _ _ Hw req).
  destruct w as [[k v]|]; easy.
Qed.

(** C3. For every request and every sequence of options of the packages
    applied to it in caller order, the resulting query-parameter mapping
    gives each key the value written by the last option of the sequence
    that wrote the key, and keeps the value the request had for a key no
    option wrote; the method, path, body, resource-type tag and context of
    the request are unchanged.  An option is a function from requests to
    requests: it is not a [Call], so applying it sends nothing. *)
Theorem options_last_write_wins (req : client.Request)
    (opts : list RequestOption) (ws : list (option (string * string))) :
  Forall2 writes opts ws ->
  (forall key,
     client.Query (applyOptions opts req) !! key =
     match last_write key ws with
     | Some v => Some v
     | None => client.Query req !! key
     end) /\
  client.Method (applyOptions opts req) = client.Method req /\
  client.Path (applyOptions opts req) = client.Path req /\
  client.Body (applyOptions opts req) = client.Body req /\
  client.ResourceType (applyOptions opts req) = client.ResourceType req /\
  client.ctx (applyOptions opts req) = client.ctx req.
Proof.
  intros Hws. split.
  - intros key. now apply applyOptions_query.
  - now apply applyOptions_frame with (ws := ws).
Qed.

(** Every option of the sources is in the catalogue [writes]: a sequence
    built from them always has its sequence of writes. *)
Lemma deals_options_write (opt : deals.DealOption) :
  (exists ps, opt = deals.WithProperties ps) \/
  (exists ps, opt = deals.WithPropertiesWithHistory ps) \/
  (exists ps, opt = deals.WithAssociations ps) \/
  (exists n, opt = deals.WithLimit n) \/
  (exists a, opt = deals.WithAfter a) \/
  opt = deals.WithArchived \/
  (exists p, opt = deals.WithIDProperty p) ->
  exists k v, writes opt (Some (k, v)).
Proof.
  intros [[ps ->]|[[ps ->]|[[ps ->]|[[n ->]|[[a ->]|[->|[p ->]]]]]]];
    do 2 eexists; constructor.
Qed.

(** ** Rendering a batch item error *)

(** C6. [BatchError.Error] follows the four cases of section 4.6: with a
    non-empty message and sub-errors, the message, then ": ", then the
    sub-error messages joined by "; "; with a non-empty message and no
    sub-error, the message; with an empty message and sub-errors,
    "batch error: " followed by the message of the first sub-error; with
    neither, "batch error". *)
Theorem BatchError_Error_cases (e : BatchError.t) :
  (BatchError.Message e <> "" -> BatchError.Errors e <> [] ->
   BatchError.Error e =
   BatchError.Message e +:+ ": " +:+
   strings_Join (map ObjectError.Message (BatchError.Errors e)) "; ") /\
  (BatchError.Message e <> "" -> BatchError.Errors e = [] ->
   BatchError.Error e = BatchError.Message e) /\
  (BatchError.Message e = "" ->
   forall first rest, BatchError.Errors e = first :: rest ->
   BatchError.Error e = "batch error: " +:+ ObjectError.Message first) /\
  (BatchError.Message e = "" -> BatchError.Errors e = [] ->
   BatchError.Error e = "batch error").
Proof.
  unfold BatchError.Error. repeat apply conj.
  - intros Hm He.
    destruct (String.eqb_spec (BatchError.Message e) ""); [congruence|].
    cbn [negb]. destruct (BatchError.Errors e); [congruence | reflexivity].
  - intros Hm He.
    destruct (String.eqb_spec (BatchError.Message e) ""); [congruence|].
    cbn [negb]. now rewrite He.
  - intros Hm first rest He. now rewrite Hm, He.
  - intros Hm He. now rewrite Hm, He.
Qed.

(** ** Answers that decode *)

(** C5. When the server answers [GetAllSchemas] with status 200 and a
    body whose results array is empty, the caller receives the decoded,
    empty [GetAllSchemasResponse], not nil, together with a non-nil error
    whose message contains "no schemas found". *)
Theorem GetAllSchemas_no_results (transport : Transport) (ctx : client.Context)
    (opts : list schemas.SchemaOption) (resp : client.Response.t)
    (decoded : schemas.GetAllSchemasResponse.t) :
  served transport (schemas.GetAllSchemas ctx opts) resp ->
  client.Response.StatusCode resp = 200 ->
  UnmarhsalJSON (client.Response.Body resp) = Ok decoded ->
  schemas.GetAllSchemasResponse.Results decoded = [] ->
  exists err,
    run transport (schemas.GetAllSchemas ctx opts) = (Some decoded, Some err) /\
    strings_Contains (Error err) "no schemas found" = true.
Proof.
  intros Hs _ Hd Hempty. exists (Errorf "no schemas found").
  unfold schemas.GetAllSchemas in *. answer Hs.
  rewrite Hd, Hempty. split; reflexivity.
Qed.

(** C4, amended.  When the server answers 200 with the body
    [{"results": [], "paging": null}], [ListCompanies], [ListDeals] and
    [ListAssociations] hand the caller the decoded answer, with its empty
    result sequence, and no error; [ListObjects] hands the caller a nil
    slice and an error whose message contains "no objects found". *)
Theorem list_calls_on_empty_results (transport : Transport)
    (ctx : client.Context) (resp : client.Response.t) :
  client.Response.StatusCode resp = 200 ->
  client.Response.Body resp = emptyListBody ->
  (forall opts,
     served transport (companies.ListCompanies ctx opts) resp ->
     json_Unmarshal emptyListBody = Ok emptyCompanies ->
     run transport (companies.ListCompanies ctx opts) =
     (Some emptyCompanies, None)) /\
  (forall opts (decoded : ListDealsResponse),
     served transport (deals.ListDeals ListDealsResponse ctx opts) resp ->
     json_Unmarshal emptyListBody = Ok decoded ->
     run transport (deals.ListDeals ListDealsResponse ctx opts) =
     (Some decoded, None)) /\
  (forall fromObjectType fromObjectID toObjectType opts,
     served transport
       (associations.ListAssociations ctx fromObjectType fromObjectID
          toObjectType opts) resp ->
     json_Unmarshal emptyListBody = Ok emptyAssociations ->
     run transport
       (associations.ListAssociations ctx fromObjectType fromObjectID
          toObjectType opts) =
     (Some emptyAssociations, None)) /\
  (forall objectType opts,
     served transport (objects.ListObjects ctx objectType opts) resp ->
     json_Unmarshal emptyListBody = Ok emptyObjects ->
     exists err,
       run transport (objects.ListObjects ctx objectType opts) =
       ([], None, Some err) /\
       strings_Contains (Error err) "no objects found" = true).
Proof.
  intros _ Hbody. repeat apply conj.
  - intros opts Hs Hd. unfold companies.ListCompanies in *. answer Hs.
    now rewrite Hbody, Hd.
  - intros opts decoded Hs Hd. unfold deals.ListDeals in *. answer Hs.
    now rewrite Hbody, Hd.
  - intros f i t opts Hs Hd. unfold associations.ListAssociations in *.
    answer Hs. now rewrite Hbody, Hd.
  - intros objectType opts Hs Hd. exists (Errorf "no objects found").
    unfold objects.ListObjects in *. answer Hs.
    rewrite Hbody, Hd. split; reflexivity.
Qed.

(** C1, amended.  The five batch calls of the objects package return, for
    every answer that decodes to a BatchResult with [NumErrors > 0], a
    non-nil error together with that BatchResult in full (its [Results],
    [NumErrors] and [Errors] as decoded), whatever the answer's status
    field and HTTP status.  The batch read, create and update calls of the
    deals and companies packages return the decoded answer with a nil
    error on every answer that decodes, and their batch archive calls
    return a nil error on every answer. *)
Theorem batch_calls_on_partial_failure (transport : Transport)
    (ctx : client.Context) (resp : client.Response.t) :
  (forall (Input : Type) (objectType : string) (input : Input)
          (result : objects.BatchResult.t)
          (call : client.Context -> string -> Input ->
                  Call (option objects.BatchResult.t * option error)),
     In call [objects.BatchReadObjects batchFailure;
              objects.BatchCreateObjects batchFailure;
              objects.BatchUpdateObjects batchFailure;
              objects.BatchCreateOrUpdateObjects batchFailure;
              objects.BatchArchiveObjects batchFailure] ->
     served transport (call ctx objectType input) resp ->
     json_Unmarshal (client.Response.Body resp) = Ok result ->
     objects.BatchResult.NumErrors result > 0 ->
     exists err,
       run transport (call ctx objectType input) = (Some result, Some err)) /\
  (forall input decoded,
     served transport (companies.BatchReadCompanies ctx input) resp ->
     json_Unmarshal (client.Response.Body resp) = Ok decoded ->
     run transport (companies.BatchReadCompanies ctx input) =
     (Some decoded, None)) /\
  (forall input decoded,
     served transport (companies.BatchCreateCompanies ctx input) resp ->
     json_Unmarshal (client.Response.Body resp) = Ok decoded ->
     run transport (companies.BatchCreateCompanies ctx input) =
     (Some decoded, None)) /\
  (forall input decoded,
     served transport (companies.BatchUpdateCompanies ctx input) resp ->
     json_Unmarshal (client.Response.Body resp) = Ok decoded ->
     run transport (companies.BatchUpdateCompanies ctx input) =
     (Some decoded, None)) /\
  (forall input,
     served transport (companies.BatchArchiveCompanies ctx input) resp ->
     run transport (companies.BatchArchiveCompanies ctx input) = None) /\
  (forall (Input : Type) (input : Input) (decoded : BatchDealsResponse),
     served transport (deals.BatchReadDeals BatchDealsResponse ctx input) resp ->
     json_Unmarshal (client.Response.Body resp) = Ok decoded ->
     run transport (deals.BatchReadDeals BatchDealsResponse ctx input) =
     (Some decoded, None)) /\
  (forall (Input : Type) (input : Input) (decoded : BatchDealsResponse),
     served transport (deals.BatchCreateDeals BatchDealsResponse ctx input) resp ->
     json_Unmarshal (client.Response.Body resp) = Ok decoded ->
     run transport (deals.BatchCreateDeals BatchDealsResponse ctx input) =
     (Some decoded, None)) /\
  (forall (Input : Type) (input : Input) (decoded : BatchDealsResponse),
     served transport (deals.BatchUpdateDeals BatchDealsResponse ctx input) resp ->
     json_Unmarshal (client.Response.Body resp) = Ok decoded ->
     run transport (deals.BatchUpdateDeals BatchDealsResponse ctx input) =
     (Some decoded, None)) /\
  (forall (Input : Type) (input : Input),
     served transport (deals.BatchArchiveDeals ctx input) resp ->
     run transport (deals.BatchArchiveDeals ctx input) = None).
Proof.
  repeat apply conj.
  - intros Input objectType input result call Hin Hs Hd Hn.
    exists (batchFailure result).
    assert (Hpos : (objects.BatchResult.NumErrors result >? 0) = true)
      by (apply Z.gtb_lt; lia).
    cbn [In] in Hin.
    destruct Hin as [<-|[<-|[<-|[<-|[<-|[]]]]]];
      unfold objects.BatchReadObjects, objects.BatchCreateObjects,
        objects.BatchUpdateObjects, objects.BatchCreateOrUpdateObjects,
        objects.BatchArchiveObjects, objects.batchCall in *;
      answer Hs; now rewrite Hd, Hpos.
  - intros input decoded Hs Hd. unfold companies.BatchReadCompanies in *.
    answer Hs. now rewrite Hd.
  - intros input decoded Hs Hd. unfold companies.BatchCreateCompanies in *.
    answer Hs. now rewrite Hd.
  - intros input decoded Hs Hd. unfold companies.BatchUpdateCompanies in *.
    answer Hs. now rewrite Hd.
  - intros input Hs. unfold companies.BatchArchiveCompanies in *.
    now answer Hs.
  - intros Input input decoded Hs Hd. unfold deals.BatchReadDeals in *.
    answer Hs. now rewrite Hd.
  - intros Input input decoded Hs Hd. unfold deals.BatchCreateDeals in *.
    answer Hs. now rewrite Hd.
  - intros Input input decoded Hs Hd. unfold deals.BatchUpdateDeals in *.
    answer Hs. now rewrite Hd.
  - intros Input input Hs. unfold deals.BatchArchiveDeals in *.
    now answer Hs.
Qed.

(** Whatever the decoder and the server do, a batch read, create or
    update of the companies and deals packages returns either a decoded
    answer with a nil error or a nil answer with an error, never both an
    answer and an error. *)
Lemma companies_deals_batch_result_xor_error (transport : Transport)
    (ctx : client.Context) :
  let xor {T} (m : Call (option T * option error)) :=
    (exists decoded, run transport m = (Some decoded, None)) \/
    (exists err, run transport m = (None, Some err)) in
  (forall input, xor (companies.BatchReadCompanies ctx input)) /\
  (forall input, xor (companies.BatchCreateCompanies ctx input)) /\
  (forall input, xor (companies.BatchUpdateCompanies ctx input)) /\
  (forall (Input : Type) (input : Input),
     xor (deals.BatchReadDeals BatchDealsResponse ctx input)) /\
  (forall (Input : Type) (input : Input),
     xor (deals.BatchCreateDeals BatchDealsResponse ctx input)) /\
  (forall (Input : Type) (input : Input),
     xor (deals.BatchUpdateDeals BatchDealsResponse ctx input)).
Proof.
  cbv zeta. repeat apply conj; intros;
    unfold companies.BatchReadCompanies, companies.BatchCreateCompanies,
      companies.BatchUpdateCompanies, deals.BatchReadDeals,
      deals.BatchCreateDeals, deals.BatchUpdateDeals;
    cbn [run mbind Call_mbind Call_bind apiClient_Do];
    (destruct (transport ctx _) as [resp|err];
     [destruct (json_Unmarshal (client.Response.Body resp)) as [v|err]|]);
    cbn; eauto.
Qed.

(** ** Requests without a body *)

(** C9. [CreateNewSchema], [CreateNewAssociationSchema] and
    [UpdateSchema] dispatch, for every input, a request with no body
    attached: the request each of them sends is fixed by the context and
    the object type alone, so it is the same for any two inputs, and so is
    the whole call. *)
Theorem schemas_input_not_dispatched (ctx : client.Context) (objectType : string) :
  (forall input,
     dispatched (schemas.CreateNewSchema ctx input) =
     Some {| client.Method := "POST";
             client.Path := "/crm-object-schemas/v3/schemas";
             client.Query := ∅; client.Body := None;
             client.ResourceType := "schemas"; client.ctx := Some ctx |}) /\
  (forall input,
     dispatched (schemas.CreateNewAssociationSchema ctx objectType input) =
     Some {| client.Method := "POST";
             client.Path :=
               "/crm-object-schemas/v3/schemas/" +:+ objectType +:+
               "/associations";
             client.Query := ∅; client.Body := None;
             client.ResourceType := "schemas"; client.ctx := Some ctx |}) /\
  (forall input,
     dispatched (schemas.UpdateSchema ctx objectType input) =
     Some {| client.Method := "PATCH";
             client.Path := "/crm-object-schemas/v3/schemas/" +:+ objectType;
             client.Query := ∅; client.Body := None;
             client.ResourceType := "schemas"; client.ctx := Some ctx |}) /\
  (forall input1 input2,
     schemas.CreateNewSchema ctx input1 = schemas.CreateNewSchema ctx input2) /\
  (forall input1 input2,
     schemas.CreateNewAssociationSchema ctx objectType input1 =
     schemas.CreateNewAssociationSchema ctx objectType input2) /\
  (forall input1 input2,
     schemas.UpdateSchema ctx objectType input1 =
     schemas.UpdateSchema ctx objectType input2).
Proof. repeat apply conj; reflexivity. Qed.

(** By contrast the create call of the companies package attaches its
    input. *)
Lemma CreateCompany_dispatches_input (ctx : client.Context)
    (input : companies.CreateCompanyInput.t) :
  client.Body <$> dispatched (companies.CreateCompany ctx input) =
  Some (Some (client.Any companies.CreateCompanyInput.t input)).
Proof. reflexivity. Qed.

(** ** Answers that do not decode *)

(** The methods that declare no result type decode nothing: on every
    answer of the transport without an error they return a nil error,
    whatever the body. *)
Lemma calls_without_result_ignore_the_body (transport : Transport)
    (ctx : client.Context) (resp : client.Response.t) :
  let quiet (m : Call (option error)) :=
    served transport m resp -> run transport m = None in
  (forall dealID, quiet (deals.ArchiveDeal ctx dealID)) /\
  (forall (Input : Type) (input : Input),
     quiet (deals.BatchArchiveDeals ctx input)) /\
  (forall companyID, quiet (companies.ArchiveCompany ctx companyID)) /\
  (forall input, quiet (companies.BatchArchiveCompanies ctx input)) /\
  (forall f i t j specs, quiet (associations.DeleteAssociation ctx f i t j specs)) /\
  (forall f t input, quiet (associations.BatchCreateAssociations ctx f t input)) /\
  (forall f t input, quiet (associations.BatchDeleteAssociations ctx f t input)) /\
  (forall objectType opts, quiet (schemas.DeleteSchema ctx objectType opts)) /\
  (forall objectType a, quiet (schemas.RemoveAssociationSchema ctx objectType a)) /\
  (forall listID, quiet (lists.DeleteList ctx listID)) /\
  (forall listID, quiet (lists.RestoreList ctx listID)) /\
  (forall listID, quiet (lists.RemoveAllRecords ctx listID)) /\
  (forall listID, quiet (lists.DeleteConversionSchedule ctx listID)).
Proof.
  cbv zeta. repeat apply conj; intros;
    match goal with
    | Hs : served _ ?m _ |- _ =>
        let h := head_of m in unfold h in *; now answer Hs
    end.
Qed.


Lemma deals_report : deals_report_unmarshal_failure.
Proof.
  unfold deals_report_unmarshal_failure. repeat apply conj; intros.
  - report deals.CreateDeal.
  - report deals.GetDeal.
  - report deals.UpdateDeal.
  - report deals.ListDeals.
  - report deals.BatchReadDeals.
  - report deals.BatchCreateDeals.
  - report deals.BatchUpdateDeals.
  - report deals.SearchDeals.
Qed.

Lemma companies_report : companies_report_unmarshal_failure.
Proof.
  unfold companies_report_unmarshal_failure. repeat apply conj; intros.
  - report companies.CreateCompany.
  - report companies.GetCompany.
  - report companies.UpdateCompany.
  - report companies.ListCompanies.
  - report companies.BatchReadCompanies.
  - report companies.BatchCreateCompanies.
  - report companies.BatchUpdateCompanies.
  - report companies.SearchCompanies.
Qed.

Lemma associations_report : associations_report_unmarshal_failure.
Proof.
  unfold associations_report_unmarshal_failure. repeat apply conj; intros.
  - report associations.CreateAssociation.
  - report associations.ListAssociations.
  - report associations.GetAssociationLabels.
Qed.

Lemma schemas_report : schemas_report_unmarshal_failure.
Proof.
  unfold schemas_report_unmarshal_failure. repeat apply conj; intros.
  - report schemas.GetAllSchemas.
  - report schemas.GetExistingSchema.
  - report schemas.CreateNewSchema.
  - report schemas.CreateNewAssociationSchema.
  - report schemas.UpdateSchema.
Qed.

Lemma lists_report : lists_report_unmarshal_failure.
Proof.
  unfold lists_report_unmarshal_failure. repeat apply conj; intros.
  - report lists.GetListByID.
  - report lists.GetListByName.
  - report lists.CreateList.
  - report lists.GetListsByIDs.
  - report lists.SearchLists.
  - report lists.UpdateListName.
  - report lists.UpdateListFilters.
  - report lists.GetRecordMemberships.
  - report lists.BatchGetRecordMemberships.
  - report lists.AddRecordsToList.
  - report lists.AddFromSourceList.
  - report lists.GetListMemberships.
  - report lists.RemoveRecordsFromList.
  - report lists.ScheduleConversion.
  - report lists.GetConversionSchedule.
Qed.

(** C7. Every resource method of the deals, companies, associations,
    schemas and lists packages that decodes an answer into a result type
    returns, on a 2xx answer whose body does not decode, its nil result
    together with a non-nil error that wraps the decoder's error under
    the text "failed to unmarshal <call> response: ", which names the
    call; so it never returns a result with a nil error there. *)
Theorem unmarshal_failure_is_reported :
  deals_report_unmarshal_failure /\
  companies_report_unmarshal_failure /\
  associations_report_unmarshal_failure /\
  schemas_report_unmarshal_failure /\
  lists_report_unmarshal_failure.
Proof.
  exact (conj deals_report
          (conj companies_report
            (conj associations_report
              (conj schemas_report lists_report)))).
Qed.

(** * Further properties of the code *)

(** ** The two classifiers of package lists *)

(** X1. An error that [ParseListError] or [ParseRecordError] has returned
    is left as it is by both of them, whatever identifiers the second
    call is given: classifying twice is classifying once, and the first
    classification wins. *)
Theorem classifiers_absorb (err : error)
    (recordID listID recordID' listID' : string) :
  lists.ParseListError (lists.ParseListError err listID) listID' =
  lists.ParseListError err listID /\
  lists.ParseRecordError (lists.ParseRecordError err recordID listID)
    recordID' listID' =
  lists.ParseRecordError err recordID listID /\
  lists.ParseListError (lists.ParseRecordError err recordID listID) listID' =
  lists.ParseRecordError err recordID listID /\
  lists.ParseRecordError (lists.ParseListError err listID) recordID' listID' =
  lists.ParseListError err listID.
Proof.
  destruct err; try (repeat apply conj; reflexivity).
  repeat apply conj; classify_cases; congruence.
Qed.

(** X2. [ParseRecordError] differs from [ParseListError] on a server
    error with status 404 only: there it returns the RecordNotFound
    variant with the record and the list given, and it never turns a
    server error into the ListNotFound variant; on every other error the
    two return the same.  On every error the two agree on the kind of
    variant and on the server error kept in [Original]. *)
Theorem ParseRecordError_against_ParseListError (recordID listID : string) :
  (forall e, client.Status e = 404 ->
     lists.ParseRecordError (HubSpotErr e) recordID listID =
     recordNotFound recordID listID e) /\
  (forall err, (forall e, err = HubSpotErr e -> client.Status e <> 404) ->
     lists.ParseRecordError err recordID listID =
     lists.ParseListError err listID) /\
  (forall e v,
     lists.ParseRecordError (HubSpotErr e) recordID listID <>
     ListNotFoundErr v) /\
  (forall err,
     tag_of (lists.ParseRecordError err recordID listID) =
     tag_of (lists.ParseListError err listID) /\
     Original (lists.ParseRecordError err recordID listID) =
     Original (lists.ParseListError err listID)).
Proof.
  repeat apply conj.
  - intros e Hst. unfold lists.ParseRecordError. now rewrite Hst.
  - intros err Hne. destruct err; try reflexivity.
    unfold lists.ParseRecordError.
    destruct (Z.eqb_spec (client.Status e) 404) as [Hst | _]; [|reflexivity].
    now destruct (Hne e eq_refl).
  - intros e v. classify_cases; congruence.
  - intros err. destruct err; try (split; reflexivity).
    split; classify_cases; congruence.
Qed.

(** X3. Classification loses no server error: two different server
    errors are never turned into the same error, by [ParseListError], by
    [ParseRecordError], or by one and the other, whatever the
    identifiers given. *)
Theorem classifiers_injective (e1 e2 : client.HubSpotError)
    (recordID1 listID1 recordID2 listID2 : string) :
  e1 <> e2 ->
  lists.ParseListError (HubSpotErr e1) listID1 <>
  lists.ParseListError (HubSpotErr e2) listID2 /\
  lists.ParseRecordError (HubSpotErr e1) recordID1 listID1 <>
  lists.ParseRecordError (HubSpotErr e2) recordID2 listID2 /\
  lists.ParseListError (HubSpotErr e1) listID1 <>
  lists.ParseRecordError (HubSpotErr e2) recordID2 listID2.
Proof.
  intros Hne. repeat apply conj; classify_cases; intros Heq; congruence.
Qed.

(** X4. The text of the typed errors the classifiers make of a 404 and of
    a 409 names what the caller passed and nothing of the server error:
    "list <listID> not found", "record <recordID> not found in list
    <listID>", and, the name of the list being left empty by both
    classifiers, "list with name  already exists" whatever the list. *)
Theorem classified_error_texts (e : client.HubSpotError)
    (recordID listID : string) :
  (client.Status e = 404 ->
   Error (lists.ParseListError (HubSpotErr e) listID) =
   "list " +:+ listID +:+ " not found" /\
   Error (lists.ParseRecordError (HubSpotErr e) recordID listID) =
   "record " +:+ recordID +:+ " not found in list " +:+ listID) /\
  (client.Status e = 409 ->
   Error (lists.ParseListError (HubSpotErr e) listID) =
   "list with name  already exists" /\
   Error (lists.ParseRecordError (HubSpotErr e) recordID listID) =
   "list with name  already exists").
Proof.
  split; intros Hst; unfold lists.ParseRecordError, lists.ParseListError;
    rewrite Hst; split; reflexivity.
Qed.

(** ** Every method of the five clients *)

(** The dispatcher fails or answers the one request of a method. *)
Lemma call_answers pkg opts classify A (O : Outcome A) (m : Call A)
    (transport : Transport) :
  resource_call pkg opts classify m ->
  (exists err, refused transport m err) \/
  (exists resp, served transport m resp).
Proof.
  intros Hm. destruct Hm;
    match goal with
    | |- context [refused _ ?m] => let h := head_of m in unfold h
    end;
    cbn [refused served mbind Call_mbind Call_bind apiClient_Do];
    match goal with
    | |- context [transport ?c ?req] => destruct (transport c req); eauto
    end.
Qed.

(** When the dispatcher fails, the method returns its error, classified
    in package lists, and no result. *)
Lemma call_refused pkg opts classify A (O : Outcome A) (m : Call A)
    (transport : Transport) (err : error) :
  resource_call pkg opts classify m ->
  refused transport m err ->
  failure (run transport m) = Some (classify err) /\ empty (run transport m).
Proof.
  intros Hm Hr. destruct Hm; unfold_call; answer Hr; split; reflexivity.
Qed.

(** When the dispatcher answers, the method returns no error and, where
    it has a result pointer, a result; or the error of the decoder,
    wrapped, and no result; or, in package schemas, the error
    "no schemas found" with a result. *)
Lemma call_served pkg opts classify A (O : Outcome A) (m : Call A)
    (transport : Transport) (resp : client.Response.t) :
  resource_call pkg opts classify m ->
  served transport m resp ->
  (failure (run transport m) = None /\ ~ nil_pointer (run transport m)) \/
  (exists prefix cause,
     failure (run transport m) = Some (Errorf_w prefix cause) /\
     empty (run transport m)) \/
  (pkg = Schemas /\
   failure (run transport m) = Some (Errorf "no schemas found") /\
   ~ empty (run transport m)).
Proof.
  intros Hm Hs. destruct Hm; unfold_call; answer Hs.
  all: try (left; split; [reflexivity | cbn; tauto]).
  all: match goal with
       | |- context [match ?d with Ok _ => _ | Fail _ => _ end] =>
           destruct d as [v | cause]
       end.
  all: try (right; left; eexists _, cause; split; reflexivity).
  all: try (left; split; [reflexivity | cbn; congruence]).
  destruct (length _ =? 0)%nat; [right; right | left];
    repeat apply conj; try reflexivity; cbn; congruence.
Qed.

(** Outside package lists the error of the dispatcher is not classified. *)
Lemma call_unclassified pkg opts classify A (O : Outcome A) (m : Call A) :
  resource_call pkg opts classify m -> pkg <> Lists -> classify = unclassified.
Proof. intros Hm Hpkg. destruct Hm; reflexivity || congruence. Qed.

(** In package lists it goes through one of the two classifiers. *)
Lemma call_classified pkg opts classify A (O : Outcome A) (m : Call A) :
  resource_call pkg opts classify m -> pkg = Lists ->
  (exists listID, classify = fun err => lists.ParseListError err listID) \/
  (exists recordID listID,
     classify = fun err => lists.ParseRecordError err recordID listID).
Proof. intros Hm Hpkg. destruct Hm; try discriminate; eauto. Qed.

(** X5. The methods of packages deals, companies, associations and
    schemas return the error of the dispatcher as it is, with no result:
    no server error, not even a 404 or a 409, is turned into a typed
    variant there. *)
Theorem transport_error_is_returned_unchanged pkg opts classify A
    (O : Outcome A) (m : Call A) (transport : Transport) (err : error) :
  resource_call pkg opts classify m ->
  pkg <> Lists ->
  refused transport m err ->
  failure (run transport m) = Some err /\ empty (run transport m).
Proof.
  intros Hm Hpkg Hr.
  destruct (call_refused _ _ _ _ _ _ transport err Hm Hr) as [Hf He].
  rewrite (call_unclassified _ _ _ _ _ _ Hm Hpkg) in Hf. now split.
Qed.

(** X6. Every method of package lists gives the caller the server error
    of the dispatcher, as it is or in the [Original] field of the typed
    variant it returns, and no result; an error of the dispatcher that is
    no server error is returned as it is; and whatever the dispatcher
    does, no method of the package returns a bare server error with
    status 404, with status 409, or with status 400 and category
    VALIDATION_ERROR. *)
Theorem lists_calls_classify_server_errors opts classify A (O : Outcome A)
    (m : Call A) (transport : Transport) :
  resource_call Lists opts classify m ->
  (forall e, refused transport m (HubSpotErr e) ->
     exists err, failure (run transport m) = Some err /\
                 empty (run transport m) /\
                 (err = HubSpotErr e \/ Original err = Some e)) /\
  (forall err, refused transport m err -> (forall e, err <> HubSpotErr e) ->
     failure (run transport m) = Some err) /\
  (forall e, failure (run transport m) = Some (HubSpotErr e) ->
     client.Status e <> 404 /\ client.Status e <> 409 /\
     ~ (client.Status e = 400 /\ client.Category e = "VALIDATION_ERROR")).
Proof.
  intros Hm. pose proof (call_classified _ _ _ _ _ _ Hm eq_refl) as Hc.
  repeat apply conj.
  - intros e Hr.
    destruct (call_refused _ _ _ _ _ _ transport _ Hm Hr) as [Hf He].
    eexists; repeat apply conj; [exact Hf | exact He |].
    destruct Hc as [(l & ->) | (r & l & ->)]; classify_cases; auto.
  - intros err Hr Hne.
    destruct (call_refused _ _ _ _ _ _ transport _ Hm Hr) as [Hf _].
    rewrite Hf. f_equal.
    destruct Hc as [(l & ->) | (r & l & ->)];
      destruct err; try reflexivity; now destruct (Hne e).
  - intros e Hf.
    destruct (call_answers _ _ _ _ _ _ transport Hm)
      as [(err & Hr) | (resp & Hs)].
    + destruct (call_refused _ _ _ _ _ _ transport _ Hm Hr) as [Hf' _].
      rewrite Hf in Hf'. injection Hf' as Hf'.
      destruct Hc as [(l & ->) | (r & l & ->)]; destruct err; try discriminate;
        revert Hf'; classify_cases; intros Hf'; try discriminate;
        injection Hf' as <-;
        repeat match goal with
               | H : (_ =? _) = false |- _ => apply Z.eqb_neq in H
               | H : (_ =? _) = true |- _ => apply Z.eqb_eq in H
               | H : String.eqb _ _ = false |- _ => apply String.eqb_neq in H
               end;
        repeat apply conj; try lia; intros [? ?]; congruence.
    + destruct (call_served _ _ _ _ _ _ transport resp Hm Hs)
        as [[Hn _] | [(p & c & Hw & _) | (Hp & _)]]; congruence.
Qed.

(** X7. What each method of package lists returns when the server
    answers 404: the ListNotFound variant, or for [GetRecordMemberships]
    the RecordNotFound variant, wrapping the server error, and no result.
    The list named in it is the [listID] the caller passed, with these
    exceptions: [GetListByName] puts the name of the list where the
    identifier belongs, and [CreateList], [GetListsByIDs], [SearchLists],
    [BatchGetRecordMemberships] and [GetRecordMemberships] leave the
    identifier of the list empty. *)
Theorem lists_calls_on_404 :
  (forall ctx listID opts,
     on_404 (lists.GetListByID ctx listID opts) (listNotFound listID)) /\
  (forall ctx ObjectTypeID listName opts,
     on_404 (lists.GetListByName ctx ObjectTypeID listName opts)
       (listNotFound listName)) /\
  (forall ctx input,
     on_404 (lists.CreateList ctx input) (listNotFound "")) /\
  (forall ctx listIDs opts,
     on_404 (lists.GetListsByIDs ctx listIDs opts) (listNotFound "")) /\
  (forall ctx input,
     on_404 (lists.SearchLists ctx input) (listNotFound "")) /\
  (forall ctx listID listName includeFilters,
     on_404 (lists.UpdateListName ctx listID listName includeFilters)
       (listNotFound listID)) /\
  (forall ctx listID filterBranch includeFilters,
     on_404 (lists.UpdateListFilters ctx listID filterBranch includeFilters)
       (listNotFound listID)) /\
  (forall ctx listID,
     on_404 (lists.DeleteList ctx listID) (listNotFound listID)) /\
  (forall ctx listID,
     on_404 (lists.RestoreList ctx listID) (listNotFound listID)) /\
  (forall ctx objectTypeID recordID,
     on_404 (lists.GetRecordMemberships ctx objectTypeID recordID)
       (recordNotFound recordID "")) /\
  (forall ctx inputs,
     on_404 (lists.BatchGetRecordMemberships ctx inputs) (listNotFound "")) /\
  (forall ctx listID recordIDs,
     on_404 (lists.AddRecordsToList ctx listID recordIDs)
       (listNotFound listID)) /\
  (forall ctx listID sourceListID,
     on_404 (lists.AddFromSourceList ctx listID sourceListID)
       (listNotFound listID)) /\
  (forall ctx listID opts,
     on_404 (lists.GetListMemberships ctx listID opts)
       (listNotFound listID)) /\
  (forall ctx listID,
     on_404 (lists.RemoveAllRecords ctx listID) (listNotFound listID)) /\
  (forall ctx listID recordIDs,
     on_404 (lists.RemoveRecordsFromList ctx listID recordIDs)
       (listNotFound listID)) /\
  (forall ctx listID conversionReq,
     on_404 (lists.ScheduleConversion ctx listID conversionReq)
       (listNotFound listID)) /\
  (forall ctx listID,
     on_404 (lists.GetConversionSchedule ctx listID) (listNotFound listID)) /\
  (forall ctx listID,
     on_404 (lists.DeleteConversionSchedule ctx listID)
       (listNotFound listID)).
Proof.
  repeat apply conj; intros; intros transport e Hr Hst; unfold_call;
    answer Hr; unfold lists.ParseRecordError, lists.ParseListError;
    rewrite Hst; split; reflexivity.
Qed.

(** X8. Every method sends exactly one request, whatever the dispatcher
    answers: it never sends a second one, neither to retry after an error
    nor to fetch more, and the request it sends does not depend on the
    dispatcher. *)
Theorem every_call_sends_one_request pkg opts classify A (O : Outcome A)
    (m : Call A) :
  resource_call pkg opts classify m ->
  exists req, dispatched m = Some req /\
              forall transport : Transport, sent transport m = [req].
Proof.
  intros Hm. destruct Hm;
    match goal with
    | |- context [dispatched ?m] => let h := head_of m in unfold h
    end;
    (eexists; split; [reflexivity|]); intros transport;
    by_answer transport; try reflexivity.
  now destruct (length _ =? 0)%nat.
Qed.

(** X9. No method looks at the status code of the response: against two
    dispatchers that give the same errors and the same bodies, whatever
    the status codes that come with the bodies, a method returns the
    same. *)
Theorem calls_ignore_the_status_code pkg opts classify A (O : Outcome A)
    (m : Call A) (transport1 transport2 : Transport) :
  resource_call pkg opts classify m ->
  (forall c req, same_answer (transport1 c req) (transport2 c req)) ->
  run transport1 m = run transport2 m.
Proof.
  intros Hm Hsame. destruct Hm; unfold_call;
    cbn [run mbind Call_mbind Call_bind apiClient_Do];
    match goal with
    | |- context [transport1 ?c ?req] =>
        specialize (Hsame c req);
        destruct (transport1 c req) as [resp1 | err1],
                 (transport2 c req) as [resp2 | err2]
    end; cbn in Hsame; try contradiction; cbv beta iota;
    try rewrite Hsame; try reflexivity.
  all: match goal with
       | |- context [match ?d with Ok _ => _ | Fail _ => _ end] =>
           destruct d as [v | cause]
       end; try reflexivity.
  now destruct (length _ =? 0)%nat.
Qed.

(** X10. An error and a result exclude each other, with one exception.
    When a method returns an error it returns no result with it, unless
    the error is "no schemas found", which only package schemas returns;
    and a method with a result pointer that returns a nil pointer returns
    an error with it. *)
Theorem error_excludes_result pkg opts classify A (O : Outcome A) (m : Call A)
    (transport : Transport) :
  resource_call pkg opts classify m ->
  (forall err, failure (run transport m) = Some err ->
     empty (run transport m) \/
     (pkg = Schemas /\ err = Errorf "no schemas found")) /\
  (nil_pointer (run transport m) -> failure (run transport m) <> None).
Proof.
  intros Hm.
  destruct (call_answers _ _ _ _ _ _ transport Hm)
    as [(err & Hr) | (resp & Hs)].
  - destruct (call_refused _ _ _ _ _ _ transport _ Hm Hr) as [Hf He].
    split; [now left | congruence].
  - destruct (call_served _ _ _ _ _ _ transport resp Hm Hs)
      as [[Hn Hp] | [(p & c & Hw & He) | (Hp & Hf & He)]].
    + split; [congruence | tauto].
    + split; [now left | congruence].
    + split; [|congruence].
      intros err Herr. right. split; [assumption | congruence].
Qed.

(** ** Schemas *)


(** ** Identifiers in paths *)

(** X12. Identifiers go into the path as they are, with no escaping and
    no check, so that an identifier with a slash in it addresses another
    operation: with such an identifier [GetListByID] sends the request of
    [GetListMemberships], of [GetConversionSchedule], of [GetListByName]
    or of [GetRecordMemberships], [DeleteList] the request of
    [RemoveAllRecords] or of [DeleteConversionSchedule], and
    [DeleteSchema] the request of [RemoveAssociationSchema]. *)
Theorem identifiers_are_not_escaped (ctx : client.Context) :
  (forall listID opts,
     dispatched (lists.GetListByID ctx (listID +:+ "/memberships") opts) =
     dispatched (lists.GetListMemberships ctx listID opts)) /\
  (forall listID,
     dispatched
       (lists.GetListByID ctx (listID +:+ "/schedule-conversion") []) =
     dispatched (lists.GetConversionSchedule ctx listID)) /\
  (forall ObjectTypeID listName opts,
     dispatched
       (lists.GetListByID ctx
          ("object-type-id/" +:+ ObjectTypeID +:+ "/name/" +:+ listName)
          opts) =
     dispatched (lists.GetListByName ctx ObjectTypeID listName opts)) /\
  (forall objectTypeID recordID,
     dispatched
       (lists.GetListByID ctx
          ("records/" +:+ objectTypeID +:+ "/" +:+ recordID +:+
           "/memberships") []) =
     dispatched (lists.GetRecordMemberships ctx objectTypeID recordID)) /\
  (forall listID,
     dispatched (lists.DeleteList ctx (listID +:+ "/memberships")) =
     dispatched (lists.RemoveAllRecords ctx listID)) /\
  (forall listID,
     dispatched (lists.DeleteList ctx (listID +:+ "/schedule-conversion")) =
     dispatched (lists.DeleteConversionSchedule ctx listID)) /\
  (forall objectType associationIdentifier,
     dispatched
       (schemas.DeleteSchema ctx
          (objectType +:+ "/associations/" +:+ associationIdentifier) []) =
     dispatched
       (schemas.RemoveAssociationSchema ctx objectType associationIdentifier)).
Proof. repeat apply conj; reflexivity. Qed.

(** ** The request of a method *)

(** The loop of [GetListsByIDs] over the identifiers writes the query
    only. *)
Lemma listIds_frame (listIDs : list string) (req : client.Request) :
  let req' :=
    fold_left (fun r id => client.AddQueryParam r "listIds" id) listIDs req in
  client.Method req' = client.Method req /\
  client.Path req' = client.Path req /\
  client.Body req' = client.Body req /\
  client.ResourceType req' = client.ResourceType req /\
  client.ctx req' = client.ctx req.
Proof.
  revert req. induction listIDs as [|id listIDs IH]; intros req; [easy|].
  cbn [fold_left]. destruct (IH (client.AddQueryParam req "listIds" id))
    as (-> & -> & -> & -> & ->). easy.
Qed.

(** X13. Whatever options of the packages the caller passes, the request
    a method sends carries the context the method hands to the
    dispatcher and the tag of its package, and a GET request carries no
    body. *)
Theorem requests_carry_context_and_tag pkg opts classify A (O : Outcome A)
    (m : Call A) (ws : list (option (string * string))) :
  resource_call pkg opts classify m ->
  Forall2 writes opts ws ->
  exists c req k,
    m = Do c req k /\
    client.ctx req = Some c /\
    client.ResourceType req = resource_type pkg /\
    (client.Method req = "GET" -> client.Body req = None).
Proof.
  intros Hm. destruct Hm; intros Hws;
    match goal with
    | |- context [?m = Do _ _ _] => let h := head_of m in unfold h
    end;
    cbn [mbind Call_mbind Call_bind apiClient_Do];
    (eexists _, _, _; split; [reflexivity|]);
    try match goal with
        | |- context [applyOptions ?o ?r] =>
            destruct (applyOptions_frame o ws Hws r) as (-> & _ & -> & -> & ->)
        end;
    try match goal with
        | |- context [fold_left _ ?ids ?r] =>
            destruct (listIds_frame ids r) as (-> & _ & -> & -> & ->)
        end;
    try match goal with
        | |- context [if ?b then _ else _] => destruct b
        end;
    repeat apply conj; try reflexivity; cbn; congruence.
Qed.


(** ** The includeFilters flag of package lists *)

(** X15. The flag is sent only when it is true, in the three places that
    take it: the option [WithIncludeFilters] writes the query parameter
    [includeFilters=true] or leaves the request as it is, [UpdateListName]
    sends the new name and, only when the flag is true, the parameter,
    and [UpdateListFilters] sends a body with the filter branch and, only
    when the flag is true, the member [includeFilters: true].  The value
    false is never sent. *)
Theorem includeFilters_is_sent_only_when_true (ctx : client.Context)
    (listID listName : string) (filterBranch : lists.FilterBranch.t)
    (includeFilters : bool) :
  (forall req,
     client.Query (lists.WithIncludeFilters includeFilters req)
       !! "includeFilters" =
     if includeFilters then Some "true"
     else client.Query req !! "includeFilters") /\
  (exists req,
     dispatched (lists.UpdateListName ctx listID listName includeFilters) =
     Some req /\
     client.Query req !! "listName" = Some listName /\
     client.Query req !! "includeFilters" =
     if includeFilters then Some "true" else None) /\
  (exists req body,
     dispatched
       (lists.UpdateListFilters ctx listID filterBranch includeFilters) =
     Some req /\
     client.Body req =
     Some (client.Any (gmap string (lists.FilterBranch.t + bool)) body) /\
     body !! "filterBranch" = Some (inl filterBranch) /\
     body !! "includeFilters" =
     if includeFilters then Some (inr true) else None).
Proof.
  repeat apply conj.
  - intros req. destruct includeFilters; [|reflexivity].
    cbn. apply lookup_insert_eq.
  - eexists. split; [reflexivity|]. destruct includeFilters; cbn.
    + split; [|apply lookup_insert_eq].
      rewrite lookup_insert_ne by discriminate. apply lookup_insert_eq.
    + split; [apply lookup_insert_eq|].
      rewrite lookup_insert_ne by discriminate. apply lookup_empty.
  - eexists _, _. split; [reflexivity|]. split; [reflexivity|].
    destruct includeFilters.
    + split; [|apply lookup_insert_eq].
      rewrite lookup_insert_ne by discriminate. apply lookup_singleton_eq.
    + split; [apply lookup_singleton_eq|].
      apply lookup_singleton_ne. discriminate.
Qed.

End Dispatch.

(** * The scenarios of the tests *)

(** The classifier on the server errors of its tests, one per row of the
    table. *)
Lemma ParseListError_mapping_witness :
  lists.ParseListError (HubSpotErr err404) "42" =
    ListNotFoundErr {| ListNotFoundError.ListID := "42";
                       ListNotFoundError.Original := err404 |} /\
  lists.ParseListError (HubSpotErr err400v) "42" =
    ListValidationErr {| ListValidationError.Field := "Invalid email format";
                         ListValidationError.Message := "";
                         ListValidationError.Original := err400v |} /\
  lists.ParseListError (HubSpotErr err400o) "42" = HubSpotErr err400o /\
  lists.ParseListError (HubSpotErr err409) "42" =
    ListAlreadyExistsErr {| ListAlreadyExistsError.ListName := "";
                            ListAlreadyExistsError.Original := err409 |} /\
  lists.ParseListError (HubSpotErr err500) "42" = HubSpotErr err500 /\
  lists.ParseListError (ForeignErr "some other error") "42" =
    ForeignErr "some other error" /\
  Original (lists.ParseListError (HubSpotErr err404) "42") = Some err404.
Proof.
  destruct (ParseListError_mapping "42") as (H1 & H2 & H3 & H4 & H5 & H6 & H7).
  repeat apply conj.
  - apply (H1 err404). reflexivity.
  - apply (H2 err400v); reflexivity.
  - apply (H3 err400o); [reflexivity | discriminate].
  - apply (H4 err409). reflexivity.
  - apply (H5 err500); discriminate.
  - apply (H6 (ForeignErr "some other error")). discriminate.
  - apply (H7 err404 NotFound). reflexivity.
Defined.

(** Classifying the 404 of the tests twice. *)
Lemma ParseListError_idempotent_witness :
  exists original,
    Original (ListNotFoundErr {| ListNotFoundError.ListID := "42";
                                 ListNotFoundError.Original := err404 |}) =
      Some original /\
    lists.ParseListError (HubSpotErr original) "42" =
      ListNotFoundErr {| ListNotFoundError.ListID := "42";
                         ListNotFoundError.Original := err404 |} /\
    tag_of (lists.ParseListError (HubSpotErr original) "42") = Some NotFound.
Proof.
  apply (ParseListError_idempotent err404 "42" _ NotFound); reflexivity.
Defined.

(** The validation error of the tests: its message lands in [Field]. *)
Lemma ParseListError_validation_field_witness :
  exists v,
    lists.ParseListError (HubSpotErr err400v) "42" = ListValidationErr v /\
    ListValidationError.Field v = "Invalid email format" /\
    ListValidationError.Message v = "" /\
    ListValidationError.Error v =
      "validation error on field Invalid email format: " /\
    Error (text := messageText)
      (lists.ParseListError (HubSpotErr err400v) "42") =
      "validation error on field Invalid email format: ".
Proof.
  apply (ParseListError_validation_field (text := messageText) err400v "42");
    reflexivity.
Defined.

(** [limit] is written twice and keeps the second value. *)
Lemma options_last_write_wins_witness :
  let req := client.NewRequest "GET" "/crm/v3/objects/deals" in
  client.Query (applyOptions opts3 req) !! "limit" = Some "20" /\
  client.Query (applyOptions opts3 req) !! "after" = Some "xyz789" /\
  client.Query (applyOptions opts3 req) !! "archived" = None /\
  client.Path (applyOptions opts3 req) = "/crm/v3/objects/deals".
Proof.
  intros req.
  assert (Hw : Forall2 writes opts3
                 [Some ("limit", "10"); Some ("after", "xyz789");
                  Some ("limit", "20")]).
  { repeat constructor. }
  destruct (options_last_write_wins req opts3 _ Hw) as (Hq & _ & Hp & _).
  repeat apply conj.
  - apply (Hq "limit").
  - apply (Hq "after").
  - apply (Hq "archived").
  - apply Hp.
Defined.

(** The expected texts of TestBatchError_Error_WithErrors, _WithMessage,
    _WithoutMessage and _EmptyMessageNoErrors. *)
Lemma BatchError_Error_cases_witness :
  BatchError.Error
    (batchError "Batch operation failed"
       [sub "Object 1 not found"; sub "Object 2 validation error"]) =
    "Batch operation failed: Object 1 not found; Object 2 validation error" /\
  BatchError.Error (batchError "Batch operation failed" []) =
    "Batch operation failed" /\
  BatchError.Error (batchError "" [sub "Object 1 not found"]) =
    "batch error: Object 1 not found" /\
  BatchError.Error (batchError "" []) = "batch error".
Proof.
  repeat apply conj.
  - apply (proj1 (BatchError_Error_cases
                    (batchError "Batch operation failed"
                       [sub "Object 1 not found";
                        sub "Object 2 validation error"])));
      discriminate.
  - apply (proj1 (proj2 (BatchError_Error_cases
                           (batchError "Batch operation failed" []))));
      [discriminate | reflexivity].
  - apply (proj1 (proj2 (proj2 (BatchError_Error_cases
                                  (batchError "" [sub "Object 1 not found"]))))
             eq_refl (sub "Object 1 not found") []).
    reflexivity.
  - apply (proj2 (proj2 (proj2 (BatchError_Error_cases (batchError "" [])))));
      reflexivity.
Defined.

(** TestGetAllSchemas_NoResults. *)
Lemma GetAllSchemas_no_results_witness :
  exists err,
    run (serve noSchemasResp)
      (schemas.GetAllSchemas
         (tagsGetAllSchemas := decodes noSchemasBody noSchemas) ctx0 []) =
    (Some noSchemas, Some err) /\
    strings_Contains (Error (text := messageText) err)
      "no schemas found" = true.
Proof.
  apply (GetAllSchemas_no_results (text := messageText)
           (tagsGetAllSchemas := decodes noSchemasBody noSchemas)
           (serve noSchemasResp) ctx0 [] noSchemasResp noSchemas);
    reflexivity.
Defined.

(** C4 as stated does not hold of [ListObjects]: the server answers
    200 with the body of the empty-list scenario and the caller receives an
    error. *)
Lemma ListObjects_empty_results_is_an_error :
  client.Response.StatusCode emptyListResp = 200 /\
  client.Response.Body emptyListResp = emptyListBody /\
  run (serve emptyListResp)
    (objects.ListObjects
       (jsonListObjects := decodes emptyListBody emptyObjects) ctx0 "contacts" []) =
  ([], None, Some (Errorf "no objects found")) /\
  snd (run (serve emptyListResp)
         (objects.ListObjects
            (jsonListObjects := decodes emptyListBody emptyObjects)
            ctx0 "contacts" [])) <> None.
Proof. repeat apply conj; try reflexivity. discriminate. Qed.

(** The empty-list scenario on the four list calls
    (TestListDeals_WithOptions, TestListAssociations_Empty,
    TestListObjects_NoResults). *)
Lemma list_calls_on_empty_results_witness :
  run (serve emptyListResp)
    (companies.ListCompanies
       (jsonListCompanies := decodes emptyListBody emptyCompanies) ctx0
       [companies.WithLimit 20; companies.WithAfter "xyz789"]) =
  (Some emptyCompanies, None) /\
  run (serve emptyListResp)
    (deals.ListDeals (list string)
       (jsonListDeals := decodes emptyListBody []) ctx0 [deals.WithArchived]) =
  (Some [], None) /\
  run (serve emptyListResp)
    (associations.ListAssociations
       (jsonListAssociations := decodes emptyListBody emptyAssociations) ctx0
       "contacts" "999" "companies" []) =
  (Some emptyAssociations, None) /\
  exists err,
    run (serve emptyListResp)
      (objects.ListObjects
         (jsonListObjects := decodes emptyListBody emptyObjects) ctx0 "contacts" []) =
    ([], None, Some err) /\
    strings_Contains (Error (text := messageText) err)
      "no objects found" = true.
Proof.
  destruct (list_calls_on_empty_results (text := messageText)
              (jsonListCompanies := decodes emptyListBody emptyCompanies)
              (list string) (jsonListDeals := decodes emptyListBody [])
              (jsonListAssociations := decodes emptyListBody emptyAssociations)
              (jsonListObjects := decodes emptyListBody emptyObjects)
              (serve emptyListResp) ctx0 emptyListResp eq_refl eq_refl)
    as (Hc & Hd & Ha & Ho).
  repeat apply conj.
  - apply Hc; reflexivity.
  - apply Hd; reflexivity.
  - apply Ha; reflexivity.
  - apply Ho; reflexivity.
Defined.

(** C1 as stated does not hold of [BatchReadCompanies]: the server
    answers 200 with a COMPLETE batch whose [numErrors] is 1 and the
    caller receives a nil error. *)
Lemma BatchReadCompanies_partial_failure_nil_error :
  client.Response.StatusCode partialFailureResp = 200 /\
  client.Response.Body partialFailureResp = partialFailureBody /\
  run (serve partialFailureResp)
    (companies.BatchReadCompanies
       (jsonBatchCompanies := decodes partialFailureBody partialCompanies)
       ctx0 readTwo) =
  (Some partialCompanies, None).
Proof. repeat apply conj; reflexivity. Qed.

(** The same partial failure answered to the batch read of the objects
    package and to the batch read of the companies package. *)
Lemma batch_calls_on_partial_failure_witness :
  (exists err,
     run (serve partialFailureResp)
       (objects.BatchReadObjects
          (jsonBatchResult := decodes partialFailureBody partialResult)
          someBatchFailure ctx0 "contacts" readTwo) =
     (Some partialResult, Some err)) /\
  run (serve partialFailureResp)
    (companies.BatchReadCompanies
       (jsonBatchCompanies := decodes partialFailureBody partialCompanies)
       ctx0 readTwo) =
  (Some partialCompanies, None).
Proof.
  destruct (batch_calls_on_partial_failure
              (jsonBatchCompanies := decodes partialFailureBody partialCompanies)
              unit (jsonBatchDeals := rejects unit)
              (jsonBatchResult := decodes partialFailureBody partialResult)
              someBatchFailure (serve partialFailureResp) ctx0
              partialFailureResp)
    as (Ho & Hc & _).
  split.
  - apply (Ho _ "contacts" readTwo partialResult
             (objects.BatchReadObjects
                (jsonBatchResult := decodes partialFailureBody partialResult)
                someBatchFailure)).
    + left. reflexivity.
    + reflexivity.
    + reflexivity.
    + reflexivity.
  - apply Hc; reflexivity.
Defined.

(** The invalid-JSON tests: the body [invalid json] on 200. *)
Lemma unmarshal_failure_is_reported_witness :
  run (serve invalidResp)
    (companies.CreateCompany (jsonCompany := rejects _) ctx0 createTest) =
  (None, Some (Errorf_w "failed to unmarshal company response: " syntaxError)) /\
  run (serve invalidResp)
    (schemas.GetAllSchemas (tagsGetAllSchemas := rejectsTags _) ctx0 []) =
  (None, Some (Errorf_w "failed to unmarshal schemas response: " syntaxError)) /\
  run (serve invalidResp)
    (lists.GetListsByIDs (jsonListsByID := rejects _) ctx0 ["1"; "2"] []) =
  ([], Some (Errorf_w "failed to unmarshal lists response: " syntaxError)).
Proof.
  destruct (unmarshal_failure_is_reported
              (text := messageText)
              (tagsGetAllSchemas := rejectsTags _)
              (tagsSchema := rejectsTags _)
              (tagsAssociationSchema := rejectsTags _)
              (jsonCompany := rejects _)
              (jsonListCompanies := rejects _)
              (jsonBatchCompanies := rejects _)
              (jsonSearchCompanies := rejects _)
              unit unit unit unit
              (jsonDeal := rejects _)
              (jsonListDeals := rejects _)
              (jsonBatchDeals := rejects _)
              (jsonSearchDeals := rejects _)
              (jsonAssociation := rejects _)
              (jsonListAssociations := rejects _)
              (jsonLabels := rejects _)
              (jsonList := rejects _)
              (jsonListsByID := rejects _)
              (jsonListSearch := rejects _)
              (jsonRecordMemberships := rejects _)
              (jsonBatchMemberships := rejects _)
              (jsonMembershipChange := rejects _)
              (jsonListMemberships := rejects _)
              (jsonConversion := rejects _))
    as (_ & Hcompanies & _ & Hschemas & Hlists).
  repeat apply conj.
  - destruct Hcompanies as (Hcreate & _).
    apply (Hcreate ctx0 createTest (serve invalidResp) invalidResp syntaxError);
      [reflexivity | cbn; lia | reflexivity].
  - destruct Hschemas as (Hall & _).
    apply (Hall ctx0 [] (serve invalidResp) invalidResp syntaxError);
      [reflexivity | cbn; lia | reflexivity].
  - destruct Hlists as (_ & _ & _ & Hids & _).
    apply (Hids ctx0 ["1"; "2"] [] (serve invalidResp) invalidResp syntaxError);
      [reflexivity | cbn; lia | reflexivity].
Defined.
(** * Scenarios for the further properties *)

(** A 404 for a record, and a 409, which both classifiers treat alike. *)
Lemma ParseRecordError_against_ParseListError_witness :
  lists.ParseRecordError (HubSpotErr err404) "rec-1" "42" =
  recordNotFound "rec-1" "42" err404 /\
  lists.ParseRecordError (HubSpotErr err409) "rec-1" "42" =
  lists.ParseListError (HubSpotErr err409) "42".
Proof.
  destruct (ParseRecordError_against_ParseListError "rec-1" "42")
    as (H404 & Hother & _).
  split.
  - apply H404. reflexivity.
  - apply Hother. intros e [= <-]. cbn. lia.
Defined.

(** Two 404s of the server that differ in their message, for the same
    list. *)
Lemma classifiers_injective_witness :
  lists.ParseListError (HubSpotErr err404) "42" <>
  lists.ParseListError (HubSpotErr err404gone) "42" /\
  lists.ParseRecordError (HubSpotErr err404) "rec-1" "42" <>
  lists.ParseRecordError (HubSpotErr err404gone) "rec-1" "42" /\
  lists.ParseListError (HubSpotErr err404) "42" <>
  lists.ParseRecordError (HubSpotErr err404gone) "rec-1" "42".
Proof.
  apply (classifiers_injective err404 err404gone "rec-1" "42" "rec-1" "42").
  discriminate.
Defined.

(** The texts for list 42 and record rec-1. *)
Lemma classified_error_texts_witness :
  Error (text := messageText)
    (lists.ParseListError (HubSpotErr err404) "42") = "list 42 not found" /\
  Error (text := messageText)
    (lists.ParseRecordError (HubSpotErr err404) "rec-1" "42") =
  "record rec-1 not found in list 42" /\
  Error (text := messageText)
    (lists.ParseListError (HubSpotErr err409) "42") =
  "list with name  already exists".
Proof.
  destruct (classified_error_texts (text := messageText) err404 "rec-1" "42")
    as [H404 _].
  destruct (classified_error_texts (text := messageText) err409 "rec-1" "42")
    as [_ H409].
  destruct (H404 eq_refl) as [Hlist Hrecord].
  destruct (H409 eq_refl) as [Hexists _].
  exact (conj Hlist (conj Hrecord Hexists)).
Defined.

(** TestGetDeal_NotFound: the server answers [GetDeal] with 404, and the
    caller gets the server error itself. *)
Lemma transport_error_is_returned_unchanged_witness :
  run (refuse (HubSpotErr err404))
    (deals.GetDeal unit (jsonDeal := rejects _) ctx0 "999999" []) =
  (None, Some (HubSpotErr err404)).
Proof.
  destruct (transport_error_is_returned_unchanged
           (tagsGetAllSchemas := rejectsTags _)
           (tagsSchema := rejectsTags _)
           (tagsAssociationSchema := rejectsTags _)
           (jsonCompany := rejects _)
           (jsonListCompanies := rejects _)
           (jsonBatchCompanies := rejects _)
           (jsonSearchCompanies := rejects _)
           unit unit unit unit
           (jsonDeal := rejects _)
           (jsonListDeals := rejects _)
           (jsonBatchDeals := rejects _)
           (jsonSearchDeals := rejects _)
           (jsonAssociation := rejects _)
           (jsonListAssociations := rejects _)
           (jsonLabels := rejects _)
           (jsonList := rejects _)
           (jsonListsByID := rejects _)
           (jsonListSearch := rejects _)
           (jsonRecordMemberships := rejects _)
           (jsonBatchMemberships := rejects _)
           (jsonMembershipChange := rejects _)
           (jsonListMemberships := rejects _)
           (jsonConversion := rejects _)
           Deals [] unclassified _ _
           (deals.GetDeal unit (jsonDeal := rejects _) ctx0 "999999" [])
           (refuse (HubSpotErr err404)) (HubSpotErr err404)) as [Hf He].
  - apply call_GetDeal.
  - discriminate.
  - reflexivity.
  - apply injective_projections; [exact He | exact Hf].
Defined.

(** The same 404 for [GetListByID]: the caller gets the ListNotFound
    variant, with the server error in it. *)
Lemma lists_calls_classify_server_errors_witness :
  exists err,
    failure (run (refuse (HubSpotErr err404))
               (lists.GetListByID (jsonList := rejects _) ctx0 "42" [])) =
    Some err /\
    empty (run (refuse (HubSpotErr err404))
             (lists.GetListByID (jsonList := rejects _) ctx0 "42" [])) /\
    (err = HubSpotErr err404 \/ Original err = Some err404).
Proof.
  destruct (lists_calls_classify_server_errors
           (tagsGetAllSchemas := rejectsTags _)
           (tagsSchema := rejectsTags _)
           (tagsAssociationSchema := rejectsTags _)
           (jsonCompany := rejects _)
           (jsonListCompanies := rejects _)
           (jsonBatchCompanies := rejects _)
           (jsonSearchCompanies := rejects _)
           unit unit unit unit
           (jsonDeal := rejects _)
           (jsonListDeals := rejects _)
           (jsonBatchDeals := rejects _)
           (jsonSearchDeals := rejects _)
           (jsonAssociation := rejects _)
           (jsonListAssociations := rejects _)
           (jsonLabels := rejects _)
           (jsonList := rejects _)
           (jsonListsByID := rejects _)
           (jsonListSearch := rejects _)
           (jsonRecordMemberships := rejects _)
           (jsonBatchMemberships := rejects _)
           (jsonMembershipChange := rejects _)
           (jsonListMemberships := rejects _)
           (jsonConversion := rejects _)
           [] (fun err => lists.ParseListError err "42") _ _
           (lists.GetListByID (jsonList := rejects _) ctx0 "42" [])
           (refuse (HubSpotErr err404))) as (Hserver & _).
  - apply call_GetListByID.
  - apply (Hserver err404). reflexivity.
Defined.

(** A list looked up by a name that does not exist: the name stands where
    the identifier belongs. *)
Lemma lists_calls_on_404_witness :
  run (refuse (HubSpotErr err404))
    (lists.GetListByName (jsonList := rejects _) ctx0 "0-1" "My List" []) =
  (None, Some (listNotFound "My List" err404)) /\
  Error (text := messageText) (listNotFound "My List" err404) =
  "list My List not found".
Proof.
  destruct (lists_calls_on_404
           (jsonList := rejects _)
           (jsonListsByID := rejects _)
           (jsonListSearch := rejects _)
           (jsonRecordMemberships := rejects _)
           (jsonBatchMemberships := rejects _)
           (jsonMembershipChange := rejects _)
           (jsonListMemberships := rejects _)
           (jsonConversion := rejects _))
    as (_ & Hname & _).
  destruct (Hname ctx0 "0-1" "My List" [] (refuse (HubSpotErr err404)) err404)
    as [Hf He]; [reflexivity | reflexivity |].
  split; [|reflexivity].
  apply injective_projections; [exact He | exact Hf].
Defined.

(** [ArchiveCompany] sends its DELETE once, whatever comes back. *)
Lemma every_call_sends_one_request_witness :
  exists req,
    dispatched (companies.ArchiveCompany ctx0 "123") = Some req /\
    forall transport : Transport,
      sent transport (companies.ArchiveCompany ctx0 "123") = [req].
Proof.
  apply (every_call_sends_one_request
           (tagsGetAllSchemas := rejectsTags _)
           (tagsSchema := rejectsTags _)
           (tagsAssociationSchema := rejectsTags _)
           (jsonCompany := rejects _)
           (jsonListCompanies := rejects _)
           (jsonBatchCompanies := rejects _)
           (jsonSearchCompanies := rejects _)
           unit unit unit unit
           (jsonDeal := rejects _)
           (jsonListDeals := rejects _)
           (jsonBatchDeals := rejects _)
           (jsonSearchDeals := rejects _)
           (jsonAssociation := rejects _)
           (jsonListAssociations := rejects _)
           (jsonLabels := rejects _)
           (jsonList := rejects _)
           (jsonListsByID := rejects _)
           (jsonListSearch := rejects _)
           (jsonRecordMemberships := rejects _)
           (jsonBatchMemberships := rejects _)
           (jsonMembershipChange := rejects _)
           (jsonListMemberships := rejects _)
           (jsonConversion := rejects _)
           Companies [] unclassified _ _).
  apply call_ArchiveCompany.
Defined.

(** The empty list of companies, handed over with status 200 and with
    status 500. *)
Lemma calls_ignore_the_status_code_witness :
  run (serve emptyListResp)
    (companies.ListCompanies
       (jsonListCompanies := decodes emptyListBody emptyCompanies) ctx0 []) =
  run (serve emptyListResp500)
    (companies.ListCompanies
       (jsonListCompanies := decodes emptyListBody emptyCompanies) ctx0 []).
Proof.
  apply (calls_ignore_the_status_code
           (tagsGetAllSchemas := rejectsTags _)
           (tagsSchema := rejectsTags _)
           (tagsAssociationSchema := rejectsTags _)
           (jsonCompany := rejects _)
           (jsonListCompanies := decodes emptyListBody emptyCompanies)
           (jsonBatchCompanies := rejects _)
           (jsonSearchCompanies := rejects _)
           unit unit unit unit
           (jsonDeal := rejects _)
           (jsonListDeals := rejects _)
           (jsonBatchDeals := rejects _)
           (jsonSearchDeals := rejects _)
           (jsonAssociation := rejects _)
           (jsonListAssociations := rejects _)
           (jsonLabels := rejects _)
           (jsonList := rejects _)
           (jsonListsByID := rejects _)
           (jsonListSearch := rejects _)
           (jsonRecordMemberships := rejects _)
           (jsonBatchMemberships := rejects _)
           (jsonMembershipChange := rejects _)
           (jsonListMemberships := rejects _)
           (jsonConversion := rejects _)
           Companies [] unclassified _ _).
  - apply call_ListCompanies.
  - intros c req. reflexivity.
Defined.

(** The invalid-JSON test of [CreateCompany]: the error of the decoder
    comes with no company. *)
Lemma error_excludes_result_witness :
  (run (serve invalidResp)
     (companies.CreateCompany (jsonCompany := rejects _) ctx0 createTest)).1 =
  None.
Proof.
  destruct (error_excludes_result
           (tagsGetAllSchemas := rejectsTags _)
           (tagsSchema := rejectsTags _)
           (tagsAssociationSchema := rejectsTags _)
           (jsonCompany := rejects _)
           (jsonListCompanies := rejects _)
           (jsonBatchCompanies := rejects _)
           (jsonSearchCompanies := rejects _)
           unit unit unit unit
           (jsonDeal := rejects _)
           (jsonListDeals := rejects _)
           (jsonBatchDeals := rejects _)
           (jsonSearchDeals := rejects _)
           (jsonAssociation := rejects _)
           (jsonListAssociations := rejects _)
           (jsonLabels := rejects _)
           (jsonList := rejects _)
           (jsonListsByID := rejects _)
           (jsonListSearch := rejects _)
           (jsonRecordMemberships := rejects _)
           (jsonBatchMemberships := rejects _)
           (jsonMembershipChange := rejects _)
           (jsonListMemberships := rejects _)
           (jsonConversion := rejects _)
           Companies [] unclassified _ _
           (companies.CreateCompany (jsonCompany := rejects _) ctx0 createTest)
           (serve invalidResp)) as [Herr _].
  - apply call_CreateCompany.
  - destruct (Herr _ eq_refl) as [He | [Hpkg _]].
    + exact He.
    + discriminate Hpkg.
Defined.


(** [ListDeals] with the three options of TestListDeals_WithOptions. *)
Lemma requests_carry_context_and_tag_witness :
  exists c req k,
    deals.ListDeals unit (jsonListDeals := rejects _) ctx0 opts3 = Do c req k /\
    client.ctx req = Some c /\
    client.ResourceType req = "deals" /\
    (client.Method req = "GET" -> client.Body req = None).
Proof.
  apply (requests_carry_context_and_tag
           (tagsGetAllSchemas := rejectsTags _)
           (tagsSchema := rejectsTags _)
           (tagsAssociationSchema := rejectsTags _)
           (jsonCompany := rejects _)
           (jsonListCompanies := rejects _)
           (jsonBatchCompanies := rejects _)
           (jsonSearchCompanies := rejects _)
           unit unit unit unit
           (jsonDeal := rejects _)
           (jsonListDeals := rejects _)
           (jsonBatchDeals := rejects _)
           (jsonSearchDeals := rejects _)
           (jsonAssociation := rejects _)
           (jsonListAssociations := rejects _)
           (jsonLabels := rejects _)
           (jsonList := rejects _)
           (jsonListsByID := rejects _)
           (jsonListSearch := rejects _)
           (jsonRecordMemberships := rejects _)
           (jsonBatchMemberships := rejects _)
           (jsonMembershipChange := rejects _)
           (jsonListMemberships := rejects _)
           (jsonConversion := rejects _)
           Deals opts3 unclassified _ _
           (deals.ListDeals unit (jsonListDeals := rejects _) ctx0 opts3)
           [Some ("limit", "10"); Some ("after", "xyz789");
            Some ("limit", "20")]).
  - apply call_ListDeals.
  - repeat constructor.
Defined.

